(** * fakesnow.fakes: the fake Snowflake cursor and connection over DuckDB

    A shallow embedding of [src/fakesnow/fakes.py].  Python strings are
    modelled as [string] (ASCII text), Python [int] as [Z], [None]-able
    values as [option], and raised exceptions as an explicit result. *)

From Stdlib Require Import ZArith Lia Ascii String.
From stdpp Require Import base strings list gmap pretty.

Local Open Scope Z_scope.
Local Open Scope string_scope.

(** ** Exceptions *)

(** The DuckDB exception classes the code distinguishes ([BinderException],
    [CatalogException]) and the other classes of [duckdb.Error]. *)
Inductive duck_kind :=
| BinderException
| CatalogException
| ParserException
| InvalidInputException
| ConversionException
| OtherDuckException.

(** A DuckDB exception; [duck_args0] is [e.args[0]], the raw message. *)
Record duck_exn := DuckExn { duck_class : duck_kind; duck_args0 : string }.

Inductive exn :=
| ProgrammingError (msg : string) (errno : Z) (sqlstate : string)
| NotImplementedError (msg : string)
| ParseError (msg : string)
| DuckError (e : duck_exn).

Inductive result (A : Type) :=
| Ok (a : A)
| Raise (e : exn).
Arguments Ok {A} a.
Arguments Raise {A} e.

(** ** Python string helpers *)

Module Py.

(** [str.startswith] *)
Definition startswith (s p : string) : bool := String.prefix p s.

(** [command.replace("%s", "?")]: every non-overlapping occurrence,
    scanning left to right. *)
Fixpoint replace_percent_s (s : string) : string :=
  match s with
  | String "%"%char (String "s"%char rest) =>
      String "?"%char (replace_percent_s rest)
  | String c rest => String c (replace_percent_s rest)
  | EmptyString => EmptyString
  end.

(** [s.split("\n")[0]]: the text before the first newline. *)
Fixpoint first_line (s : string) : string :=
  match s with
  | String c rest =>
      if Ascii.eqb c "010"%char then EmptyString else String c (first_line rest)
  | EmptyString => EmptyString
  end.

(** ASCII [str.upper]. *)
Definition upper_char (c : ascii) : ascii :=
  let n := nat_of_ascii c in
  if ((97 <=? n) && (n <=? 122))%nat then ascii_of_nat (n - 32) else c.

Fixpoint upper (s : string) : string :=
  match s with
  | String c rest => String (upper_char c) (upper rest)
  | EmptyString => EmptyString
  end.

(** [\d] on ASCII text. *)
Definition is_digit (c : ascii) : bool :=
  let n := nat_of_ascii c in ((48 <=? n) && (n <=? 57))%nat.

Definition digit_value (c : ascii) : Z := Z.of_nat (nat_of_ascii c) - 48.

(** [int(s)] for a string of decimal digits. *)
Fixpoint int_of_digits_from (acc : Z) (s : string) : Z :=
  match s with
  | String c rest => int_of_digits_from (10 * acc + digit_value c) rest
  | EmptyString => acc
  end.
Definition int (s : string) : Z := int_of_digits_from 0 s.

(** The longest prefix of digits (a greedy [\d*]) and what follows it. *)
Fixpoint take_digits (s : string) : string * string :=
  match s with
  | String c rest =>
      if is_digit c then
        let '(d, r) := take_digits rest in (String c d, r)
      else (EmptyString, s)
  | EmptyString => (EmptyString, EmptyString)
  end.

(** The pattern [\((\d+),(\d+)\)] anchored at the start of [s]: the two
    groups.  After a greedy run of digits the next character is not a
    digit, so no shorter run can be followed by [,] or [)]: the greedy
    match is the only one. *)
Definition match_decimal_here (s : string) : option (string * string) :=
  match s with
  | String "("%char s1 =>
      let '(p, r1) := take_digits s1 in
      match p, r1 with
      | String _ _, String ","%char s2 =>
          let '(q, r2) := take_digits s2 in
          match q, r2 with
          | String _ _, String ")"%char _ => Some (p, q)
          | _, _ => None
          end
      | _, _ => None
      end
  | _ => None
  end.

(** [re.search(r'\((\d+),(\d+)\)', s)]: the leftmost match. *)
Fixpoint search_decimal (s : string) : option (string * string) :=
  match match_decimal_here s with
  | Some m => Some m
  | None =>
      match s with
      | String _ rest => search_decimal rest
      | EmptyString => None
      end
  end.

(** An f-string hole [{x}] for a value that is a [str] or [None]. *)
Definition fmt (x : option string) : string := default "None" x.

(** [a or b] where [a] is a [str]: the empty string is falsy. *)
Definition str_or (a : string) (b : option string) : option string :=
  if String.eqb a "" then b else Some a.

End Py.

(** ** Result metadata ([_describe_as_result_metadata]) *)

Record ResultMetadata := mkResultMetadata {
  name : string;
  type_code : Z;
  display_size : option Z;
  internal_size : option Z;
  precision : option Z;
  scale : option Z;
  is_nullable : bool
}.

Definition as_result_metadata (column_name column_type : string)
  : result ResultMetadata :=
  if String.eqb column_type "BIGINT" then
    Ok (mkResultMetadata column_name 0 None None (Some 38) (Some 0) true)
  else if Py.startswith column_type "DECIMAL" then
    let '(precision, scale) :=
      match Py.search_decimal column_type with
      | Some (m1, m2) => (Some (Py.int m1), Some (Py.int m2))
      | None => (None, None)
      end in
    Ok (mkResultMetadata column_name 0 None None precision scale true)
  else if String.eqb column_type "VARCHAR" then
    Ok (mkResultMetadata column_name 2 None (Some 16777216) None None true)
  else if String.eqb column_type "DOUBLE" then
    Ok (mkResultMetadata column_name 1 None None None None true)
  else if String.eqb column_type "BOOLEAN" then
    Ok (mkResultMetadata column_name 13 None None None None true)
  else if String.eqb column_type "DATE" then
    Ok (mkResultMetadata column_name 3 None None None None true)
  else if String.eqb column_type "TIMESTAMP"
          || String.eqb column_type "TIMESTAMP_NS" then
    Ok (mkResultMetadata column_name 8 None None (Some 0) (Some 9) true)
  else
    Raise (NotImplementedError ("for column type " +:+ column_type)).

(** A row of DuckDB's [DESCRIBE] output: a 6-tuple of which the name and the
    type are used. *)
Record describe_row := mkDescribeRow {
  d_column_name : string;
  d_column_type : string;
  d_null : string;
  d_key : option string;
  d_default : option string;
  d_extra : option string
}.

(** The list comprehension: the first row that raises aborts the whole. *)
Fixpoint _describe_as_result_metadata (describe_results : list describe_row)
  : result (list ResultMetadata) :=
  match describe_results with
  | [] => Ok []
  | r :: rest =>
      match as_result_metadata (d_column_name r) (d_column_type r) with
      | Raise e => Raise e
      | Ok m =>
          match _describe_as_result_metadata rest with
          | Raise e => Raise e
          | Ok ms => Ok (m :: ms)
          end
      end
  end.

(** ** Tables with a primary key

    A table is the list of its rows, each a key and the remaining columns.
    [INSERT ... ON CONFLICT (key) DO UPDATE SET cols = excluded.cols]
    overwrites the columns of the row that has the key, and appends the row
    when no row has it. *)

Module Store.
Section keyed.
Context {K V : Type} `{EqDecision K}.

Fixpoint upsert (k : K) (v : V) (rows : list (K * V)) : list (K * V) :=
  match rows with
  | [] => [(k, v)]
  | (k', v') :: rest =>
      if decide (k' = k) then (k', v) :: rest
      else (k', v') :: upsert k v rest
  end.

(** The rows stored under a key. *)
Definition records (k : K) (rows : list (K * V)) : list (K * V) :=
  filter (λ r, r.1 = k) rows.

(** [SELECT cols WHERE key = k], first row. *)
Fixpoint find (k : K) (rows : list (K * V)) : option V :=
  match rows with
  | [] => None
  | (k', v) :: rest => if decide (k' = k) then Some v else find k rest
  end.

(** The primary-key constraint. *)
Definition primary_key (rows : list (K * V)) : Prop := NoDup (rows.*1).

(** A sequence of upserts, oldest first. *)
Definition run (ops : list (K * V)) (rows : list (K * V)) : list (K * V) :=
  foldl (λ t op, upsert op.1 op.2 t) rows ops.


(** Whether no two rows of one statement have the same key. *)
Fixpoint distinct_keys (rows : list (K * V)) : bool :=
  match rows with
  | [] => true
  | (k, _) :: rest =>
      negb (bool_decide (k ∈ rest.*1)) && distinct_keys rest
  end.
End keyed.
End Store.

(** ** The engine's catalog extension objects

    What DuckDB holds for one attached catalog under [information_schema]
    besides its native views: the two extension tables (absent until
    created) and the join view. *)

Definition tables_ext_key : Type := string * string * string.
Definition columns_ext_key : Type := string * string * string * string.

(** A row of [tables_ext]: the key columns and the nullable [comment]. *)
Definition tables_ext_row : Type := tables_ext_key * option string.

(** A row of [columns_ext]: the key columns, then
    [ext_character_maximum_length] and [ext_character_octet_length]. *)
Definition columns_ext_row : Type := columns_ext_key * (option Z * option Z).

Record info_schema_ext := mkInfoSchemaExt {
  tables_ext : option (list tables_ext_row);
  columns_ext : option (list columns_ext_row);
  columns_snowflake : bool
}.

(** The engine: the attached catalogs, by name, with their extension
    objects, and everything else the engine holds ([Native]). *)
Record DuckDB (Native : Type) := mkDuckDB {
  attached : gmap string info_schema_ext;
  native : Native
}.
Arguments mkDuckDB {Native} attached native.
Arguments attached {Native} d.
Arguments native {Native} d.

(** What [execute] on the engine gives: the engine afterwards, and the
    exception when it raised. *)
Definition duck_outcome (Native : Type) : Type :=
  DuckDB Native * option duck_exn.

(** Bound parameters of a statement: [None], a sequence or a dict. *)
Inductive params (Any : Type) :=
| PNone
| PSeq (values : list Any)
| PDict (items : list (Any * Any)).
Arguments PNone {Any}.
Arguments PSeq {Any} values.
Arguments PDict {Any} items.

Module Sql.

(** A value that, written between single quotes, is the string literal
    denoting it: DuckDB ends a literal at the first single quote. *)
Definition quote_free (s : string) : bool :=
  forallb (λ c, negb (Ascii.eqb c "'"%char)) (list_ascii_of_string s).

Definition ident_start (c : ascii) : bool :=
  let n := nat_of_ascii c in
  (((65 <=? n) && (n <=? 90)) || (n =? 95))%nat.

Definition ident_char (c : ascii) : bool := ident_start c || Py.is_digit c.

(** A name that, written bare, is the identifier denoting it: upper-case
    letters, digits and underscores, not starting with a digit. *)
Definition bare_identifier (s : string) : bool :=
  match s with
  | String c rest => ident_start c && forallb ident_char (list_ascii_of_string rest)
  | EmptyString => false
  end.

(** The range of an [integer] column. *)
Definition int32 (z : Z) : bool :=
  ((-2147483648 <=? z) && (z <=? 2147483647))%Z.

(** The statements the code builds for the extension objects, with the
    values that fill the holes of their text. *)
Inductive ext_statement :=
| CreateTablesExt (catalog : string)
| CreateColumnsExt (catalog : string)
| CreateColumnsView (catalog : string)
| InsertTablesExt (catalog schema table_name comment : string)
| InsertColumnsExt (catalog schema table_name : string)
    (lengths : list (string * Z * Z)).

End Sql.

(** ** The SQL text of the extension statements *)

Definition SQL_CREATE_INFORMATION_SCHEMA_TABLES_EXT (catalog : string) : string :=
  "
create table " +:+ catalog +:+ ".information_schema.tables_ext (
    ext_table_catalog varchar,
    ext_table_schema varchar,
    ext_table_name varchar,
    comment varchar,
    PRIMARY KEY(ext_table_catalog, ext_table_schema, ext_table_name)
)
".

Definition SQL_CREATE_INFORMATION_SCHEMA_COLUMNS_EXT (catalog : string) : string :=
  "
create table " +:+ catalog +:+ ".information_schema.columns_ext (
    ext_table_catalog varchar,
    ext_table_schema varchar,
    ext_table_name varchar,
    ext_column_name varchar,
    ext_character_maximum_length integer,
    ext_character_octet_length integer,
    PRIMARY KEY(ext_table_catalog, ext_table_schema, ext_table_name, ext_column_name)
)
".

Definition SQL_CREATE_INFORMATION_SCHEMA_COLUMNS_VIEW (catalog : string) : string :=
  "
create view " +:+ catalog +:+ ".information_schema.columns_snowflake AS
select table_catalog, table_schema, table_name, column_name, ordinal_position, column_default, is_nullable, data_type,
ext_character_maximum_length as character_maximum_length, ext_character_octet_length as character_octet_length,
case when data_type='BIGINT' then 38 else numeric_precision end as numeric_precision,
case when data_type='BIGINT' then 10 else numeric_precision_radix end as numeric_precision_radix,
numeric_scale,
collation_name, is_identity, identity_generation, identity_cycle
from " +:+ catalog +:+ ".information_schema.columns
left join " +:+ catalog +:+ ".information_schema.columns_ext ext
on ext_table_catalog = table_catalog AND ext_table_schema = table_schema
AND ext_table_name = table_name AND ext_column_name = column_name
".

Definition sql_insert_tables_ext (catalog schema table_name comment : string) : string :=
  "
                INSERT INTO " +:+ catalog +:+ ".information_schema.tables_ext
                values ('" +:+ catalog +:+ "', '" +:+ schema +:+ "', '" +:+ table_name +:+ "', '" +:+ comment +:+ "')
                ON CONFLICT (ext_table_catalog, ext_table_schema, ext_table_name)
                DO UPDATE SET comment = excluded.comment
                ".

(** One tuple of the [values] list; the two numbers are written by
    Python's [int] formatting. *)
Definition sql_length_tuple (catalog schema table_name : string)
    (l : string * Z * Z) : string :=
  "('" +:+ catalog +:+ "', '" +:+ schema +:+ "', '" +:+ table_name +:+ "', '"
    +:+ l.1.1 +:+ "', " +:+ pretty l.1.2 +:+ ", " +:+ pretty l.2 +:+ ")".

(** [", ".join(...)] *)
Fixpoint join_comma (parts : list string) : string :=
  match parts with
  | [] => ""
  | [p] => p
  | p :: rest => p +:+ ", " +:+ join_comma rest
  end.

Definition sql_insert_columns_ext (catalog schema table_name : string)
    (lengths : list (string * Z * Z)) : string :=
  "
                INSERT INTO " +:+ catalog +:+ ".information_schema.columns_ext
                values " +:+ join_comma (map (sql_length_tuple catalog schema table_name) lengths) +:+ "
                ON CONFLICT (ext_table_catalog, ext_table_schema, ext_table_name, ext_column_name)
                DO UPDATE SET ext_character_maximum_length = excluded.ext_character_maximum_length,
                                ext_character_octet_length = excluded.ext_character_octet_length
                ".

Definition sql_of_ext_statement (s : Sql.ext_statement) : string :=
  match s with
  | Sql.CreateTablesExt c => SQL_CREATE_INFORMATION_SCHEMA_TABLES_EXT c
  | Sql.CreateColumnsExt c => SQL_CREATE_INFORMATION_SCHEMA_COLUMNS_EXT c
  | Sql.CreateColumnsView c => SQL_CREATE_INFORMATION_SCHEMA_COLUMNS_VIEW c
  | Sql.InsertTablesExt c s t comment => sql_insert_tables_ext c s t comment
  | Sql.InsertColumnsExt c s t lengths => sql_insert_columns_ext c s t lengths
  end.

(** ** What the engine does with the extension statements

    DuckDB as far as these statements go: name resolution in the attached
    catalogs, [create] of an object that exists raising a
    [CatalogException], and [insert ... on conflict do update] upserting by
    the primary key.  The message texts stand for the engine's own. *)

Section engine.
Context {Native : Type}.

Definition raised (db : DuckDB Native) (k : duck_kind) (msg : string)
  : duck_outcome Native := (db, Some (DuckExn k msg)).

Definition completed (db : DuckDB Native) : duck_outcome Native := (db, None).

Definition set_ext (db : DuckDB Native) (catalog : string) (x : info_schema_ext) : DuckDB Native :=
  mkDuckDB (<[catalog := x]> (attached db)) (native db).

(** Name resolution of [catalog.information_schema.<object>]. *)
Definition in_catalog (db : DuckDB Native) (catalog : string)
    (k : info_schema_ext → duck_outcome Native) : duck_outcome Native :=
  match attached db !! catalog with
  | None => raised db BinderException "Catalog does not exist"
  | Some x => k x
  end.

(** [create table], without [if not exists]. *)
Definition create_tables_ext (db : DuckDB Native) (catalog : string) : duck_outcome Native :=
  in_catalog db catalog (λ x,
    match tables_ext x with
    | Some _ => raised db CatalogException "Table with name tables_ext already exists"
    | None =>
        completed (set_ext db catalog
          (mkInfoSchemaExt (Some []) (columns_ext x) (columns_snowflake x)))
    end).

Definition create_columns_ext (db : DuckDB Native) (catalog : string) : duck_outcome Native :=
  in_catalog db catalog (λ x,
    match columns_ext x with
    | Some _ => raised db CatalogException "Table with name columns_ext already exists"
    | None =>
        completed (set_ext db catalog
          (mkInfoSchemaExt (tables_ext x) (Some []) (columns_snowflake x)))
    end).

(** [create view], without [or replace]; its query reads [columns_ext]. *)
Definition create_columns_view (db : DuckDB Native) (catalog : string) : duck_outcome Native :=
  in_catalog db catalog (λ x,
    if columns_snowflake x then
      raised db CatalogException "View with name columns_snowflake already exists"
    else match columns_ext x with
    | None => raised db CatalogException "Table with name columns_ext does not exist"
    | Some _ =>
        completed (set_ext db catalog
          (mkInfoSchemaExt (tables_ext x) (columns_ext x) true))
    end).

(** [insert ... on conflict (key) do update set comment = excluded.comment] *)
Definition insert_tables_ext (db : DuckDB Native) (catalog schema table_name comment : string)
  : duck_outcome Native :=
  in_catalog db catalog (λ x,
    match tables_ext x with
    | None => raised db CatalogException "Table with name tables_ext does not exist"
    | Some rows =>
        completed (set_ext db catalog
          (mkInfoSchemaExt
             (Some (Store.upsert (catalog, schema, table_name) (Some comment) rows))
             (columns_ext x) (columns_snowflake x)))
    end).

(** The rows of a [values] list of [columns_ext]. *)
Definition length_rows (catalog schema table_name : string)
    (lengths : list (string * Z * Z)) : list columns_ext_row :=
  map (λ l, ((catalog, schema, table_name, l.1.1), (Some l.1.2, Some l.2))) lengths.

(** The multi-row insert of rows with distinct keys: every number has to
    fit its [integer] column, and the rows are upserted in turn.  A command
    that names one key twice is not read here (see [text_denotes]). *)
Definition insert_columns_ext (db : DuckDB Native) (catalog schema table_name : string)
    (lengths : list (string * Z * Z)) : duck_outcome Native :=
  in_catalog db catalog (λ x,
    match columns_ext x with
    | None => raised db CatalogException "Table with name columns_ext does not exist"
    | Some rows =>
        let new := length_rows catalog schema table_name lengths in
        if negb (forallb (λ l, Sql.int32 l.1.2 && Sql.int32 l.2) lengths) then
          raised db ConversionException "Value out of range for INT32"
        else
          completed (set_ext db catalog
            (mkInfoSchemaExt (tables_ext x) (Some (Store.run new rows))
               (columns_snowflake x)))
    end).

Definition run_ext_statement (db : DuckDB Native) (s : Sql.ext_statement) : duck_outcome Native :=
  match s with
  | Sql.CreateTablesExt c => create_tables_ext db c
  | Sql.CreateColumnsExt c => create_columns_ext db c
  | Sql.CreateColumnsView c => create_columns_view db c
  | Sql.InsertTablesExt c s t comment => insert_tables_ext db c s t comment
  | Sql.InsertColumnsExt c s t lengths => insert_columns_ext db c s t lengths
  end.

(** Whether the text written for a statement is that statement, read as
    above: the catalog stands bare as an identifier, every other string
    stands between single quotes and holds none, and a [values] list is
    not empty and names no key twice.  What the engine makes of any other
    text (a literal cut short by a quote, a command that would update one
    row twice) is left to the engine. *)
Definition text_denotes (reserved : string → bool) (s : Sql.ext_statement) : bool :=
  let identifier c := Sql.bare_identifier c && negb (reserved c) in
  match s with
  | Sql.CreateTablesExt c | Sql.CreateColumnsExt c | Sql.CreateColumnsView c =>
      identifier c
  | Sql.InsertTablesExt c s t comment =>
      identifier c && Sql.quote_free s && Sql.quote_free t && Sql.quote_free comment
  | Sql.InsertColumnsExt c s t lengths =>
      identifier c && Sql.quote_free s && Sql.quote_free t
      && forallb (λ l, Sql.quote_free l.1.1) lengths
      && negb (bool_decide (lengths = []))
      && Store.distinct_keys (length_rows c s t lengths)
  end.
End engine.

(** ** The [columns_snowflake] view *)

Module InfoSchema.

(** A row of the engine's own [information_schema.columns], with the columns
    the view selects. *)
Record columns_row := mkColumnsRow {
  table_catalog : string;
  table_schema : string;
  table_name : string;
  column_name : string;
  ordinal_position : Z;
  column_default : option string;
  is_nullable : string;
  data_type : string;
  numeric_precision : option Z;
  numeric_precision_radix : option Z;
  numeric_scale : option Z;
  collation_name : option string;
  is_identity : option string;
  identity_generation : option string;
  identity_cycle : option string
}.

(** A row of the view: the selected native columns, the two [case] columns
    computed, and the two lengths of the joined [columns_ext] row. *)
Record columns_snowflake_row := mkColumnsSnowflakeRow {
  columns : columns_row;
  character_maximum_length : option Z;
  character_octet_length : option Z
}.

Definition key (r : columns_row) : columns_ext_key :=
  (table_catalog r, table_schema r, table_name r, column_name r).

(** [case when data_type='BIGINT' then 38 else numeric_precision end] and the
    same for the radix, with 10. *)
Definition with_snowflake_precision (r : columns_row) : columns_row :=
  let bigint := String.eqb (data_type r) "BIGINT" in
  mkColumnsRow (table_catalog r) (table_schema r) (table_name r) (column_name r)
    (ordinal_position r) (column_default r) (is_nullable r) (data_type r)
    (if bigint then Some 38 else numeric_precision r)
    (if bigint then Some 10 else numeric_precision_radix r)
    (numeric_scale r) (collation_name r) (is_identity r)
    (identity_generation r) (identity_cycle r).

(** The left join of one native row: a view row for each extension row with
    its key, or one with null lengths when there is none. *)
Definition join_row (ext : list columns_ext_row) (r : columns_row)
  : list columns_snowflake_row :=
  match Store.records (key r) ext with
  | [] => [mkColumnsSnowflakeRow (with_snowflake_precision r) None None]
  | matches =>
      map (λ e, mkColumnsSnowflakeRow (with_snowflake_precision r) e.2.1 e.2.2)
        matches
  end.

(** The rows of the view.  Its query has no [order by], so the engine gives
    them in an order of its own: the list is one arrangement of the rows,
    and a query of the view may return any other ([select_columns_snowflake]
    below). *)
Definition view (native_columns : list columns_row) (ext : list columns_ext_row)
  : list columns_snowflake_row :=
  flat_map (join_row ext) native_columns.

End InfoSchema.

(** ** The collaborators of [fakes.py]

    sqlglot ([parse_one], [Expression.transform], [Expression.sql],
    [Expression.find] and the annotations in [Expression.args]), the modules
    [fakesnow.expr], [fakesnow.checks] and [fakesnow.transforms], and DuckDB
    for every statement other than those on the extension objects. *)

Module exp.
(** What the code reads of a [sqlglot.exp.Table]; a missing part is the
    empty string. *)
Record Table := mkTable { catalog : string; db : string; name : string }.
End exp.

(** The rewrites of [fakesnow.transforms], each applied to every node by
    [Expression.transform]. *)
Record Transforms (Expression : Type) := mkTransforms {
  upper_case_unquoted_identifiers : Expression → Expression;
  set_schema : option string → Expression → Expression;
  create_database : Expression → Expression;
  extract_comment : Expression → Expression;
  information_schema_columns_snowflake : Expression → Expression;
  information_schema_tables_ext : Expression → Expression;
  drop_schema_cascade : Expression → Expression;
  tag : Expression → Expression;
  regex : Expression → Expression;
  semi_structured_types : Expression → Expression;
  parse_json : Expression → Expression;
  indices_to_array : Expression → Expression;
  indices_to_object : Expression → Expression;
  values_columns : Expression → Expression;
  to_date : Expression → Expression;
  object_construct : Expression → Expression;
  timestamp_ntz_ns : Expression → Expression;
  float_to_double : Expression → Expression;
  integer_precision : Expression → Expression;
  extract_text_length : Expression → Expression
}.

Class Env := mkEnv {
  (** [sqlglot.exp.Expression] *)
  Expression : Type;
  (** a bound parameter value *)
  Any : Type;
  (** what the engine holds besides the extension objects *)
  Native : Type;
  (** [pyarrow.Table] *)
  ArrowTable : Type;
  (** [parse_one(sql, read="snowflake")] *)
  parse_one : string → result Expression;
  (** [expression.transform(f)] *)
  transform : (Expression → Expression) → Expression → Expression;
  (** [transformed.sql(dialect="duckdb")] *)
  sql_duckdb : Expression → string;
  (** [expression.find(exp.Identifier)]: [None] when there is no identifier,
      [Some None] when its [this] is not a [str], [Some (Some s)] when it is
      the string [s]. *)
  find_Identifier : Expression → option (option string);
  (** [transformed.find(exp.Table)] *)
  find_Table : Expression → option exp.Table;
  (** [transformed.args.get("create_db_name")] *)
  args_create_db_name : Expression → option string;
  (** [transformed.args.get("table_comment")] *)
  args_table_comment : Expression → option (exp.Table * option string);
  (** [transformed.args.get("text_lengths")] *)
  args_text_lengths : Expression → option (list (string * Z));
  (** [fakesnow.expr.key_command] *)
  key_command : Expression → string;
  (** [fakesnow.checks.is_unqualified_table_expression] *)
  is_unqualified_table_expression : Expression → bool * bool;
  transforms : Transforms Expression;
  (** [DuckDBPyConnection.execute] *)
  duck_execute : DuckDB Native → string → params Any → duck_outcome Native;
  (** DuckDB's reserved words *)
  reserved_word : string → bool;
  (** the rows of [catalog.information_schema.columns] *)
  information_schema_columns : DuckDB Native → string → list InfoSchema.columns_row
}.

(** ** The connection, the cursor and what they run on *)

(** The session context kept by [FakeSnowflakeConnection]. *)
Record FakeSnowflakeConnection := mkConnection {
  database : option string;
  schema : option string;
  database_set : bool;
  schema_set : bool;
  _paramstyle : string
}.

(** [command: str | exp.Expression] *)
Inductive command (Expression : Type) :=
| CmdStr (text : string)
| CmdExpr (expression : Expression).
Arguments CmdStr {Expression} text.
Arguments CmdExpr {Expression} expression.

(** [seqparams: Sequence[Any] | dict[str, Any]]; an element of the sequence is
    what [execute] takes as [params]. *)
Inductive seqparams (Any : Type) :=
| SeqParams (sets : list (params Any))
| DictParams (items : list (string * Any)).
Arguments SeqParams {Any} sets.
Arguments DictParams {Any} items.

Section fakes.
Context {E : Env}.

Record FakeSnowflakeCursor := mkCursor {
  _use_dict_result : bool;
  _last_sql : option string;
  _last_params : params Any;
  _arrow_table : option ArrowTable
}.

(** The calls made to the collaborators, in order. *)
Inductive event :=
| Parsed (text : string)
| Transformed (expression : Expression)
| Emitted (text : string)
| Executed (text : string) (p : params Any).

Record world := mkWorld {
  conn : FakeSnowflakeConnection;
  cur : FakeSnowflakeCursor;
  duck : DuckDB Native;
  trace : list event
}.

(** A method body: it ends by returning or by raising, and leaves a world
    either way. *)
Definition M (A : Type) : Type := world → result A * world.

#[export] Instance M_ret : MRet M := λ A a w, (Ok a, w).

#[export] Instance M_bind : MBind M := λ A B k m w,
  match m w with
  | (Ok a, w') => k a w'
  | (Raise e, w') => (Raise e, w')
  end.

#[export] Instance M_fmap : FMap M := λ A B f m w,
  match m w with
  | (Ok a, w') => (Ok (f a), w')
  | (Raise e, w') => (Raise e, w')
  end.

Definition raise {A : Type} (e : exn) : M A := λ w, (Raise e, w).

(** The outcome of a call that reads no state. *)
Definition call {A : Type} (r : result A) : M A := λ w, (r, w).

Definition get : M world := λ w, (Ok w, w).

Definition put_conn (c : FakeSnowflakeConnection) : M unit :=
  λ w, (Ok tt, mkWorld c (cur w) (duck w) (trace w)).

Definition put_cur (c : FakeSnowflakeCursor) : M unit :=
  λ w, (Ok tt, mkWorld (conn w) c (duck w) (trace w)).

Definition record_event (ev : event) : M unit :=
  λ w, (Ok tt, mkWorld (conn w) (cur w) (duck w) (trace w ++ [ev])).

(** [try: body except duckdb.BinderException ... except
    duckdb.CatalogException ...], given what the handlers raise instead. *)
Definition try_except {A : Type} (body : M A) (handlers : exn → exn) : M A :=
  λ w, match body w with
       | (Raise e, w') => (Raise (handlers e), w')
       | r => r
       end.

(** [self._duck_conn.execute(sql, params)] for a statement the engine is
    left to read. *)
Definition _duck_conn_execute (text : string) (p : params Any) : M unit :=
  λ w, let '(d, r) := duck_execute (duck w) text p in
       (match r with None => Ok tt | Some e => Raise (DuckError e) end,
        mkWorld (conn w) (cur w) d (trace w ++ [Executed text p])).

(** [self._duck_conn.execute(text)] for a statement on the extension
    objects: the engine does what the statement says where the text denotes
    it, and is left to read the text where it does not. *)
Definition duck_execute_ext (d : DuckDB Native) (s : Sql.ext_statement)
  : duck_outcome Native :=
  if text_denotes reserved_word s then run_ext_statement d s
  else duck_execute d (sql_of_ext_statement s) PNone.

Definition _duck_conn_execute_ext (s : Sql.ext_statement) : M unit :=
  λ w, let '(d, r) := duck_execute_ext (duck w) s in
       (match r with None => Ok tt | Some e => Raise (DuckError e) end,
        mkWorld (conn w) (cur w) d
          (trace w ++ [Executed (sql_of_ext_statement s) PNone])).

(** [FakeSnowflakeConnection._create_info_schema_ext] *)
Definition _create_info_schema_ext (catalog : string) : M unit :=
  _duck_conn_execute_ext (Sql.CreateTablesExt catalog) ;;
  _duck_conn_execute_ext (Sql.CreateColumnsExt catalog) ;;
  _duck_conn_execute_ext (Sql.CreateColumnsView catalog).

(** The truth value of [params]. *)
Definition params_truthy (p : params Any) : bool :=
  match p with
  | PNone => false
  | PSeq values => negb (bool_decide (values = []))
  | PDict items => negb (bool_decide (items = []))
  end.

(** [FakeSnowflakeCursor._rewrite_params] *)
Definition _rewrite_params (text : string) (p : params Any) : M string :=
  match p with
  | PDict _ => raise (NotImplementedError "dict params not supported yet")
  | _ =>
      w ← get;
      if params_truthy p
         && (String.eqb (_paramstyle (conn w)) "pyformat"
             || String.eqb (_paramstyle (conn w)) "format")
      then mret (Py.replace_percent_s text)
      else mret text
  end.

(** The chain of [.transform(...)] calls, in its order. *)
Definition transform_chain (current_database : option string)
    (expression : Expression) : Expression :=
  foldl (λ e f, transform f e) expression
    [ upper_case_unquoted_identifiers _ transforms;
      set_schema _ transforms current_database;
      create_database _ transforms;
      extract_comment _ transforms;
      information_schema_columns_snowflake _ transforms;
      information_schema_tables_ext _ transforms;
      drop_schema_cascade _ transforms;
      tag _ transforms;
      regex _ transforms;
      semi_structured_types _ transforms;
      parse_json _ transforms;
      indices_to_array _ transforms;
      indices_to_object _ transforms;
      values_columns _ transforms;
      to_date _ transforms;
      object_construct _ transforms;
      timestamp_ntz_ns _ transforms;
      float_to_double _ transforms;
      integer_precision _ transforms;
      extract_text_length _ transforms ].

Definition no_database_error (cmd : string) : exn :=
  ProgrammingError
    ("Cannot perform " +:+ cmd +:+ ". This session does not have a current database. Call 'USE DATABASE', or use a qualified name.")
    90105 "22000".

Definition no_schema_error (cmd : string) : exn :=
  ProgrammingError
    ("Cannot perform " +:+ cmd +:+ ". This session does not have a current schema. Call 'USE SCHEMA', or use a qualified name.")
    90106 "22000".

(** The two [except] clauses of [execute]. *)
Definition engine_error_handlers (e : exn) : exn :=
  match e with
  | DuckError (DuckExn BinderException args0) =>
      ProgrammingError args0 2043 "02000"
  | DuckError (DuckExn CatalogException args0) =>
      ProgrammingError (Py.first_line args0) 2003 "42S02"
  | _ => e
  end.

(** The rows written for [text_lengths]: the declared size and
    [min(size*4,16777216)]. *)
Definition text_length_values (text_lengths : list (string * Z))
  : list (string * Z * Z) :=
  map (λ cs, (cs.1, cs.2, Z.min (cs.2 * 4) 16777216)) text_lengths.

(** [execute], line 139: [self._arrow_table = None]. *)
Definition reset_arrow_table : M unit :=
  c ← cur <$> get;
  put_cur (mkCursor (_use_dict_result c) (_last_sql c) (_last_params c) None).

(** [execute], lines 141-144: the expression given, or parsed from the
    command text with its parameter markers rewritten. *)
Definition parsed_expression (cmd_or_expr : command Expression) (p : params Any)
  : M Expression :=
  match cmd_or_expr with
  | CmdExpr e => mret e
  | CmdStr text =>
      rewritten ← _rewrite_params text p;
      record_event (Parsed rewritten) ;;
      call (parse_one rewritten)
  end.

(** [execute], lines 148-161: the two session-context checks; what they
    raise, if they do. *)
Definition session_context_error (s : FakeSnowflakeConnection) (cmd : string)
    (expression : Expression) : option exn :=
  let '(no_database, no_schema) := is_unqualified_table_expression expression in
  if no_database && negb (database_set s) then Some (no_database_error cmd)
  else if no_schema && negb (schema_set s) then Some (no_schema_error cmd)
  else None.

Definition check_session_context (cmd : string) (expression : Expression)
  : M unit :=
  s ← conn <$> get;
  match session_context_error s cmd expression with
  | Some e => raise e
  | None => mret tt
  end.

(** [execute], lines 187-197: the guarded call of the engine. *)
Definition execute_on_engine (text : string) (p : params Any) : M unit :=
  try_except
    (c ← cur <$> get;
     put_cur (mkCursor (_use_dict_result c) (Some text) p (_arrow_table c)) ;;
     _duck_conn_execute text p)
    engine_error_handlers.

(** [execute], lines 199-205: [USE DATABASE] and [USE SCHEMA] set the
    session context. *)
Definition use_database_or_schema (cmd : string) (expression : Expression)
  : M unit :=
  (if String.eqb cmd "USE DATABASE" then
     match find_Identifier expression with
     | Some (Some this) =>
         s ← conn <$> get;
         put_conn (mkConnection (Some (Py.upper this)) (schema s) true
                     (schema_set s) (_paramstyle s))
     | _ => mret tt
     end
   else mret tt) ;;
  if String.eqb cmd "USE SCHEMA" then
    match find_Identifier expression with
    | Some (Some this) =>
        s ← conn <$> get;
        put_conn (mkConnection (database s) (Some (Py.upper this))
                    (database_set s) true (_paramstyle s))
    | _ => mret tt
    end
  else mret tt.

(** [execute], lines 207-209: the extension objects of a new database. *)
Definition create_info_schema_ext_of (transformed : Expression) : M unit :=
  match args_create_db_name transformed with
  | Some create_db_name =>
      if String.eqb create_db_name "" then mret tt
      else _create_info_schema_ext create_db_name
  | None => mret tt
  end.

(** [execute], lines 211-223: the table comment. *)
Definition record_table_comment (transformed : Expression) : M unit :=
  match args_table_comment transformed with
  | Some (table, comment) =>
      s ← conn <$> get;
      let catalog := Py.str_or (exp.catalog table) (database s) in
      let schema := Py.str_or (exp.db table) (schema s) in
      _duck_conn_execute_ext
        (Sql.InsertTablesExt (Py.fmt catalog) (Py.fmt schema) (exp.name table)
           (Py.fmt comment))
  | None => mret tt
  end.

(** [execute], lines 225-242: the text lengths. *)
Definition record_text_lengths (transformed : Expression) : M unit :=
  match args_text_lengths transformed, find_Table transformed with
  | Some (l :: ls), Some table =>
      s ← conn <$> get;
      let catalog := Py.str_or (exp.catalog table) (database s) in
      let schema := Py.str_or (exp.db table) (schema s) in
      _duck_conn_execute_ext
        (Sql.InsertColumnsExt (Py.fmt catalog) (Py.fmt schema) (exp.name table)
           (text_length_values (l :: ls)))
  | _, _ => mret tt
  end.

(** [FakeSnowflakeCursor.execute] *)
Definition execute (cmd_or_expr : command Expression) (p : params Any)
  : M FakeSnowflakeCursor :=
  reset_arrow_table ;;
  expression ← parsed_expression cmd_or_expr p;
  let cmd := key_command expression in
  check_session_context cmd expression ;;
  s ← conn <$> get;
  let transformed := transform_chain (database s) expression in
  record_event (Transformed transformed) ;;
  let text := sql_duckdb transformed in
  record_event (Emitted text) ;;
  execute_on_engine text p ;;
  use_database_or_schema cmd expression ;;
  create_info_schema_ext_of transformed ;;
  record_table_comment transformed ;;
  record_text_lengths transformed ;;
  cur <$> get.

(** The [for] loop of [executemany]. *)
Fixpoint execute_each (text : string) (sets : list (params Any)) : M unit :=
  match sets with
  | [] => mret tt
  | p :: rest => execute (CmdStr text) p ;; execute_each text rest
  end.

(** [FakeSnowflakeCursor.executemany] *)
Definition executemany (text : string) (sp : seqparams Any)
  : M FakeSnowflakeCursor :=
  match sp with
  | DictParams _ => raise (NotImplementedError "dict params not supported yet")
  | SeqParams sets => execute_each text sets ;; cur <$> get
  end.

(** The rows of [catalog.information_schema.columns_snowflake], in one
    arrangement, when the view and the table it joins exist. *)
Definition columns_snowflake_rows (d : DuckDB Native) (catalog : string)
  : option (list InfoSchema.columns_snowflake_row) :=
  x ← attached d !! catalog;
  ext ← columns_ext x;
  if columns_snowflake x
  then Some (InfoSchema.view (information_schema_columns d catalog) ext)
  else None.

(** [select * from catalog.information_schema.columns_snowflake] may return
    [rows]: they are the rows of the view, in some order. *)
Definition select_columns_snowflake (d : DuckDB Native) (catalog : string)
    (rows : list InfoSchema.columns_snowflake_row) : Prop :=
  ∃ listed, columns_snowflake_rows d catalog = Some listed ∧ rows ≡ₚ listed.

End fakes.

(** ** The catalog extension store

    What the engine holds of the store for a catalog, and the writes of
    [execute] to it. *)

Section store_operations.
Context {Native : Type}.

Definition tables_ext_of (d : DuckDB Native) (catalog : string)
  : option (list tables_ext_row) :=
  x ← attached d !! catalog; tables_ext x.

Definition columns_ext_of (d : DuckDB Native) (catalog : string)
  : option (list columns_ext_row) :=
  x ← attached d !! catalog; columns_ext x.

Definition has_view (d : DuckDB Native) (catalog : string) : bool :=
  match attached d !! catalog with
  | Some x => columns_snowflake x
  | None => false
  end.

End store_operations.

Section extension_writes.
Context {E : Env}.

(** The catalog and the schema a write names: the table's own or, where the
    table names none, the session's ([table.catalog or self._conn.database],
    [table.db or self._conn.schema]), as the f-string formats them. *)
Definition write_catalog (s : FakeSnowflakeConnection) (table : exp.Table) : string :=
  Py.fmt (Py.str_or (exp.catalog table) (database s)).

Definition write_schema (s : FakeSnowflakeConnection) (table : exp.Table) : string :=
  Py.fmt (Py.str_or (exp.db table) (schema s)).






End extension_writes.

(** ** The closed table of the specification

    The type strings the specification's table lists: the seven names and
    [DECIMAL(p,s)] with [p] and [s] written in digits. *)

Definition all_digits (s : string) : bool :=
  match s with
  | EmptyString => false
  | _ => forallb Py.is_digit (list_ascii_of_string s)
  end.

Definition spec_decimal (p s : string) : string :=
  "DECIMAL(" +:+ p +:+ "," +:+ s +:+ ")".

Definition spec_named_type (column_type : string) : bool :=
  bool_decide (column_type ∈
    ["BIGINT"; "VARCHAR"; "DOUBLE"; "BOOLEAN"; "DATE"; "TIMESTAMP"; "TIMESTAMP_NS"]).

Definition in_spec_table (column_type : string) : Prop :=
  spec_named_type column_type = true
  ∨ ∃ p s, all_digits p = true ∧ all_digits s = true
           ∧ column_type = spec_decimal p s.

(** ** N sequential [execute] calls

    What a caller gets from calling [execute(command, p)] for each parameter
    set in turn: the world after the last call made, and the exception of
    the call that raised, after which no further call is made. *)

Section sequential.
Context {E : Env}.

Fixpoint sequential_executes (text : string) (sets : list (params Any))
    (w : world) : world * option exn :=
  match sets with
  | [] => (w, None)
  | p :: rest =>
      match execute (CmdStr text) p w with
      | (Ok _, w') => sequential_executes text rest w'
      | (Raise e, w') => (w', Some e)
      end
  end.

(** The events added to the trace between two worlds. *)
Definition new_events (w w' : world) : list event :=
  drop (length (trace w)) (trace w').

Definition is_parse_event (ev : event) : bool :=
  match ev with Parsed _ => true | _ => false end.

(** A computation that ends with the session context it started with. *)
Definition keeps_session {A : Type} (m : M A) : Prop :=
  ∀ w r w', m w = (r, w') → conn w' = conn w.

(** The world in which [execute] calls the engine: the session context and
    the engine of [w], the cursor as parsing left it, and the trace with the
    transformed expression and the emitted text. *)
Definition before_engine (w1 : world) (transformed : Expression) : world :=
  mkWorld (conn w1) (cur w1) (duck w1)
    ((trace w1 ++ [Transformed transformed]) ++ [Emitted (sql_duckdb transformed)]).

(** What [execute] does once the engine has run the statement. *)
Definition after_engine (expression transformed : Expression)
  : M FakeSnowflakeCursor :=
  use_database_or_schema (key_command expression) expression ;;
  create_info_schema_ext_of transformed ;;
  record_table_comment transformed ;;
  record_text_lengths transformed ;;
  cur <$> get.

End sequential.

(** ** An instance of the collaborators

    A small parser, emitter and engine on which the embedding runs: four
    statements, of which the engine rejects two. *)

Module Example.

Record expr := mkExpr {
  e_key : string;
  e_unqualified : bool * bool;
  e_sql : string;
  e_identifier : option (option string);
  e_table : option exp.Table;
  e_create_db_name : option string;
  e_table_comment : option (exp.Table * option string);
  e_text_lengths : option (list (string * Z))
}.

Definition T : exp.Table := exp.mkTable "" "" "T".

Definition select_t : expr :=
  mkExpr "SELECT" (true, true) "SELECT * FROM T" None (Some T) None None None.

Definition select_x : expr :=
  mkExpr "SELECT" (true, true) "SELECT X FROM T" None (Some T) None None None.

Definition select_missing : expr :=
  mkExpr "SELECT" (true, true) "SELECT * FROM MISSING" None
    (Some (exp.mkTable "" "" "MISSING")) None None None.

Definition create_t : expr :=
  mkExpr "CREATE TABLE" (true, true) "CREATE TABLE T (NAME TEXT)" None (Some T)
    None None (Some [("NAME", 50)]).

Definition use_db2 : expr :=
  mkExpr "USE DATABASE" (false, false) "SET schema = 'db2.main'"
    (Some (Some "db2")) None None None None.

Definition parse (text : string) : result expr :=
  if String.eqb text "select * from t" then Ok select_t
  else if String.eqb text "select x from t" then Ok select_x
  else if String.eqb text "select * from missing" then Ok select_missing
  else if String.eqb text "create table t (name varchar(50))" then Ok create_t
  else if String.eqb text "use database db2" then Ok use_db2
  else Raise (ParseError "Invalid expression").

Definition binder_message : string :=
  "Binder Error: Referenced column X not found in FROM clause!
LINE 1: SELECT X FROM T".

Definition catalog_message : string :=
  "Catalog Error: Table with name MISSING does not exist!
Did you mean T?".

Definition engine (d : DuckDB unit) (text : string) (p : params Z)
  : duck_outcome unit :=
  if String.eqb text "SELECT X FROM T" then
    (d, Some (DuckExn BinderException binder_message))
  else if String.eqb text "SELECT * FROM MISSING" then
    (d, Some (DuckExn CatalogException catalog_message))
  else (d, None).

Definition name_column : InfoSchema.columns_row :=
  InfoSchema.mkColumnsRow "DB1" "MAIN" "T" "NAME" 1 None "YES" "VARCHAR"
    None None None None None None None.

#[export] Instance env : Env := {|
  Expression := expr;
  Any := Z;
  Native := unit;
  ArrowTable := unit;
  parse_one := parse;
  transform := λ f e, f e;
  sql_duckdb := e_sql;
  find_Identifier := e_identifier;
  find_Table := e_table;
  args_create_db_name := e_create_db_name;
  args_table_comment := e_table_comment;
  args_text_lengths := e_text_lengths;
  key_command := e_key;
  is_unqualified_table_expression := e_unqualified;
  transforms :=
    mkTransforms expr id (λ _, id) id id id id id id id id id id id id id id id
      id id id;
  duck_execute := engine;
  reserved_word := λ s, bool_decide (s ∈ ["SELECT"; "TABLE"; "FROM"]);
  information_schema_columns := λ _ _, [name_column]
|}.

(** A catalog just attached, and one with its extension objects. *)
Definition fresh : info_schema_ext := mkInfoSchemaExt None None false.
Definition extended : info_schema_ext := mkInfoSchemaExt (Some []) (Some []) true.

Definition db_fresh : DuckDB unit := mkDuckDB {[ "DB1" := fresh ]} tt.
Definition db_extended : DuckDB unit := mkDuckDB {[ "DB1" := extended ]} tt.

Definition session (database_set schema_set : bool) : FakeSnowflakeConnection :=
  mkConnection (Some "DB1") (Some "MAIN") database_set schema_set "pyformat".

Definition cursor0 : FakeSnowflakeCursor := mkCursor false None PNone None.

Definition world_of (s : FakeSnowflakeConnection) (d : DuckDB unit) : world :=
  mkWorld s cursor0 d [].

End Example.

(** ** The rest of the cursor and of the connection *)

(** Whether a text starts with [s]. *)
Definition starts_with_s (s : string) : bool :=
  match s with
  | String c _ => Ascii.eqb c "s"%char
  | EmptyString => false
  end.

(** Whether [%s] occurs in a text. *)
Fixpoint has_percent_s (s : string) : bool :=
  match s with
  | String c rest =>
      (Ascii.eqb c "%"%char && starts_with_s rest) || has_percent_s rest
  | EmptyString => false
  end.

(** Whether a newline occurs in a text. *)
Definition has_newline (s : string) : bool :=
  existsb (λ ch, Ascii.eqb ch "010"%char) (list_ascii_of_string s).

(** The truth value of a [str] or [None]. *)
Definition truthy (s : option string) : bool :=
  match s with
  | Some text => negb (String.eqb text "")
  | None => false
  end.

(** What reading a result off the engine gives: [sqlglot.parse] and
    [Expression.sql] for the warehouse dialect, [transforms.as_describe],
    and [fetchall] and [fetchone] of the DuckDB connection, which consume
    the pending result. *)
Class Results {E : Env} := mkResults {
  (** [sqlglot.parse(sql_text, read="snowflake")]: an entry per statement,
      [None] for an empty one *)
  sqlglot_parse : string → result (list (option Expression));
  (** [e.sql(dialect="snowflake")] *)
  sql_snowflake : Expression → string;
  (** [fakesnow.transforms.as_describe] *)
  as_describe : Expression → Expression;
  (** [DuckDBPyConnection.fetchall()] after a [DESCRIBE] *)
  duck_fetchall : DuckDB Native → list describe_row * DuckDB Native;
  (** whether [DuckDBPyConnection.fetchone()] gives a row *)
  duck_fetchone : DuckDB Native → bool * DuckDB Native
}.

Section session.
Context {E : Env} {R : Results}.

(** A computation that ends with the value of [f] it started with. *)
Definition keeps {A X : Type} (f : world → X) (m : M A) : Prop :=
  ∀ w r w', m w = (r, w') → f w' = f w.

(** [self._duck_conn.fetchall()] *)
Definition _duck_conn_fetchall : M (list describe_row) :=
  λ w, let '(rows, d) := duck_fetchall (duck w) in
       (Ok rows, mkWorld (conn w) (cur w) d (trace w)).

(** [duck_conn.fetchone()], as a truth value. *)
Definition _duck_conn_fetchone : M bool :=
  λ w, let '(row, d) := duck_fetchone (duck w) in
       (Ok row, mkWorld (conn w) (cur w) d (trace w)).

(** [duck_conn.execute(text).fetchone()] *)
Definition execute_fetchone (text : string) : M bool :=
  _duck_conn_execute text PNone ;; _duck_conn_fetchone.

(** [FakeSnowflakeCursor.describe] *)
Definition describe (text : string) (p : params Any) : M (list ResultMetadata) :=
  record_event (Parsed text) ;;
  expression ← call (parse_one text);
  execute (CmdExpr (as_describe expression)) p ;;
  rows ← _duck_conn_fetchall;
  call (_describe_as_result_metadata rows).

(** [FakeSnowflakeConnection.cursor]: the world goes on with a new cursor;
    [dict_cursor] is [cursor_class == DictCursor]. *)
Definition cursor (dict_cursor : bool) : M unit :=
  put_cur (mkCursor dict_cursor None PNone None).

(** [FakeSnowflakeConnection.commit] *)
Definition commit : M unit :=
  cursor false ;; execute (CmdStr "COMMIT") PNone ;; mret tt.

(** [FakeSnowflakeConnection.rollback] *)
Definition rollback : M unit :=
  cursor false ;; execute (CmdStr "ROLLBACK") PNone ;; mret tt.

(** The list comprehension of [execute_string]: a new cursor for each
    statement that is not [None]. *)
Fixpoint execute_statements (dict_cursor : bool)
    (statements : list (option Expression)) : M (list FakeSnowflakeCursor) :=
  match statements with
  | [] => mret []
  | None :: rest => execute_statements dict_cursor rest
  | Some e :: rest =>
      cursor dict_cursor ;;
      c ← execute (CmdStr (sql_snowflake e)) PNone;
      cursors ← execute_statements dict_cursor rest;
      mret (c :: cursors)
  end.

(** [FakeSnowflakeConnection.execute_string] *)
Definition execute_string (sql_text : string) (return_cursors dict_cursor : bool)
  : M (list FakeSnowflakeCursor) :=
  statements ← call (sqlglot_parse sql_text);
  cursors ← execute_statements dict_cursor statements;
  mret (if return_cursors then cursors else []).

Definition sql_select_catalog (database : string) : string :=
  "select * from information_schema.schemata
                where catalog_name = '" +:+ database +:+ "'".

Definition sql_select_schema (database schema : string) : string :=
  "select * from information_schema.schemata
                where catalog_name = '" +:+ database +:+ "' and schema_name = '" +:+ schema +:+ "'".

(** [__init__], lines 393-402: create the database if needed. *)
Definition init_create_database (create_database : bool) : M unit :=
  s ← conn <$> get;
  if create_database && truthy (database s) then
    execute_fetchone (sql_select_catalog (Py.fmt (database s))) ≫=
    λ found : bool,
      if found then mret tt
      else
        _duck_conn_execute
          ("ATTACH DATABASE ':memory:' AS " +:+ Py.fmt (database s)) PNone ;;
        _create_info_schema_ext (Py.fmt (database s))
  else mret tt.

(** [__init__], lines 405-414: create the schema if needed. *)
Definition init_create_schema (create_schema : bool) : M unit :=
  s ← conn <$> get;
  if create_schema && truthy (database s) && truthy (schema s) then
    execute_fetchone
      (sql_select_schema (Py.fmt (database s)) (Py.fmt (schema s))) ≫=
    λ found : bool,
      if found then mret tt
      else
        _duck_conn_execute
          ("CREATE SCHEMA " +:+ Py.fmt (database s) +:+ "." +:+ Py.fmt (schema s))
          PNone
  else mret tt.

(** [__init__], lines 417-437: set the database and the schema when both
    exist, or the database alone when only that exists. *)
Definition init_set_schema : M unit :=
  s ← conn <$> get;
  (if truthy (database s) && truthy (schema s) then
     execute_fetchone
       (sql_select_schema (Py.fmt (database s)) (Py.fmt (schema s)))
   else mret false) ≫=
  λ both : bool,
    if both then
      _duck_conn_execute
        ("SET schema='" +:+ Py.fmt (database s) +:+ "." +:+ Py.fmt (schema s) +:+ "'")
        PNone ;;
      put_conn (mkConnection (database s) (schema s) true true (_paramstyle s))
    else
      (if truthy (database s) then
         execute_fetchone (sql_select_catalog (Py.fmt (database s)))
       else mret false) ≫=
      λ only : bool,
        if only then
          _duck_conn_execute
            ("SET schema='" +:+ Py.fmt (database s) +:+ ".main'") PNone ;;
          put_conn (mkConnection (database s) (schema s) true (schema_set s)
                      (_paramstyle s))
        else mret tt.

(** [FakeSnowflakeConnection.__init__]; [database and database.upper()] is
    [None] for [None] and the upper case otherwise, the empty string being
    its own upper case. *)
Definition connection_init (database schema : option string)
    (create_database create_schema : bool) : M unit :=
  put_conn (mkConnection (Py.upper <$> database) (Py.upper <$> schema)
              false false "pyformat") ;;
  init_create_database create_database ;;
  init_create_schema create_schema ;;
  init_set_schema ;;
  _duck_conn_execute "SET TimeZone = 'UTC'" PNone.

End session.

(** The example instance, with results. *)

Module ExampleResults.
Import Example.

Definition snowflake_text (e : expr) : string :=
  if String.eqb (e_sql e) "SELECT * FROM T" then "select * from t"
  else if String.eqb (e_sql e) "SELECT X FROM T" then "select x from t"
  else if String.eqb (e_sql e) "SELECT * FROM MISSING" then "select * from missing"
  else if String.eqb (e_sql e) "CREATE TABLE T (NAME TEXT)"
       then "create table t (name varchar(50))"
  else "use database db2".

Definition parse_script (sql_text : string) : result (list (option expr)) :=
  if String.eqb sql_text "" then Ok []
  else if String.eqb sql_text "select * from t; create table t (name varchar(50));"
       then Ok [Some select_t; Some create_t; None]
  else if String.eqb sql_text "select x from t; select * from t"
       then Ok [Some select_x; Some select_t]
  else Raise (ParseError "Invalid expression").

Definition describe_of (e : expr) : expr :=
  mkExpr "DESCRIBE" (e_unqualified e) ("DESCRIBE " +:+ e_sql e) None (e_table e)
    None None None.

Definition described : list describe_row :=
  [mkDescribeRow "NAME" "VARCHAR" "YES" None None None;
   mkDescribeRow "AMOUNT" "DECIMAL(18,3)" "YES" None None None].

#[export] Instance results : Results := {|
  sqlglot_parse := parse_script;
  sql_snowflake := snowflake_text;
  as_describe := describe_of;
  duck_fetchall := λ d, (described, d);
  duck_fetchone := λ d, (bool_decide (is_Some (attached d !! "DB1")), d)
|}.

Definition comment_t : expr :=
  mkExpr "CREATE TABLE" (true, true) "CREATE TABLE T (ID BIGINT)" None (Some T)
    None (Some (T, Some "a table")) None.

Definition create_db3 : expr :=
  mkExpr "CREATE DATABASE" (false, false) "ATTACH DATABASE ':memory:' AS DB3"
    (Some (Some "DB3")) None (Some "DB3") None None.

Definition use_nothing : expr :=
  mkExpr "USE DATABASE" (false, false) "USE" None None None None None.

Definition bigint_column : InfoSchema.columns_row :=
  InfoSchema.mkColumnsRow "DB1" "MAIN" "T" "ID" 2 None "YES" "BIGINT"
    (Some 64) (Some 2) (Some 0) None None None None.

(** An engine that does not parse [SELECT X FROM T]. *)
Definition engine_no_parse (d : DuckDB unit) (text : string) (p : params Z)
  : duck_outcome unit :=
  if String.eqb text "SELECT X FROM T"
     || String.eqb text "DESCRIBE SELECT X FROM T" then
    (d, Some (DuckExn ParserException "Parser Error: syntax error at or near X"))
  else (d, None).

Definition env_no_parse : Env := {|
  Expression := expr;
  Any := Z;
  Native := unit;
  ArrowTable := unit;
  parse_one := parse;
  transform := λ f e, f e;
  sql_duckdb := e_sql;
  find_Identifier := e_identifier;
  find_Table := e_table;
  args_create_db_name := e_create_db_name;
  args_table_comment := e_table_comment;
  args_text_lengths := e_text_lengths;
  key_command := e_key;
  is_unqualified_table_expression := e_unqualified;
  transforms :=
    mkTransforms expr id (λ _, id) id id id id id id id id id id id id id id id
      id id id;
  duck_execute := engine_no_parse;
  reserved_word := λ s, bool_decide (s ∈ ["SELECT"; "TABLE"; "FROM"]);
  information_schema_columns := λ _ _, [name_column]
|}.

(** A catalog with the [columns_ext] table only, and a new catalog. *)
Definition db_partial : DuckDB unit :=
  mkDuckDB {[ "DB1" := mkInfoSchemaExt None (Some []) false ]} tt.

Definition db3_fresh : DuckDB unit := mkDuckDB {[ "DB3" := fresh ]} tt.

Definition ready (d : DuckDB unit) : world := world_of (session true true) d.

Definition results_no_parse : @Results env_no_parse :=
  @mkResults env_no_parse parse_script snowflake_text describe_of
    (λ d, (described, d))
    (λ d, (bool_decide (is_Some (attached d !! "DB1")), d)).

Definition ready_no_parse : @world env_no_parse :=
  @mkWorld env_no_parse (session true true)
    (@mkCursor env_no_parse false None PNone None) db_extended [].

End ExampleResults.

(** An instance whose engine keeps the columns of the tables it makes, and
    reads a text far enough to refuse one that ends inside a string
    literal or a quoted identifier. *)

Module ExampleCatalog.
Import Example.

(** What this engine holds of its own: the catalog and schema in use, and
    the rows of [information_schema.columns] for the tables made. *)
Record catalog_state := mkCatalogState {
  in_use : string * string;
  table_columns : list InfoSchema.columns_row
}.

Inductive lexing :=
| Outside
| InLiteral
| InQuotedIdentifier.

(** A single quote opens and closes a string literal, a double quote a
    quoted identifier; a doubled quote inside either closes and opens it
    again. *)
Definition lex_step (st : lexing) (c : ascii) : lexing :=
  match st with
  | Outside =>
      if Ascii.eqb c "'"%char then InLiteral
      else if Ascii.eqb c "034"%char then InQuotedIdentifier
      else Outside
  | InLiteral => if Ascii.eqb c "'"%char then Outside else InLiteral
  | InQuotedIdentifier =>
      if Ascii.eqb c "034"%char then Outside else InQuotedIdentifier
  end.

Definition unterminated (text : string) : bool :=
  match foldl lex_step Outside (list_ascii_of_string text) with
  | Outside => false
  | _ => true
  end.

(** A column name with a single quote in it, and the statement that makes
    a table with it, the name written as a quoted identifier. *)
Definition quoted_name : string := "A'B".

Definition sql_create_quoted : string :=
  "CREATE TABLE T (" +:+ String "034"%char (quoted_name +:+ String "034"%char " TEXT)").

(** The [create table] statements this engine knows: the table and its
    columns, each with its data type. *)
Definition created_by (text : string) : option (string * list (string * string)) :=
  if String.eqb text "CREATE TABLE T (NAME TEXT)" then
    Some ("T", [("NAME", "VARCHAR")])
  else if String.eqb text sql_create_quoted then
    Some ("T", [(quoted_name, "VARCHAR")])
  else None.

Definition column_of (place : string * string) (table : string) (i : nat)
    (column : string * string) : InfoSchema.columns_row :=
  InfoSchema.mkColumnsRow place.1 place.2 table column.1 (Z.of_nat (S i)) None
    "YES" column.2 None None None None None None None.

Definition has_table (n : catalog_state) (table : string) : bool :=
  existsb (λ r, String.eqb (InfoSchema.table_catalog r) (in_use n).1
                && String.eqb (InfoSchema.table_schema r) (in_use n).2
                && String.eqb (InfoSchema.table_name r) table)
    (table_columns n).

Definition engine (d : DuckDB catalog_state) (text : string) (p : params Z)
  : duck_outcome catalog_state :=
  if unterminated text then
    (d, Some (DuckExn ParserException "Parser Error: unterminated quoted string"))
  else match created_by text with
  | Some (table, columns) =>
      if has_table (native d) table then
        (d, Some (DuckExn CatalogException "Catalog Error: Table with name T already exists!"))
      else
        (mkDuckDB (attached d)
           (mkCatalogState (in_use (native d))
              (table_columns (native d)
                 ++ imap (column_of (in_use (native d)) table) columns)%list),
         None)
  | None => (d, None)
  end.

Definition env_catalog : Env := {|
  Expression := expr;
  Any := Z;
  Native := catalog_state;
  ArrowTable := unit;
  parse_one := parse;
  transform := λ f e, f e;
  sql_duckdb := e_sql;
  find_Identifier := e_identifier;
  find_Table := e_table;
  args_create_db_name := e_create_db_name;
  args_table_comment := e_table_comment;
  args_text_lengths := e_text_lengths;
  key_command := e_key;
  is_unqualified_table_expression := e_unqualified;
  transforms :=
    mkTransforms expr id (λ _, id) id id id id id id id id id id id id id id id
      id id id;
  duck_execute := engine;
  reserved_word := λ s, bool_decide (s ∈ ["SELECT"; "TABLE"; "FROM"]);
  information_schema_columns := λ d catalog,
    filter (λ r, InfoSchema.table_catalog r = catalog) (table_columns (native d))
|}.



(** The column [NAME] of the table [T] in [DB1.SCHEMA1]. *)
Definition name_of_t : InfoSchema.columns_row :=
  column_of ("DB1", "SCHEMA1") "T" 0 ("NAME", "VARCHAR").

(** The columns of a table [U] in the same schema: [ID], a [BIGINT] as the
    engine reports it, and [NAME]. *)
Definition id_of_u : InfoSchema.columns_row :=
  InfoSchema.mkColumnsRow "DB1" "SCHEMA1" "U" "ID" 1 None "YES" "BIGINT"
    (Some 64) (Some 2) (Some 0) None None None None.

Definition name_of_u : InfoSchema.columns_row :=
  column_of ("DB1", "SCHEMA1") "U" 1 ("NAME", "VARCHAR").

(** The catalog [DB1] with its extension objects, the schema [SCHEMA1] in
    use: without a table, and with the table [T]. *)
Definition db_schema1 : DuckDB catalog_state :=
  mkDuckDB {[ "DB1" := extended ]} (mkCatalogState ("DB1", "SCHEMA1") []).


(** The table [U] with its two columns, and the length of [NAME]
    recorded. *)
Definition db_two_columns : DuckDB catalog_state :=
  mkDuckDB
    {[ "DB1" := mkInfoSchemaExt (Some [])
                  (Some [(("DB1", "SCHEMA1", "U", "NAME"), (Some 50, Some 200))])
                  true ]}
    (mkCatalogState ("DB1", "SCHEMA1") [id_of_u; name_of_u]).

Definition session1 : FakeSnowflakeConnection :=
  mkConnection (Some "DB1") (Some "SCHEMA1") true true "pyformat".

Definition ready_catalog (d : DuckDB catalog_state) : @world env_catalog :=
  @mkWorld env_catalog session1 (@mkCursor env_catalog false None PNone None) d [].

End ExampleCatalog.

(** * Properties *)

(** ** Tables with a primary key *)

Section keyed_facts.
Context {K V : Type} `{EqDecision K}.
Implicit Types (k : K) (v : V) (rows ops : list (K * V)).

Lemma upsert_keys_present k v rows :
  k ∈ rows.*1 → (Store.upsert k v rows).*1 = rows.*1.
Proof.
  induction rows as [|[k' v'] rest IH]; simpl.
  - intros Hin. inversion Hin.
  - intros Hin. destruct (decide (k' = k)) as [->|Hne]; simpl; [done|].
    f_equal. apply IH. apply elem_of_cons in Hin as [?|?]; [congruence|done].
Qed.

Lemma upsert_keys_absent k v rows :
  k ∉ rows.*1 → (Store.upsert k v rows).*1 = (rows.*1 ++ [k])%list.
Proof.
  induction rows as [|[k' v'] rest IH]; simpl; [done|].
  intros Hnin. apply not_elem_of_cons in Hnin as [Hne Hnin].
  destruct (decide (k' = k)); [congruence|]. simpl. f_equal. by apply IH.
Qed.

Lemma upsert_primary_key k v rows :
  Store.primary_key rows → Store.primary_key (Store.upsert k v rows).
Proof.
  unfold Store.primary_key. intros Hnd.
  destruct (decide (k ∈ rows.*1)) as [Hin|Hnin].
  - by rewrite upsert_keys_present.
  - rewrite upsert_keys_absent by done.
    apply NoDup_app. split; [done|]. split.
    + intros x Hx Hk. apply list_elem_of_singleton in Hk. congruence.
    + apply NoDup_singleton.
Qed.

Lemma find_upsert_eq k v rows : Store.find k (Store.upsert k v rows) = Some v.
Proof.
  induction rows as [|[k' v'] rest IH]; simpl.
  - by rewrite decide_True.
  - destruct (decide (k' = k)) as [->|Hne]; simpl.
    + by rewrite decide_True.
    + by rewrite decide_False.
Qed.


Lemma records_absent k rows : k ∉ rows.*1 → Store.records k rows = [].
Proof.
  unfold Store.records. induction rows as [|[k' v'] rest IH]; simpl; [done|].
  intros Hnin. apply not_elem_of_cons in Hnin as [Hne Hnin].
  rewrite filter_cons_False by (simpl; congruence). by apply IH.
Qed.

Lemma find_absent k rows : k ∉ rows.*1 → Store.find k rows = None.
Proof.
  induction rows as [|[k' v'] rest IH]; simpl; [done|].
  intros Hnin. apply not_elem_of_cons in Hnin as [Hne Hnin].
  rewrite decide_False by congruence. by apply IH.
Qed.

(** Under the primary key, the rows of a key are the one row [find] gives. *)
Lemma records_find k rows :
  Store.primary_key rows →
  Store.records k rows =
    match Store.find k rows with Some v => [(k, v)] | None => [] end.
Proof.
  unfold Store.primary_key, Store.records.
  induction rows as [|[k' v'] rest IH]; simpl; [done|].
  intros Hnd. apply NoDup_cons in Hnd as [Hnin Hnd].
  destruct (decide (k' = k)) as [->|Hne].
  - rewrite filter_cons_True by done. f_equal. by apply records_absent.
  - rewrite filter_cons_False by done. by apply IH.
Qed.






Lemma distinct_keys_NoDup rows :
  Store.distinct_keys rows = true → NoDup (rows.*1).
Proof.
  induction rows as [|[k v] rest IH]; simpl; [intros; apply NoDup_nil_2|].
  intros [Hk Hd]%andb_true_iff. apply NoDup_cons. split; [|by apply IH].
  apply negb_true_iff, bool_decide_eq_false in Hk. done.
Qed.

End keyed_facts.

(** ** The extension statements on the engine *)

Section engine_facts.
Context {Native : Type}.
Implicit Types (d : DuckDB Native) (catalog : string).

Lemma attached_set_ext d catalog x :
  attached (set_ext d catalog x) !! catalog = Some x.
Proof. unfold set_ext. simpl. apply lookup_insert_eq. Qed.

Lemma attached_set_ext_ne d catalog other x :
  catalog ≠ other →
  attached (set_ext d catalog x) !! other = attached d !! other.
Proof. intros Hne. unfold set_ext. simpl. by apply lookup_insert_ne. Qed.

End engine_facts.

(** ** The cursor *)

Section fakes_facts.
Context {E : Env}.
Implicit Types (w : world) (p : params Any) (e : Expression).

Ltac run_M :=
  unfold mbind, M_bind, mret, M_ret, fmap, M_fmap, get, put_cur, put_conn,
    record_event, raise, call, try_except; simpl.

(** C9. [execute] of a command text with a dictionary of parameters, and
    [executemany] with a dictionary, raise [NotImplementedError]; nothing
    has been parsed, transformed or sent to the engine: the trace, the
    engine and the session context are as before. *)
Theorem dict_params_not_implemented (text : string)
    (items : list (Any * Any)) (named : list (string * Any)) w :
  (∃ w', execute (CmdStr text) (PDict items) w =
           (Raise (NotImplementedError "dict params not supported yet"), w')
         ∧ trace w' = trace w ∧ duck w' = duck w ∧ conn w' = conn w)
  ∧ executemany text (DictParams named) w =
      (Raise (NotImplementedError "dict params not supported yet"), w).
Proof.
  split; [|reflexivity].
  eexists. split; [reflexivity|]. by simpl.
Qed.

Lemma parsed_expression_frame (c : command Expression) p w r w1 :
  parsed_expression c p w = (r, w1) →
  conn w1 = conn w ∧ cur w1 = cur w ∧ duck w1 = duck w
  ∧ ∃ evs, trace w1 = (trace w ++ evs)%list ∧ forallb is_parse_event evs = true.
Proof.
  destruct c as [text|e0]; simpl.
  - unfold _rewrite_params. destruct p as [|values|items]; run_M.
    + intros [= <- <-]. simpl. repeat split. by exists [Parsed text].
    + destruct (_ && _); run_M; intros [= <- <-]; simpl; repeat split;
        by eexists [_].
    + intros [= <- <-]. repeat split. exists []. by rewrite app_nil_r.
  - run_M. intros [= <- <-]. repeat split. exists []. by rewrite app_nil_r.
Qed.

Lemma reset_arrow_table_frame w :
  ∃ w0, reset_arrow_table w = (Ok tt, w0)
        ∧ conn w0 = conn w ∧ duck w0 = duck w ∧ trace w0 = trace w.
Proof. by eexists. Qed.

(** A raising session-context check ends [execute] where parsing left it. *)
Lemma execute_session_error (c : command Expression) p w e w1 x :
  parsed_expression c p (reset_arrow_table w).2 = (Ok e, w1) →
  session_context_error (conn w) (key_command e) e = Some x →
  execute c p w = (Raise x, w1).
Proof.
  intros Hparse Hcheck.
  destruct (parsed_expression_frame _ _ _ _ _ Hparse) as (Hconn & _).
  simpl in Hconn.
  unfold execute, check_session_context. run_M. simpl in Hparse.
  rewrite Hparse. run_M. by rewrite Hconn, Hcheck.
Qed.

(** C1. A statement whose expression needs a database qualifier, in a
    session with no database set, makes [execute] raise the
    [ProgrammingError] 90105 with SQL state 22000; the engine and the session
    context are as before, and the trace has gained parse events only: no
    SQL was emitted or executed. *)
Theorem no_database_raises_before_engine (c : command Expression) p w e w1 :
  parsed_expression c p (reset_arrow_table w).2 = (Ok e, w1) →
  (is_unqualified_table_expression e).1 = true →
  database_set (conn w) = false →
  execute c p w =
    (Raise (ProgrammingError
              ("Cannot perform " +:+ key_command e +:+ ". This session does not have a current database. Call 'USE DATABASE', or use a qualified name.")
              90105 "22000"), w1)
  ∧ duck w1 = duck w ∧ conn w1 = conn w
  ∧ ∃ evs, trace w1 = (trace w ++ evs)%list ∧ forallb is_parse_event evs = true.
Proof.
  intros Hparse Hneeds Hunset. split.
  - apply (execute_session_error _ _ _ e); [done|].
    unfold session_context_error.
    destruct (is_unqualified_table_expression e) as [nd ns]. simpl in Hneeds.
    by rewrite Hneeds, Hunset.
  - destruct (parsed_expression_frame _ _ _ _ _ Hparse) as (? & _ & ? & ?).
    done.
Qed.

(** C2. A statement whose expression needs a schema qualifier, in a session
    with a database set and no schema set, makes [execute] raise the
    [ProgrammingError] 90106 with SQL state 22000, an errno other than that
    of the missing database; no SQL was emitted or executed. *)
Theorem no_schema_raises_before_engine (c : command Expression) p w e w1 :
  parsed_expression c p (reset_arrow_table w).2 = (Ok e, w1) →
  (is_unqualified_table_expression e).2 = true →
  database_set (conn w) = true →
  schema_set (conn w) = false →
  execute c p w =
    (Raise (ProgrammingError
              ("Cannot perform " +:+ key_command e +:+ ". This session does not have a current schema. Call 'USE SCHEMA', or use a qualified name.")
              90106 "22000"), w1)
  ∧ 90106 ≠ 90105
  ∧ duck w1 = duck w ∧ conn w1 = conn w
  ∧ ∃ evs, trace w1 = (trace w ++ evs)%list ∧ forallb is_parse_event evs = true.
Proof.
  intros Hparse Hneeds Hdb Hunset. split; [|split; [lia|]].
  - apply (execute_session_error _ _ _ e); [done|].
    unfold session_context_error.
    destruct (is_unqualified_table_expression e) as [nd ns]. simpl in Hneeds.
    rewrite Hneeds, Hdb, Hunset. by rewrite andb_false_r.
  - destruct (parsed_expression_frame _ _ _ _ _ Hparse) as (? & _ & ? & ?).
    done.
Qed.

Lemma keeps_session_ret {A : Type} (a : A) : keeps_session (mret a).
Proof. intros w r w'. run_M. by intros [= <- <-]. Qed.

Lemma keeps_session_bind {A B : Type} (m : M A) (k : A → M B) :
  keeps_session m → (∀ a, keeps_session (k a)) → keeps_session (m ≫= k).
Proof.
  intros Hm Hk w r w'. run_M.
  destruct (m w) as [[a|x] w0] eqn:Hmw.
  - intros Hkw. rewrite (Hk _ _ _ _ Hkw). by apply (Hm _ _ _ Hmw).
  - intros [= <- <-]. by apply (Hm _ _ _ Hmw).
Qed.

Lemma keeps_session_ext (s : Sql.ext_statement) :
  keeps_session (_duck_conn_execute_ext s).
Proof.
  intros w r w'. unfold _duck_conn_execute_ext.
  destruct (duck_execute_ext (duck w) s) as [d o]. by intros [= <- <-].
Qed.

Lemma keeps_session_conn {B : Type} (k : FakeSnowflakeConnection → M B) :
  (∀ s, keeps_session (k s)) → keeps_session ((conn <$> get) ≫= k).
Proof. intros Hk w r w'. run_M. apply Hk. Qed.

Lemma keeps_session_create (catalog : string) :
  keeps_session (_create_info_schema_ext catalog).
Proof.
  unfold _create_info_schema_ext.
  repeat (apply keeps_session_bind; [apply keeps_session_ext|intros _]).
  apply keeps_session_ext.
Qed.

Lemma keeps_session_writes (t : Expression) :
  keeps_session
    (create_info_schema_ext_of t ;; record_table_comment t ;;
     record_text_lengths t ;; cur <$> get).
Proof.
  apply keeps_session_bind; [|intros _; apply keeps_session_bind;
                                [|intros _; apply keeps_session_bind]].
  - unfold create_info_schema_ext_of.
    destruct (args_create_db_name t) as [n|]; [|apply keeps_session_ret].
    destruct (String.eqb n ""); [apply keeps_session_ret|].
    apply keeps_session_create.
  - unfold record_table_comment.
    destruct (args_table_comment t) as [[table comment]|];
      [|apply keeps_session_ret].
    apply keeps_session_conn. intros s. apply keeps_session_ext.
  - unfold record_text_lengths.
    destruct (args_text_lengths t) as [[|l ls]|]; try apply keeps_session_ret.
    destruct (find_Table t); [|apply keeps_session_ret].
    apply keeps_session_conn. intros s. apply keeps_session_ext.
  - intros _ w r w'. run_M. by intros [= <- <-].
Qed.

(** Past the session-context checks, [execute] is the guarded call of the
    engine on the emitted text, then the rest. *)
Lemma execute_to_engine (c : command Expression) p w e w1 :
  parsed_expression c p (reset_arrow_table w).2 = (Ok e, w1) →
  session_context_error (conn w) (key_command e) e = None →
  let t := transform_chain (database (conn w)) e in
  execute c p w =
    (execute_on_engine (sql_duckdb t) p ;; after_engine e t) (before_engine w1 t).
Proof.
  intros Hparse Hcheck.
  destruct (parsed_expression_frame _ _ _ _ _ Hparse) as (Hconn & _).
  destruct w1 as [s1 c1 d1 tr1]. simpl in Hconn. subst s1.
  unfold execute, check_session_context, after_engine, before_engine. run_M.
  simpl in Hparse. rewrite Hparse. run_M. by rewrite Hcheck.
Qed.

Lemma execute_on_engine_raises (text : string) p w d x :
  duck_execute (duck w) text p = (d, Some x) →
  execute_on_engine text p w =
    (Raise (engine_error_handlers (DuckError x)),
     mkWorld (conn w)
       (mkCursor (_use_dict_result (cur w)) (Some text) p (_arrow_table (cur w)))
       d (trace w ++ [Executed text p])).
Proof.
  intros Hd. unfold execute_on_engine, _duck_conn_execute. run_M. by rewrite Hd.
Qed.

Lemma execute_on_engine_returns (text : string) p w d :
  duck_execute (duck w) text p = (d, None) →
  execute_on_engine text p w =
    (Ok tt,
     mkWorld (conn w)
       (mkCursor (_use_dict_result (cur w)) (Some text) p (_arrow_table (cur w)))
       d (trace w ++ [Executed text p])).
Proof.
  intros Hd. unfold execute_on_engine, _duck_conn_execute. run_M. by rewrite Hd.
Qed.

Lemma duck_before_engine (c : command Expression) p w e w1 t :
  parsed_expression c p (reset_arrow_table w).2 = (Ok e, w1) →
  duck (before_engine w1 t) = duck w ∧ conn (before_engine w1 t) = conn w.
Proof.
  intros Hparse.
  by destruct (parsed_expression_frame _ _ _ _ _ Hparse) as (? & _ & ? & _).
Qed.

(** What reaches the caller when the engine raises on the statement. *)
Lemma execute_engine_raises (c : command Expression) p w e w1 d x :
  parsed_expression c p (reset_arrow_table w).2 = (Ok e, w1) →
  session_context_error (conn w) (key_command e) e = None →
  duck_execute (duck w) (sql_duckdb (transform_chain (database (conn w)) e)) p
    = (d, Some x) →
  ∃ w', execute c p w = (Raise (engine_error_handlers (DuckError x)), w')
        ∧ conn w' = conn w.
Proof.
  intros Hparse Hcheck Hd.
  rewrite (execute_to_engine _ _ _ _ _ Hparse Hcheck). simpl.
  destruct (duck_before_engine _ _ _ _ _
              (transform_chain (database (conn w)) e) Hparse) as [Hduck Hconn].
  rewrite <- Hduck in Hd. unfold mbind, M_bind.
  rewrite (execute_on_engine_raises _ _ _ _ _ Hd). by eexists.
Qed.

(** What the two [except] clauses give the caller when the engine raises
    on the statement: a [ProgrammingError] with errno 2043 and SQL state
    02000 for a [BinderException], with errno 2003 and SQL state 42S02 for
    a [CatalogException]; the message is [e.args[0]] in the first clause
    and its first line in the second. *)
Lemma engine_errors_translated (c : command Expression) p w e w1 d
    (args0 : string) :
  parsed_expression c p (reset_arrow_table w).2 = (Ok e, w1) →
  session_context_error (conn w) (key_command e) e = None →
  let text := sql_duckdb (transform_chain (database (conn w)) e) in
  (duck_execute (duck w) text p = (d, Some (DuckExn BinderException args0)) →
   (execute c p w).1 = Raise (ProgrammingError args0 2043 "02000"))
  ∧ (duck_execute (duck w) text p = (d, Some (DuckExn CatalogException args0)) →
     (execute c p w).1 =
       Raise (ProgrammingError (Py.first_line args0) 2003 "42S02")).
Proof.
  intros Hparse Hcheck text. split; intros Hd;
    destruct (execute_engine_raises _ _ _ _ _ _ _ Hparse Hcheck Hd)
      as (w' & -> & _); reflexivity.
Qed.

(** [first_line] gives the text before the first newline. *)
Lemma first_line_newline (a b : string) :
  forallb (λ ch, negb (Ascii.eqb ch "010"%char)) (list_ascii_of_string a) = true →
  Py.first_line (a +:+ String "010"%char b) = a.
Proof.
  induction a as [|ch a IH]; simpl; [done|].
  intros [Hch Ha]%andb_true_iff. apply negb_true_iff in Hch. rewrite Hch.
  f_equal. by apply IH.
Qed.

Lemma first_line_single (a : string) :
  forallb (λ ch, negb (Ascii.eqb ch "010"%char)) (list_ascii_of_string a) = true →
  Py.first_line a = a.
Proof.
  induction a as [|ch a IH]; simpl; [done|].
  intros [Hch Ha]%andb_true_iff. apply negb_true_iff in Hch. rewrite Hch.
  f_equal. by apply IH.
Qed.

Lemma execute_parse_error (c : command Expression) p w x w1 :
  parsed_expression c p (reset_arrow_table w).2 = (Raise x, w1) →
  execute c p w = (Raise x, w1).
Proof.
  intros Hparse. unfold execute. run_M. simpl in Hparse. by rewrite Hparse.
Qed.

Lemma use_database_or_schema_other (cmd : string) e w :
  String.eqb cmd "USE DATABASE" = false → String.eqb cmd "USE SCHEMA" = false →
  use_database_or_schema cmd e w = (Ok tt, w).
Proof. intros H1 H2. unfold use_database_or_schema. by rewrite H1, H2. Qed.

Lemma use_database_sets (this : string) e w :
  find_Identifier e = Some (Some this) →
  use_database_or_schema "USE DATABASE" e w =
    (Ok tt,
     mkWorld (mkConnection (Some (Py.upper this)) (schema (conn w)) true
                (schema_set (conn w)) (_paramstyle (conn w)))
       (cur w) (duck w) (trace w)).
Proof. intros Hid. unfold use_database_or_schema. simpl. by rewrite Hid. Qed.

Lemma use_schema_sets (this : string) e w :
  find_Identifier e = Some (Some this) →
  use_database_or_schema "USE SCHEMA" e w =
    (Ok tt,
     mkWorld (mkConnection (database (conn w)) (Some (Py.upper this))
                (database_set (conn w)) true (_paramstyle (conn w)))
       (cur w) (duck w) (trace w)).
Proof. intros Hid. unfold use_database_or_schema. simpl. by rewrite Hid. Qed.

(** After the engine has run the statement, the session context is the one
    [use_database_or_schema] leaves. *)
Lemma after_engine_session e t w u r w' :
  use_database_or_schema (key_command e) e w = (Ok tt, u) →
  after_engine e t w = (r, w') → conn w' = conn u.
Proof.
  intros Huse. unfold after_engine. unfold mbind at 1. unfold M_bind.
  rewrite Huse. apply keeps_session_writes.
Qed.

Lemma execute_after_engine (c : command Expression) p w e w1 d :
  parsed_expression c p (reset_arrow_table w).2 = (Ok e, w1) →
  session_context_error (conn w) (key_command e) e = None →
  duck_execute (duck w) (sql_duckdb (transform_chain (database (conn w)) e)) p
    = (d, None) →
  ∃ w2, execute c p w = after_engine e (transform_chain (database (conn w)) e) w2
        ∧ conn w2 = conn w ∧ duck w2 = d.
Proof.
  intros Hparse Hcheck Hd.
  rewrite (execute_to_engine _ _ _ _ _ Hparse Hcheck). simpl.
  destruct (duck_before_engine _ _ _ _ _
              (transform_chain (database (conn w)) e) Hparse) as [Hduck Hconn].
  rewrite <- Hduck in Hd. unfold mbind at 1. unfold M_bind.
  rewrite (execute_on_engine_returns _ _ _ _ Hd). by eexists.
Qed.

(** C10. [execute] changes the session context only once the engine has run
    the statement without raising, and only for [USE DATABASE] and
    [USE SCHEMA]; these set the database, or the schema, to the identifier in
    upper case and mark it set, leaving the other two fields; and when the
    engine raises on the statement, [execute] raises with the four fields as
    they were. *)
Theorem session_context_updates (c : command Expression) p w :
  (∀ r w', execute c p w = (r, w') →
     conn w' = conn w
     ∨ ∃ e w1 d,
         parsed_expression c p (reset_arrow_table w).2 = (Ok e, w1)
         ∧ duck_execute (duck w)
             (sql_duckdb (transform_chain (database (conn w)) e)) p = (d, None)
         ∧ (key_command e = "USE DATABASE" ∨ key_command e = "USE SCHEMA"))
  ∧ (∀ e w1 d x,
       parsed_expression c p (reset_arrow_table w).2 = (Ok e, w1) →
       session_context_error (conn w) (key_command e) e = None →
       duck_execute (duck w)
         (sql_duckdb (transform_chain (database (conn w)) e)) p = (d, Some x) →
       ∃ y w', execute c p w = (Raise y, w') ∧ conn w' = conn w)
  ∧ (∀ e w1 d this r w',
       parsed_expression c p (reset_arrow_table w).2 = (Ok e, w1) →
       session_context_error (conn w) (key_command e) e = None →
       duck_execute (duck w)
         (sql_duckdb (transform_chain (database (conn w)) e)) p = (d, None) →
       find_Identifier e = Some (Some this) →
       execute c p w = (r, w') →
       (key_command e = "USE DATABASE" →
        conn w' = mkConnection (Some (Py.upper this)) (schema (conn w)) true
                    (schema_set (conn w)) (_paramstyle (conn w)))
       ∧ (key_command e = "USE SCHEMA" →
          conn w' = mkConnection (database (conn w)) (Some (Py.upper this))
                      (database_set (conn w)) true (_paramstyle (conn w)))).
Proof.
  split; [|split].
  - intros r w' Hrun.
    destruct (parsed_expression c p (reset_arrow_table w).2) as [[e|x] w1] eqn:Hparse.
    2: { left. rewrite (execute_parse_error _ _ _ _ _ Hparse) in Hrun.
         injection Hrun as <- <-.
         by destruct (parsed_expression_frame _ _ _ _ _ Hparse) as (? & _). }
    destruct (session_context_error (conn w) (key_command e) e) as [x|] eqn:Hcheck.
    { left. rewrite (execute_session_error _ _ _ _ _ _ Hparse Hcheck) in Hrun.
      injection Hrun as <- <-.
      by destruct (parsed_expression_frame _ _ _ _ _ Hparse) as (? & _). }
    destruct (duck_execute (duck w)
                (sql_duckdb (transform_chain (database (conn w)) e)) p)
      as [d [x|]] eqn:Hd.
    { left. destruct (execute_engine_raises _ _ _ _ _ _ _ Hparse Hcheck Hd)
        as (w2 & Hex & Hconn). rewrite Hex in Hrun. by injection Hrun as <- <-. }
    destruct (String.eqb (key_command e) "USE DATABASE") eqn:Hdb.
    { right. exists e, w1, d. apply String.eqb_eq in Hdb. by auto. }
    destruct (String.eqb (key_command e) "USE SCHEMA") eqn:Hsc.
    { right. exists e, w1, d. apply String.eqb_eq in Hsc. by auto. }
    left. destruct (execute_after_engine _ _ _ _ _ _ Hparse Hcheck Hd)
      as (w2 & Hex & Hconn & _).
    rewrite Hex in Hrun. rewrite <- Hconn.
    apply (after_engine_session _ _ _ _ _ _
             (use_database_or_schema_other _ _ _ Hdb Hsc) Hrun).
  - intros e w1 d x Hparse Hcheck Hd.
    destruct (execute_engine_raises _ _ _ _ _ _ _ Hparse Hcheck Hd)
      as (w' & Hex & Hconn). by eauto.
  - intros e w1 d this r w' Hparse Hcheck Hd Hid Hrun.
    destruct (execute_after_engine _ _ _ _ _ _ Hparse Hcheck Hd)
      as (w2 & Hex & Hconn & _).
    rewrite Hex in Hrun. split; intros Hkey.
    + pose proof (use_database_sets _ _ w2 Hid) as Huse. rewrite <- Hkey in Huse.
      rewrite (after_engine_session _ _ _ _ _ _ Huse Hrun). simpl.
      by rewrite Hconn.
    + pose proof (use_schema_sets _ _ w2 Hid) as Huse. rewrite <- Hkey in Huse.
      rewrite (after_engine_session _ _ _ _ _ _ Huse Hrun). simpl.
      by rewrite Hconn.
Qed.

Lemma execute_each_sequential (text : string) (sets : list (params Any)) : ∀ w,
  execute_each text sets w =
    match sequential_executes text sets w with
    | (w', None) => (Ok tt, w')
    | (w', Some x) => (Raise x, w')
    end.
Proof.
  induction sets as [|p rest IH]; intros w; simpl; [done|].
  unfold mbind, M_bind.
  destruct (execute (CmdStr text) p w) as [[c|x] w0]; [apply IH|done].
Qed.

(** C8. [executemany] with a sequence of parameter sets ends in the world in
    which the sequential [execute] calls end, one per set in order: the same
    session context, engine, cursor and trace.  It returns the cursor when
    they all return and raises what the first failing call raises; with the
    empty sequence it returns the cursor and changes nothing. *)
Theorem executemany_as_sequential_executes (text : string)
    (sets : list (params Any)) w :
  (executemany text (SeqParams sets) w).2 = (sequential_executes text sets w).1
  ∧ (executemany text (SeqParams sets) w).1 =
      match (sequential_executes text sets w).2 with
      | None => Ok (cur (sequential_executes text sets w).1)
      | Some x => Raise x
      end
  ∧ executemany text (SeqParams []) w = (Ok (cur w), w).
Proof.
  unfold executemany, mbind, M_bind.
  rewrite execute_each_sequential.
  destruct (sequential_executes text sets w) as [w' [x|]]; by simpl.
Qed.

Lemma duck_execute_ext_denoted (d : DuckDB Native) (s : Sql.ext_statement) :
  text_denotes reserved_word s = true →
  duck_execute_ext d s = run_ext_statement d s.
Proof. intros Hs. unfold duck_execute_ext. by rewrite Hs. Qed.

(** C7. For a catalog named by a bare identifier, [_create_info_schema_ext]
    returns on a catalog that has none of the extension objects, and once it
    has returned the catalog has the [tables_ext] table, the [columns_ext]
    table and the [columns_snowflake] view; a second call then raises the
    engine's [CatalogException], for the table that exists already, and
    leaves the engine and the session context as they were. *)
Theorem create_info_schema_ext_second_call_raises (catalog : string) w :
  Sql.bare_identifier catalog = true →
  reserved_word catalog = false →
  (attached (duck w) !! catalog = Some (mkInfoSchemaExt None None false) →
   ∃ w1, _create_info_schema_ext catalog w = (Ok tt, w1))
  ∧ (∀ w1, _create_info_schema_ext catalog w = (Ok tt, w1) →
       tables_ext_of (duck w1) catalog = Some []
       ∧ columns_ext_of (duck w1) catalog = Some []
       ∧ has_view (duck w1) catalog = true
       ∧ ∃ msg w2,
           _create_info_schema_ext catalog w1 =
             (Raise (DuckError (DuckExn CatalogException msg)), w2)
           ∧ duck w2 = duck w1 ∧ conn w2 = conn w1).
Proof.
  intros Hbare Hfree.
  assert (Hden : ∀ s, s ∈ [Sql.CreateTablesExt catalog; Sql.CreateColumnsExt catalog;
                          Sql.CreateColumnsView catalog] →
                      text_denotes reserved_word s = true).
  { intros s Hs. repeat (apply elem_of_cons in Hs as [->|Hs]); simpl;
      try by rewrite Hbare, Hfree. inversion Hs. }
  unfold _create_info_schema_ext, _duck_conn_execute_ext, mbind, M_bind,
    tables_ext_of, columns_ext_of, has_view.
  pose (step := λ d s, duck_execute_ext_denoted d s).
  split.
  - intros Hfresh.
    rewrite step by (apply Hden; set_solver). simpl.
    unfold create_tables_ext, in_catalog, completed, set_ext.
    rewrite Hfresh. simpl.
    rewrite step by (apply Hden; set_solver). simpl.
    unfold create_columns_ext, in_catalog, completed, set_ext. simpl.
    rewrite lookup_insert_eq. simpl.
    rewrite step by (apply Hden; set_solver). simpl.
    unfold create_columns_view, in_catalog, completed, set_ext. simpl.
    rewrite lookup_insert_eq. simpl. by eexists.
  - intros w1.
    rewrite step by (apply Hden; set_solver). simpl.
    unfold create_tables_ext, in_catalog, completed, raised, set_ext.
    destruct (attached (duck w) !! catalog) as [x|] eqn:Hx; simpl; [|done].
    destruct (tables_ext x) eqn:Ht; simpl; [done|].
    rewrite step by (apply Hden; set_solver). simpl.
    unfold create_columns_ext, in_catalog, completed, raised, set_ext. simpl.
    rewrite lookup_insert_eq. simpl.
    destruct (columns_ext x) eqn:Hc; simpl; [done|].
    rewrite step by (apply Hden; set_solver). simpl.
    unfold create_columns_view, in_catalog, completed, raised, set_ext. simpl.
    rewrite lookup_insert_eq. simpl.
    destruct (columns_snowflake x) eqn:Hv; simpl; [done|].
    intros [= <-]. simpl. rewrite !lookup_insert_eq. simpl.
    repeat split; try done.
    rewrite step by (apply Hden; set_solver). simpl.
    unfold create_tables_ext, in_catalog, completed, raised, set_ext. simpl.
    rewrite lookup_insert_eq. simpl. by eexists _, _.
Qed.



Lemma NoDup_distinct_keys {K V : Type} `{EqDecision K} (rows : list (K * V)) :
  NoDup (rows.*1) → Store.distinct_keys rows = true.
Proof.
  induction rows as [|[k v] rest IH]; simpl; [done|].
  intros [Hnin Hnd]%NoDup_cons. rewrite IH by done.
  by rewrite bool_decide_eq_false_2.
Qed.

Lemma length_rows_keys (catalog schema table_name : string)
    (text_lengths : list (string * Z)) :
  (length_rows catalog schema table_name (text_length_values text_lengths)).*1
  = (λ column, (catalog, schema, table_name, column)) <$> text_lengths.*1.
Proof.
  induction text_lengths as [|[column n] rest IH]; simpl; [done|].
  f_equal. apply IH.
Qed.


Lemma text_length_values_fit (text_lengths : list (string * Z)) :
  Forall (λ cs : string * Z,
            Sql.quote_free cs.1 = true ∧ (0 ≤ cs.2 ≤ 2147483647)%Z) text_lengths →
  forallb (λ l, Sql.int32 l.1.2 && Sql.int32 l.2) (text_length_values text_lengths)
    = true
  ∧ forallb (λ l, Sql.quote_free l.1.1) (text_length_values text_lengths) = true.
Proof.
  induction 1 as [|[column n] rest [Hq Hn] _ [IH1 IH2]]; simpl; [done|].
  simpl in Hq, Hn. rewrite IH1, IH2, Hq. unfold Sql.int32.
  split; [|done]. rewrite !andb_true_r.
  repeat (apply andb_true_intro; split); apply Z.leb_le; lia.
Qed.


(** The text-length write of a statement that is written as meant: the
    engine is given the text of the insert and upserts the rows of the
    columns, and nothing else changes. *)
Lemma record_text_lengths_run (t : Expression) w
    (text_lengths : list (string * Z)) (table : exp.Table)
    (rows : list columns_ext_row) :
  args_text_lengths t = Some text_lengths →
  text_lengths ≠ [] →
  find_Table t = Some table →
  let cat := write_catalog (conn w) table in
  let sch := write_schema (conn w) table in
  Sql.bare_identifier cat = true →
  reserved_word cat = false →
  Sql.quote_free sch = true →
  Sql.quote_free (exp.name table) = true →
  Forall (λ cs : string * Z,
            Sql.quote_free cs.1 = true ∧ (0 ≤ cs.2 ≤ 2147483647)%Z) text_lengths →
  NoDup (text_lengths.*1) →
  columns_ext_of (duck w) cat = Some rows →
  ∃ w',
    record_text_lengths t w = (Ok tt, w')
    ∧ conn w' = conn w
    ∧ trace w' =
        (trace w ++
           [Executed (sql_insert_columns_ext cat sch (exp.name table)
                        (text_length_values text_lengths)) PNone])%list
    ∧ columns_ext_of (duck w') cat =
        Some (Store.run (length_rows cat sch (exp.name table)
                           (text_length_values text_lengths)) rows)
    ∧ tables_ext_of (duck w') cat = tables_ext_of (duck w) cat
    ∧ has_view (duck w') cat = has_view (duck w) cat.
Proof.
  intros Hargs Hne Htable cat sch Hbare Hfree Hsch Hname Hfit Hnd Hrows.
  destruct (text_length_values_fit _ Hfit) as [Hint Hquote].
  assert (Hkeys : NoDup
            (length_rows cat sch (exp.name table) (text_length_values text_lengths)).*1).
  { rewrite length_rows_keys.
    assert (Hinj : Inj (=) (=)
              (λ column : string, (cat, sch, exp.name table, column)))
      by (by intros a b [= ->]).
    by apply (NoDup_fmap_2 _). }
  unfold record_text_lengths. rewrite Hargs, Htable.
  destruct text_lengths as [|l ls]; [done|]. clear Hne.
  remember (text_length_values (l :: ls)) as values eqn:Hvalues.
  assert (Hsome : values ≠ []) by (by rewrite Hvalues).
  unfold mbind, M_bind, fmap, M_fmap, get. cbv zeta.
  change (Py.fmt (Py.str_or (exp.catalog table) (database (conn w)))) with cat.
  change (Py.fmt (Py.str_or (exp.db table) (schema (conn w)))) with sch.
  unfold _duck_conn_execute_ext.
  rewrite duck_execute_ext_denoted.
  2: { simpl. rewrite Hbare, Hfree, Hsch, Hname, Hquote. simpl.
       rewrite bool_decide_eq_false_2 by done. by apply NoDup_distinct_keys. }
  unfold run_ext_statement, insert_columns_ext, in_catalog, completed, set_ext.
  unfold columns_ext_of in Hrows. unfold tables_ext_of at 2. unfold has_view at 2.
  destruct (attached (duck w) !! cat) as [x|] eqn:Hx; [|done].
  simpl in Hrows. rewrite Hrows, Hint. simpl.
  eexists. split; [reflexivity|]. simpl.
  unfold columns_ext_of, tables_ext_of, has_view. simpl.
  by rewrite lookup_insert_eq.
Qed.







(** What a query of the view may return, by the tables it reads. *)
Lemma select_columns_snowflake_rows (d : DuckDB Native) (catalog : string)
    (rows : list InfoSchema.columns_snowflake_row) :
  select_columns_snowflake d catalog rows ↔
  ∃ ext, columns_ext_of d catalog = Some ext ∧ has_view d catalog = true
         ∧ rows ≡ₚ InfoSchema.view (information_schema_columns d catalog) ext.
Proof.
  unfold select_columns_snowflake, columns_snowflake_rows, columns_ext_of, has_view.
  destruct (attached d !! catalog) as [x|]; simpl.
  2: { split; [intros (? & [=] & _)|intros (? & [=] & _)]. }
  destruct (columns_ext x) as [ext|]; simpl.
  2: { split; [intros (? & [=] & _)|intros (? & [=] & _)]. }
  destruct (columns_snowflake x).
  - split.
    + intros (listed & [= <-] & Hperm). by exists ext.
    + intros (ext' & [= <-] & _ & Hperm). by eexists.
  - split; [intros (? & [=] & _)|intros (? & _ & [=] & _)].
Qed.


End fakes_facts.

(** ** Result metadata *)

#[local] Arguments String.append !_ _ / : simpl nomatch.

Lemma take_digits_run (digits : string) (c : ascii) (rest : string) :
  forallb Py.is_digit (list_ascii_of_string digits) = true →
  Py.is_digit c = false →
  Py.take_digits (digits +:+ String c rest) = (digits, String c rest).
Proof.
  intros Hd Hc. induction digits as [|ch digits IH]; simpl.
  - by rewrite Hc.
  - simpl in Hd. apply andb_true_iff in Hd as [Hch Hd].
    rewrite Hch, IH by done. done.
Qed.

Lemma all_digits_run (digits : string) :
  all_digits digits = true →
  digits ≠ "" ∧ forallb Py.is_digit (list_ascii_of_string digits) = true.
Proof. destruct digits; [done|]. by intros H. Qed.

(** On [DECIMAL(p,s)] the search finds [p] and [s]. *)
Lemma search_decimal_spec (p s : string) :
  all_digits p = true → all_digits s = true →
  Py.search_decimal (spec_decimal p s) = Some (p, s).
Proof.
  intros [Hp Hpd]%all_digits_run [Hs Hsd]%all_digits_run.
  unfold spec_decimal. simpl.
  rewrite (take_digits_run p ","%char) by done.
  destruct p as [|cp p']; [done|].
  rewrite (take_digits_run s ")"%char) by done.
  destruct s as [|cs s']; [done|]. done.
Qed.

Lemma unnamed_type (column_type known : string) :
  spec_named_type column_type = false →
  known ∈ ["BIGINT"; "VARCHAR"; "DOUBLE"; "BOOLEAN"; "DATE"; "TIMESTAMP";
           "TIMESTAMP_NS"] →
  String.eqb column_type known = false.
Proof.
  intros Hno Hin. apply bool_decide_eq_false in Hno.
  destruct (String.eqb_spec column_type known) as [->|]; [done|done].
Qed.

(** C3. [as_result_metadata] maps [BIGINT] to type code 0, precision 38,
    scale 0; [DECIMAL(p,s)] to type code 0 with the precision and scale
    written in it; [VARCHAR] to type code 2 with internal size 16777216;
    [DOUBLE] to 1; [BOOLEAN] to 13; [DATE] to 3; [TIMESTAMP] and
    [TIMESTAMP_NS] to 8 with precision 0 and scale 9.  Every type string that
    starts with [DECIMAL] gets a descriptor of type code 0, with no precision
    and no scale when it holds no [(digits,digits)]; every other type
    string outside the seven names raises [NotImplementedError].  A list of
    rows is mapped row by row, and raises when one of its rows does. *)
Theorem result_metadata_table (column_name : string) :
  as_result_metadata column_name "BIGINT" =
    Ok (mkResultMetadata column_name 0 None None (Some 38) (Some 0) true)
  ∧ (∀ p s, all_digits p = true → all_digits s = true →
       as_result_metadata column_name (spec_decimal p s) =
         Ok (mkResultMetadata column_name 0 None None
               (Some (Py.int p)) (Some (Py.int s)) true))
  ∧ as_result_metadata column_name "VARCHAR" =
      Ok (mkResultMetadata column_name 2 None (Some 16777216) None None true)
  ∧ as_result_metadata column_name "DOUBLE" =
      Ok (mkResultMetadata column_name 1 None None None None true)
  ∧ as_result_metadata column_name "BOOLEAN" =
      Ok (mkResultMetadata column_name 13 None None None None true)
  ∧ as_result_metadata column_name "DATE" =
      Ok (mkResultMetadata column_name 3 None None None None true)
  ∧ as_result_metadata column_name "TIMESTAMP" =
      Ok (mkResultMetadata column_name 8 None None (Some 0) (Some 9) true)
  ∧ as_result_metadata column_name "TIMESTAMP_NS" =
      Ok (mkResultMetadata column_name 8 None None (Some 0) (Some 9) true)
  ∧ (∀ column_type, Py.startswith column_type "DECIMAL" = true →
       ∃ precision scale,
         as_result_metadata column_name column_type =
           Ok (mkResultMetadata column_name 0 None None precision scale true)
         ∧ (Py.search_decimal column_type = None →
            precision = None ∧ scale = None))
  ∧ (∀ column_type, Py.startswith column_type "DECIMAL" = false →
       spec_named_type column_type = false →
       as_result_metadata column_name column_type =
         Raise (NotImplementedError ("for column type " +:+ column_type)))
  ∧ (∀ rows metas,
       Forall2 (λ r m, as_result_metadata (d_column_name r) (d_column_type r) = Ok m)
         rows metas →
       _describe_as_result_metadata rows = Ok metas)
  ∧ (∀ rows r x, r ∈ rows →
       as_result_metadata (d_column_name r) (d_column_type r) = Raise x →
       ∃ y, _describe_as_result_metadata rows = Raise y).
Proof.
  repeat split; try reflexivity.
  - intros p s Hp Hs. unfold as_result_metadata.
    rewrite search_decimal_spec by done. by unfold spec_decimal.
  - intros column_type Hdec. unfold as_result_metadata. rewrite Hdec.
    destruct (String.eqb column_type "BIGINT") eqn:Hbig.
    { apply String.eqb_eq in Hbig. by subst. }
    destruct (Py.search_decimal column_type) as [[m1 m2]|]; eexists _, _;
      (split; [reflexivity|done]).
  - intros column_type Hdec Hno. unfold as_result_metadata. rewrite Hdec.
    rewrite !(unnamed_type column_type) by (done || set_solver). done.
  - intros rows metas Hall. induction Hall as [|r m rows metas Hr _ IH];
      cbn [_describe_as_result_metadata]; [done|]. by rewrite Hr, IH.
  - intros rows r x Hin Hr. induction rows as [|r' rows IH].
    + inversion Hin.
    + cbn [_describe_as_result_metadata].
      apply elem_of_cons in Hin as [<-|Hin].
      * rewrite Hr. by eexists.
      * destruct (as_result_metadata (d_column_name r') (d_column_type r'));
          [|by eexists].
        destruct (IH Hin) as [y ->]. by eexists.
Qed.

(** ** The properties on the example instance *)

Section examples.
Import Example.

(** A session with no database set. *)
Lemma no_database_raises_before_engine_example :
  let w := world_of (session false true) db_extended in
  let w1 := (parsed_expression (CmdStr "select * from t") PNone
               (reset_arrow_table w).2).2 in
  execute (CmdStr "select * from t") PNone w =
    (Raise (ProgrammingError
              ("Cannot perform " +:+ key_command select_t +:+ ". This session does not have a current database. Call 'USE DATABASE', or use a qualified name.")
              90105 "22000"), w1)
  ∧ duck w1 = duck w ∧ conn w1 = conn w
  ∧ ∃ evs, trace w1 = (trace w ++ evs)%list ∧ forallb is_parse_event evs = true.
Proof.
  exact (no_database_raises_before_engine (E := env)
           (CmdStr "select * from t") PNone
           (world_of (session false true) db_extended) select_t _
           eq_refl eq_refl eq_refl).
Defined.

(** A session with a database set and no schema set. *)
Lemma no_schema_raises_before_engine_example :
  let w := world_of (session true false) db_extended in
  let w1 := (parsed_expression (CmdStr "select * from t") PNone
               (reset_arrow_table w).2).2 in
  execute (CmdStr "select * from t") PNone w =
    (Raise (ProgrammingError
              ("Cannot perform " +:+ key_command select_t +:+ ". This session does not have a current schema. Call 'USE SCHEMA', or use a qualified name.")
              90106 "22000"), w1)
  ∧ 90106 ≠ 90105
  ∧ duck w1 = duck w ∧ conn w1 = conn w
  ∧ ∃ evs, trace w1 = (trace w ++ evs)%list ∧ forallb is_parse_event evs = true.
Proof.
  exact (no_schema_raises_before_engine (E := env)
           (CmdStr "select * from t") PNone
           (world_of (session true false) db_extended) select_t _
           eq_refl eq_refl eq_refl eq_refl).
Defined.

(** [DECIMAL(18,3)] has precision 18 and scale 3. *)
Lemma result_metadata_table_example :
  as_result_metadata "AMOUNT" "DECIMAL(18,3)" =
    Ok (mkResultMetadata "AMOUNT" 0 None None (Some 18) (Some 3) true).
Proof.
  exact (proj1 (proj2 (result_metadata_table "AMOUNT")) "18" "3" eq_refl eq_refl).
Defined.

(** [DECIMAL] alone is not in the specification's table, and gets a
    descriptor all the same. *)
Lemma decimal_without_digits_is_described :
  ¬ in_spec_table "DECIMAL"
  ∧ as_result_metadata "AMOUNT" "DECIMAL" =
      Ok (mkResultMetadata "AMOUNT" 0 None None None None true).
Proof.
  split; [|reflexivity].
  intros [Hnamed|(p & s & _ & _ & Heq)]; [discriminate Hnamed|].
  unfold spec_decimal in Heq. simpl in Heq. discriminate Heq.
Qed.

(** C6. The binder message of the engine has two lines, and both reach the
    caller of [execute] in the [ProgrammingError] 2043: the message is not
    the first line of the engine's text.  For the catalog message, of two
    lines as well, the caller gets the first line in the
    [ProgrammingError] 2003. *)
Lemma binder_message_keeps_all_lines :
  let w := world_of (session true true) db_extended in
  duck_execute (duck w) "SELECT X FROM T" PNone =
    (duck w, Some (DuckExn BinderException binder_message))
  ∧ (execute (CmdStr "select x from t") PNone w).1 =
      Raise (ProgrammingError binder_message 2043 "02000")
  ∧ binder_message ≠ Py.first_line binder_message
  ∧ duck_execute (duck w) "SELECT * FROM MISSING" PNone =
      (duck w, Some (DuckExn CatalogException catalog_message))
  ∧ (execute (CmdStr "select * from missing") PNone w).1 =
      Raise (ProgrammingError (Py.first_line catalog_message) 2003 "42S02")
  ∧ catalog_message ≠ Py.first_line catalog_message.
Proof.
  split; [reflexivity|]. split; [reflexivity|]. split; [discriminate|].
  split; [reflexivity|]. split; [reflexivity|]. discriminate.
Qed.

(** [USE DATABASE db2] sets the database to [DB2]. *)
Lemma session_context_updates_example :
  let w := world_of (session false false) db_extended in
  let w' := (execute (CmdStr "use database db2") PNone w).2 in
  (key_command use_db2 = "USE DATABASE" →
   conn w' = mkConnection (Some "DB2") (Some "MAIN") true false "pyformat")
  ∧ (key_command use_db2 = "USE SCHEMA" →
     conn w' = mkConnection (Some "DB1") (Some "DB2") false true "pyformat").
Proof.
  exact (proj2 (proj2 (session_context_updates (E := env)
                         (CmdStr "use database db2") PNone
                         (world_of (session false false) db_extended)))
           use_db2 _ db_extended "db2" _ _
           eq_refl eq_refl eq_refl eq_refl eq_refl).
Defined.

(** On a catalog just attached the first call returns; the second raises. *)
Lemma create_info_schema_ext_second_call_raises_example :
  let w := world_of (session true true) db_fresh in
  (attached (duck w) !! "DB1" = Some (mkInfoSchemaExt None None false) →
   ∃ w1, _create_info_schema_ext "DB1" w = (Ok tt, w1))
  ∧ (∀ w1, _create_info_schema_ext "DB1" w = (Ok tt, w1) →
       tables_ext_of (duck w1) "DB1" = Some []
       ∧ columns_ext_of (duck w1) "DB1" = Some []
       ∧ has_view (duck w1) "DB1" = true
       ∧ ∃ msg w2,
           _create_info_schema_ext "DB1" w1 =
             (Raise (DuckError (DuckExn CatalogException msg)), w2)
           ∧ duck w2 = duck w1 ∧ conn w2 = conn w1).
Proof.
  exact (create_info_schema_ext_second_call_raises (E := env) "DB1"
           (world_of (session true true) db_fresh) eq_refl eq_refl).
Defined.

(** The second call is not a success. *)
Lemma create_info_schema_ext_not_idempotent :
  let w := world_of (session true true) db_fresh in
  let first := _create_info_schema_ext "DB1" w in
  let second := _create_info_schema_ext "DB1" first.2 in
  first.1 = Ok tt
  ∧ second.1 =
      Raise (DuckError (DuckExn CatalogException
                          "Table with name tables_ext already exists"))
  ∧ second.1 ≠ Ok tt.
Proof.
  split; [vm_compute; reflexivity|]. split; [vm_compute; reflexivity|].
  vm_compute. discriminate.
Qed.

End examples.

(** ** The extension store on an engine that keeps its tables *)

Section catalog_examples.
Import Example ExampleCatalog.
#[local] Existing Instance env_catalog.




(** The whole of [execute] on [create table t (name varchar(50))], and the
    view queried afterwards: the engine is given the insert with 50 and
    200, and every row returned for the column reports 50 characters and
    200 octets. *)
Lemma varchar_50_in_columns_snowflake :
  let w := ready_catalog db_schema1 in
  let w' := (execute (CmdStr "create table t (name varchar(50))") PNone w).2 in
  let k := ("DB1", "SCHEMA1", "T", "NAME") in
  last (trace w') =
    Some (Executed "
                INSERT INTO DB1.information_schema.columns_ext
                values ('DB1', 'SCHEMA1', 'T', 'NAME', 50, 200)
                ON CONFLICT (ext_table_catalog, ext_table_schema, ext_table_name, ext_column_name)
                DO UPDATE SET ext_character_maximum_length = excluded.ext_character_maximum_length,
                                ext_character_octet_length = excluded.ext_character_octet_length
                " PNone)
  ∧ (∃ result, select_columns_snowflake (duck w') "DB1" result)
  ∧ ∀ result, select_columns_snowflake (duck w') "DB1" result →
      (∃ v, v ∈ result ∧ InfoSchema.key (InfoSchema.columns v) = k)
      ∧ ∀ v, v ∈ result → InfoSchema.key (InfoSchema.columns v) = k →
          InfoSchema.character_maximum_length v = Some 50
          ∧ InfoSchema.character_octet_length v = Some 200.
Proof.
  intros w w' k.
  assert (Hrows : columns_snowflake_rows (duck w') "DB1" =
            Some [InfoSchema.mkColumnsSnowflakeRow name_of_t (Some 50) (Some 200)])
    by (vm_compute; reflexivity).
  split; [vm_compute; reflexivity|]. split.
  { eexists. eexists. split; [exact Hrows|reflexivity]. }
  intros result (listed & Hlisted & Hperm). rewrite Hrows in Hlisted.
  injection Hlisted as <-. apply Permutation_singleton_r in Hperm as ->. split.
  - eexists. split; [apply list_elem_of_here|reflexivity].
  - intros v ->%list_elem_of_singleton _. split; reflexivity.
Qed.


End catalog_examples.

(** * Further properties *)

(** ** Parameter markers *)

Lemma replace_percent_s_marker (rest : string) :
  Py.replace_percent_s (String "%"%char (String "s"%char rest)) =
    String "?"%char (Py.replace_percent_s rest).
Proof. reflexivity. Qed.

Lemma replace_percent_s_other (c : ascii) (rest : string) :
  Ascii.eqb c "%"%char && starts_with_s rest = false →
  Py.replace_percent_s (String c rest) = String c (Py.replace_percent_s rest).
Proof.
  destruct c as [[] [] [] [] [] [] [] []]; try reflexivity.
  destruct rest as [|c' rest]; [reflexivity|].
  destruct c' as [[] [] [] [] [] [] [] []]; try reflexivity.
  discriminate.
Qed.

Lemma replace_percent_s_starts (s : string) :
  starts_with_s (Py.replace_percent_s s) = starts_with_s s.
Proof.
  destruct s as [|c rest]; [reflexivity|].
  destruct (Ascii.eqb c "%"%char && starts_with_s rest) eqn:Hm.
  - apply andb_true_iff in Hm as [Hc Hs]. apply Ascii.eqb_eq in Hc. subst c.
    destruct rest as [|c' rest]; [discriminate|]. simpl in Hs.
    apply Ascii.eqb_eq in Hs. subst c'. reflexivity.
  - by rewrite replace_percent_s_other.
Qed.

Lemma replace_percent_s_clean_upto (n : nat) : ∀ s,
  (String.length s ≤ n)%nat → has_percent_s (Py.replace_percent_s s) = false.
Proof.
  induction n as [|n IH]; intros s Hlen.
  - destruct s; [reflexivity|simpl in Hlen; lia].
  - destruct s as [|c rest]; [reflexivity|]. simpl in Hlen.
    destruct (Ascii.eqb c "%"%char && starts_with_s rest) eqn:Hm.
    + apply andb_true_iff in Hm as [Hc Hs]. apply Ascii.eqb_eq in Hc. subst c.
      destruct rest as [|c' rest]; [discriminate|]. simpl in Hs, Hlen.
      apply Ascii.eqb_eq in Hs. subst c'. rewrite replace_percent_s_marker.
      cbn [has_percent_s]. rewrite IH by lia. reflexivity.
    + rewrite replace_percent_s_other by done. cbn [has_percent_s].
      rewrite replace_percent_s_starts, Hm. apply IH. lia.
Qed.

Lemma replace_percent_s_clean (s : string) :
  has_percent_s (Py.replace_percent_s s) = false.
Proof. by apply (replace_percent_s_clean_upto (String.length s)). Qed.

Lemma replace_percent_s_without (s : string) :
  has_percent_s s = false → Py.replace_percent_s s = s.
Proof.
  induction s as [|c rest IH]; [reflexivity|]. cbn [has_percent_s].
  intros [Hm Hrest]%orb_false_iff.
  rewrite replace_percent_s_other by done. by rewrite IH.
Qed.

Section params_facts.
Context {E : Env}.

(** X1. With a non-empty sequence of parameters and the paramstyle
    [pyformat] or [format], [_rewrite_params] returns the command with every
    [%s] replaced by [?]: no [%s] is left in it, and nothing else
    changes. *)
Theorem rewrite_params_leaves_no_marker (text : string) (values : list Any)
    (w : world) :
  values ≠ [] →
  _paramstyle (conn w) = "pyformat" ∨ _paramstyle (conn w) = "format" →
  _rewrite_params text (PSeq values) w = (Ok (Py.replace_percent_s text), w)
  ∧ has_percent_s (Py.replace_percent_s text) = false.
Proof.
  intros Hne Hstyle. split; [|apply replace_percent_s_clean].
  unfold _rewrite_params, mbind, M_bind, get, mret, M_ret. simpl.
  rewrite bool_decide_eq_false_2 by done. simpl.
  by destruct Hstyle as [-> | ->].
Qed.

(** X2. [_rewrite_params] returns the command as it is, for parameters that
    are no dictionary, when there are no parameters ([None] or an empty
    sequence), when the paramstyle is neither [pyformat] nor [format], or
    when the command holds no [%s]. *)
Theorem rewrite_params_unchanged (text : string) (p : params Any) (w : world) :
  (∀ items, p ≠ PDict items) →
  params_truthy p = false
  ∨ (_paramstyle (conn w) ≠ "pyformat" ∧ _paramstyle (conn w) ≠ "format")
  ∨ has_percent_s text = false →
  _rewrite_params text p w = (Ok text, w).
Proof.
  intros Hseq Hcase.
  assert (Hrun : _rewrite_params text p w =
            (Ok (if params_truthy p
                    && (String.eqb (_paramstyle (conn w)) "pyformat"
                        || String.eqb (_paramstyle (conn w)) "format")
                 then Py.replace_percent_s text else text), w)).
  { unfold _rewrite_params, mbind, M_bind, get, mret, M_ret.
    destruct p as [|values|items]; [| |by destruct (Hseq items)];
      by destruct (_ && _). }
  rewrite Hrun. destruct Hcase as [Hp|[[H1 H2]|Hno]].
  - by rewrite Hp.
  - apply String.eqb_neq in H1, H2. rewrite H1, H2. by rewrite andb_false_r.
  - rewrite replace_percent_s_without by done. by destruct (_ && _).
Qed.

End params_facts.

(** ** What a computation keeps *)

Section frame_facts.
Context {E : Env} {X : Type} (f : world → X).
Hypothesis engine_free : ∀ w d tr, f (mkWorld (conn w) (cur w) d tr) = f w.

Lemma keeps_mret {A : Type} (a : A) : keeps f (mret a).
Proof. intros w r w'. unfold mret, M_ret. by intros [= <- <-]. Qed.

Lemma keeps_raise {A : Type} (x : exn) : keeps f (raise x : M A).
Proof. intros w r w'. unfold raise. by intros [= <- <-]. Qed.

Lemma keeps_call {A : Type} (r : result A) : keeps f (call r).
Proof. intros w r0 w'. unfold call. by intros [= <- <-]. Qed.

Lemma keeps_read {A : Type} (g : world → A) : keeps f (g <$> get).
Proof. intros w r w'. unfold fmap, M_fmap, get. by intros [= <- <-]. Qed.

Lemma keeps_mbind {A B : Type} (m : M A) (k : A → M B) :
  keeps f m → (∀ a, keeps f (k a)) → keeps f (m ≫= k).
Proof.
  intros Hm Hk w r w'. unfold mbind, M_bind.
  destruct (m w) as [[a|x] w0] eqn:Hmw.
  - intros Hkw. rewrite (Hk _ _ _ _ Hkw). by apply (Hm _ _ _ Hmw).
  - intros [= <- <-]. by apply (Hm _ _ _ Hmw).
Qed.

Lemma keeps_try_except {A : Type} (m : M A) (handlers : exn → exn) :
  keeps f m → keeps f (try_except m handlers).
Proof.
  intros Hm w r w'. unfold try_except.
  destruct (m w) as [[a|x] w0] eqn:Hmw; intros [= <- <-]; by apply (Hm _ _ _ Hmw).
Qed.

Lemma keeps_record_event (ev : event) : keeps f (record_event ev).
Proof. intros w r w'. unfold record_event. intros [= <- <-]. apply engine_free. Qed.

Lemma keeps_duck_conn_execute (text : string) (p : params Any) :
  keeps f (_duck_conn_execute text p).
Proof.
  intros w r w'. unfold _duck_conn_execute.
  destruct (duck_execute (duck w) text p) as [d o].
  intros [= <- <-]. apply engine_free.
Qed.

Lemma keeps_duck_conn_execute_ext (s : Sql.ext_statement) :
  keeps f (_duck_conn_execute_ext s).
Proof.
  intros w r w'. unfold _duck_conn_execute_ext.
  destruct (duck_execute_ext (duck w) s) as [d o].
  intros [= <- <-]. apply engine_free.
Qed.

Lemma keeps_create_info_schema_ext (catalog : string) :
  keeps f (_create_info_schema_ext catalog).
Proof.
  unfold _create_info_schema_ext.
  repeat (apply keeps_mbind; [apply keeps_duck_conn_execute_ext|intros _]).
  apply keeps_duck_conn_execute_ext.
Qed.

Lemma keeps_parsed_expression (c : command Expression) (p : params Any) :
  keeps f (parsed_expression c p).
Proof.
  destruct c as [text|e]; simpl; [|apply keeps_mret].
  apply keeps_mbind.
  - unfold _rewrite_params. destruct p; try apply keeps_raise;
      (apply keeps_mbind; [apply (keeps_read id)|intros w0]);
      destruct (_ && _); apply keeps_mret.
  - intros rewritten. apply keeps_mbind; [apply keeps_record_event|intros _].
    apply keeps_call.
Qed.

Lemma keeps_check_session_context (cmd : string) (e : Expression) :
  keeps f (check_session_context cmd e).
Proof.
  unfold check_session_context.
  apply keeps_mbind; [apply keeps_read|intros s].
  destruct (session_context_error s cmd e); [apply keeps_raise|apply keeps_mret].
Qed.

Lemma keeps_extension_writes (t : Expression) :
  keeps f (create_info_schema_ext_of t)
  ∧ keeps f (record_table_comment t)
  ∧ keeps f (record_text_lengths t).
Proof.
  split; [|split].
  - unfold create_info_schema_ext_of.
    destruct (args_create_db_name t) as [n|]; [|apply keeps_mret].
    destruct (String.eqb n ""); [apply keeps_mret|].
    apply keeps_create_info_schema_ext.
  - unfold record_table_comment.
    destruct (args_table_comment t) as [[table comment]|]; [|apply keeps_mret].
    apply keeps_mbind; [apply keeps_read|intros s].
    apply keeps_duck_conn_execute_ext.
  - unfold record_text_lengths.
    destruct (args_text_lengths t) as [[|l ls]|]; try apply keeps_mret.
    destruct (find_Table t); [|apply keeps_mret].
    apply keeps_mbind; [apply keeps_read|intros s].
    apply keeps_duck_conn_execute_ext.
Qed.

End frame_facts.

(** ** More on [execute] *)

Section execute_facts.
Context {E : Env}.
Implicit Types (w : world) (p : params Any) (e : Expression).

Lemma keeps_execute_on_engine_cursor (text : string) p :
  keeps (λ w, (_use_dict_result (cur w), _arrow_table (cur w)))
    (execute_on_engine text p).
Proof.
  intros w r w'. unfold execute_on_engine, try_except, mbind, M_bind, fmap,
    M_fmap, get, put_cur, _duck_conn_execute. simpl.
  destruct (duck_execute (duck w) text p) as [d [x|]]; by intros [= <- <-].
Qed.

Lemma keeps_use_database_or_schema_cursor (cmd : string) e :
  keeps (λ w, cur w) (use_database_or_schema cmd e).
Proof.
  unfold use_database_or_schema.
  assert (Hput : ∀ s, keeps (λ w, cur w) (put_conn s)).
  { intros s w r w'. unfold put_conn. by intros [= <- <-]. }
  apply keeps_mbind; [|intros _];
    (destruct (String.eqb cmd _); [|apply keeps_mret];
     destruct (find_Identifier e) as [[this|]|]; try apply keeps_mret;
     apply keeps_mbind; [apply keeps_read|intros s]; apply Hput).
Qed.

(** Past its first line, [execute] keeps the result style and the arrow
    table of the cursor. *)
Lemma execute_cursor_kept (c : command Expression) p w r w' :
  execute c p w = (r, w') →
  (_use_dict_result (cur w'), _arrow_table (cur w')) =
    (_use_dict_result (cur w), None).
Proof.
  pose (f := λ w : world, (_use_dict_result (cur w), _arrow_table (cur w))).
  assert (Hfree : ∀ w d tr, f (mkWorld (conn w) (cur w) d tr) = f w) by done.
  unfold execute. unfold mbind at 1. unfold M_bind.
  change (reset_arrow_table w)
    with (Ok tt, mkWorld (conn w)
                   (mkCursor (_use_dict_result (cur w)) (_last_sql (cur w))
                      (_last_params (cur w)) None) (duck w) (trace w)).
  cbv beta iota. intros Hrun.
  match type of Hrun with ?m ?w1 = _ =>
    assert (Htail : keeps f m); [|apply (Htail _ _ _ Hrun)] end.
  apply keeps_mbind; [by apply keeps_parsed_expression|intros e].
  apply keeps_mbind; [by apply keeps_check_session_context|intros _].
  apply keeps_mbind; [apply keeps_read|intros s].
  apply keeps_mbind; [by apply keeps_record_event|intros _].
  apply keeps_mbind; [by apply keeps_record_event|intros _].
  apply keeps_mbind; [apply keeps_execute_on_engine_cursor|intros _].
  apply keeps_mbind.
  { intros w1 r1 w2 Huse. unfold f.
    by rewrite (keeps_use_database_or_schema_cursor _ _ _ _ _ Huse). }
  intros _.
  destruct (keeps_extension_writes f Hfree
              (transform_chain (database s) e)) as (H1 & H2 & H3).
  apply keeps_mbind; [done|intros _].
  apply keeps_mbind; [done|intros _].
  apply keeps_mbind; [done|intros _].
  apply keeps_read.
Qed.

(** X3. Whatever [execute] does, it leaves the cursor with no cached arrow
    table and with the result style it had. *)
Theorem execute_clears_arrow_table (c : command Expression) p w :
  _arrow_table (cur (execute c p w).2) = None
  ∧ _use_dict_result (cur (execute c p w).2) = _use_dict_result (cur w).
Proof.
  destruct (execute c p w) as [r w'] eqn:Hrun.
  pose proof (execute_cursor_kept _ _ _ _ _ Hrun) as Hkept.
  simpl. by injection Hkept as -> ->.
Qed.

(** X4. A command that does not parse makes [execute] raise what the parser
    raised; nothing is emitted or executed, and the session context, the
    engine and the last statement of the cursor are as before. *)
Theorem execute_parse_error_before_engine (c : command Expression) p w x w1 :
  parsed_expression c p (reset_arrow_table w).2 = (Raise x, w1) →
  execute c p w = (Raise x, w1)
  ∧ duck w1 = duck w ∧ conn w1 = conn w
  ∧ _last_sql (cur w1) = _last_sql (cur w)
  ∧ _last_params (cur w1) = _last_params (cur w)
  ∧ ∃ evs, trace w1 = (trace w ++ evs)%list ∧ forallb is_parse_event evs = true.
Proof.
  intros Hparse. split.
  - unfold execute, mbind, M_bind. simpl. simpl in Hparse. by rewrite Hparse.
  - destruct (parsed_expression_frame _ _ _ _ _ Hparse) as (? & Hcur & ? & ?).
    rewrite Hcur. done.
Qed.

(** The world in which [execute] raises what the engine raised. *)
Lemma execute_engine_raises_world (c : command Expression) p w e w1 d x :
  parsed_expression c p (reset_arrow_table w).2 = (Ok e, w1) →
  session_context_error (conn w) (key_command e) e = None →
  duck_execute (duck w) (sql_duckdb (transform_chain (database (conn w)) e)) p
    = (d, Some x) →
  ∃ w', execute c p w = (Raise (engine_error_handlers (DuckError x)), w')
        ∧ conn w' = conn w ∧ duck w' = d
        ∧ _last_sql (cur w') =
            Some (sql_duckdb (transform_chain (database (conn w)) e))
        ∧ _last_params (cur w') = p.
Proof.
  intros Hparse Hcheck Hd.
  rewrite (execute_to_engine _ _ _ _ _ Hparse Hcheck). simpl.
  destruct (duck_before_engine _ _ _ _ _
              (transform_chain (database (conn w)) e) Hparse) as [Hduck Hconn].
  rewrite <- Hduck in Hd. unfold mbind, M_bind.
  rewrite (execute_on_engine_raises _ _ _ _ _ Hd). by eexists.
Qed.

Lemma mbind_inv {A B : Type} (m : M A) (k : A → M B) w r w' :
  (m ≫= k) w = (r, w') →
  (∃ a w0, m w = (Ok a, w0) ∧ k a w0 = (r, w'))
  ∨ (∃ x, m w = (Raise x, w') ∧ r = Raise x).
Proof.
  unfold mbind, M_bind. destruct (m w) as [[a|x] w0].
  - intros Hk. left. by exists a, w0.
  - intros [= <- <-]. right. by exists x.
Qed.

(** [execute] returns the cursor it ran on. *)
Lemma execute_returns_cursor (c : command Expression) p w
    (cursor0 : FakeSnowflakeCursor) w' :
  execute c p w = (Ok cursor0, w') → cursor0 = cur w'.
Proof.
  unfold execute. intros Hrun.
  do 11 (apply mbind_inv in Hrun as [(? & ? & _ & Hrun)|(? & _ & ?)];
         [cbv beta zeta in Hrun|discriminate]).
  unfold fmap, M_fmap, get in Hrun. by injection Hrun as <- <-.
Qed.

(** Once the engine has been called, [execute] leaves the cursor with the
    statement and the parameters it was called on as its last ones. *)
Lemma execute_on_engine_last_sql (text : string) p (k : M FakeSnowflakeCursor) w :
  keeps (λ w, cur w) k →
  let w' := ((execute_on_engine text p ;; k) w).2 in
  _last_sql (cur w') = Some text ∧ _last_params (cur w') = p.
Proof.
  intros Hk. unfold mbind, M_bind.
  destruct (duck_execute (duck w) text p) as [d [x|]] eqn:Hd.
  - by rewrite (execute_on_engine_raises _ _ _ _ _ Hd).
  - rewrite (execute_on_engine_returns _ _ _ _ Hd).
    match goal with |- context [k ?w0] =>
      destruct (k w0) as [r w'] eqn:Hrun end.
    simpl. by rewrite (Hk _ _ _ Hrun).
Qed.

Lemma keeps_after_engine_cursor e (t : Expression) :
  keeps (λ w, cur w) (after_engine e t).
Proof.
  unfold after_engine.
  destruct (keeps_extension_writes (λ w : world, cur w) (λ _ _ _, eq_refl) t)
    as (H1 & H2 & H3).
  apply keeps_mbind; [apply keeps_use_database_or_schema_cursor|intros _].
  apply keeps_mbind; [done|intros _].
  apply keeps_mbind; [done|intros _].
  apply keeps_mbind; [done|intros _].
  apply keeps_read.
Qed.

(** X5. Past the session-context checks, [execute] leaves the cursor with
    the emitted text as its last statement and the parameters as its last
    parameters: when the engine ran the statement and [execute] returns,
    when the engine raised, and when a later write to the extension store
    raised; the cursor that [execute] returns holds them.  When a
    session-context check raised, the cursor holds the last statement it
    held before. *)
Theorem execute_last_sql (c : command Expression) p w e w1 :
  parsed_expression c p (reset_arrow_table w).2 = (Ok e, w1) →
  let text := sql_duckdb (transform_chain (database (conn w)) e) in
  (session_context_error (conn w) (key_command e) e = None →
     _last_sql (cur (execute c p w).2) = Some text
     ∧ _last_params (cur (execute c p w).2) = p
     ∧ ∀ returned w', execute c p w = (Ok returned, w') →
         _last_sql returned = Some text ∧ _last_params returned = p)
  ∧ (∀ x, session_context_error (conn w) (key_command e) e = Some x →
       _last_sql (cur (execute c p w).2) = _last_sql (cur w)
       ∧ _last_params (cur (execute c p w).2) = _last_params (cur w)).
Proof.
  intros Hparse text. split.
  - intros Hcheck.
    assert (Hlast : _last_sql (cur (execute c p w).2) = Some text
                    ∧ _last_params (cur (execute c p w).2) = p).
    { rewrite (execute_to_engine _ _ _ _ _ Hparse Hcheck).
      apply execute_on_engine_last_sql, keeps_after_engine_cursor. }
    destruct Hlast as [Hsql Hp]. split; [done|]. split; [done|].
    intros returned w' Hrun. rewrite Hrun in Hsql, Hp. simpl in Hsql, Hp.
    by rewrite (execute_returns_cursor _ _ _ _ _ Hrun).
  - intros x Hcheck. rewrite (execute_session_error _ _ _ _ _ _ Hparse Hcheck).
    destruct (parsed_expression_frame _ _ _ _ _ Hparse) as (_ & Hcur & _).
    simpl. by rewrite Hcur.
Qed.

(** X6. An engine exception that is neither a [BinderException] nor a
    [CatalogException] reaches the caller of [execute] as it is. *)
Theorem execute_other_engine_errors (c : command Expression) p w e w1 d x :
  parsed_expression c p (reset_arrow_table w).2 = (Ok e, w1) →
  session_context_error (conn w) (key_command e) e = None →
  duck_execute (duck w) (sql_duckdb (transform_chain (database (conn w)) e)) p
    = (d, Some x) →
  duck_class x ≠ BinderException →
  duck_class x ≠ CatalogException →
  (execute c p w).1 = Raise (DuckError x).
Proof.
  intros Hparse Hcheck Hd Hb Hc.
  destruct (execute_engine_raises_world _ _ _ _ _ _ _ Hparse Hcheck Hd)
    as (w' & -> & _). simpl.
  destruct x as [[] args0]; simpl in *; done.
Qed.

Lemma first_line_no_newline (s : string) : has_newline (Py.first_line s) = false.
Proof.
  unfold has_newline. induction s as [|ch s IH]; [reflexivity|].
  cbn [Py.first_line]. destruct (Ascii.eqb ch "010"%char) eqn:Hch; [reflexivity|].
  cbn [list_ascii_of_string existsb]. by rewrite Hch, IH.
Qed.

Lemma first_line_prefix (s : string) : String.prefix (Py.first_line s) s = true.
Proof.
  induction s as [|ch s IH]; [reflexivity|].
  cbn [Py.first_line]. destruct (Ascii.eqb ch "010"%char); [reflexivity|].
  cbn [String.prefix]. destruct (ascii_dec ch ch); [apply IH|done].
Qed.

(** X7. The message of the [ProgrammingError] raised for a
    [CatalogException] is a prefix of the engine's message and holds no
    newline. *)
Theorem catalog_error_message_one_line (c : command Expression) p w e w1 d
    (args0 : string) :
  parsed_expression c p (reset_arrow_table w).2 = (Ok e, w1) →
  session_context_error (conn w) (key_command e) e = None →
  duck_execute (duck w) (sql_duckdb (transform_chain (database (conn w)) e)) p
    = (d, Some (DuckExn CatalogException args0)) →
  ∃ msg, (execute c p w).1 = Raise (ProgrammingError msg 2003 "42S02")
         ∧ has_newline msg = false
         ∧ String.prefix msg args0 = true.
Proof.
  intros Hparse Hcheck Hd.
  destruct (execute_engine_raises_world _ _ _ _ _ _ _ Hparse Hcheck Hd)
    as (w' & -> & _). simpl. eexists. split; [reflexivity|].
  split; [apply first_line_no_newline|apply first_line_prefix].
Qed.

(** X8. Once the engine has run a statement in which no identifier with a
    string name is found, [execute] leaves the session context as it is,
    also when the statement is a [USE DATABASE] or a [USE SCHEMA]. *)
Theorem use_without_identifier_keeps_session (c : command Expression) p w e w1 d :
  parsed_expression c p (reset_arrow_table w).2 = (Ok e, w1) →
  session_context_error (conn w) (key_command e) e = None →
  duck_execute (duck w) (sql_duckdb (transform_chain (database (conn w)) e)) p
    = (d, None) →
  find_Identifier e = None ∨ find_Identifier e = Some None →
  conn (execute c p w).2 = conn w.
Proof.
  intros Hparse Hcheck Hd Hid.
  destruct (execute_after_engine _ _ _ _ _ _ Hparse Hcheck Hd)
    as (w2 & -> & Hconn & _).
  assert (Huse : use_database_or_schema (key_command e) e w2 = (Ok tt, w2)).
  { unfold use_database_or_schema, mbind, M_bind, mret, M_ret.
    destruct Hid as [-> | ->];
      by destruct (String.eqb _ "USE DATABASE"), (String.eqb _ "USE SCHEMA"). }
  destruct (after_engine e (transform_chain (database (conn w)) e) w2)
    as [r w'] eqn:Hrun.
  simpl. rewrite <- Hconn. apply (after_engine_session _ _ _ _ _ _ Huse Hrun).
Qed.

End execute_facts.

(** ** The extension writes of [execute] *)

Lemma records_upsert_ne {K V : Type} `{EqDecision K} (k k' : K) (v : V)
    (rows : list (K * V)) :
  k ≠ k' → Store.records k' (Store.upsert k v rows) = Store.records k' rows.
Proof.
  intros Hne. unfold Store.records.
  induction rows as [|[k0 v0] rest IH]; simpl.
  - by rewrite filter_cons_False, filter_nil by done.
  - destruct (decide (k0 = k)) as [->|Hne0].
    + by rewrite !filter_cons_False by done.
    + destruct (decide (k0 = k')) as [->|Hne1].
      * rewrite !filter_cons_True by done. by rewrite IH.
      * rewrite !filter_cons_False by done. apply IH.
Qed.

Section writes_facts.
Context {E : Env}.
Implicit Types (w : world) (p : params Any) (e t : Expression).

(** X9. When [execute] records the table comment of a statement, the
    [tables_ext] record of the table holds the comment, written as text
    ([None] as the text [None]), under the table's own catalog and schema
    or, where the table names none, those of the session; the records of
    other tables and the [columns_ext] table are as before.  The catalog is
    named by a bare identifier and has the [tables_ext] table, and the
    texts written between quotes hold no quote. *)
Theorem table_comment_recorded t w (table : exp.Table) (comment : option string)
    (rows : list tables_ext_row) :
  args_table_comment t = Some (table, comment) →
  let cat := Py.fmt (Py.str_or (exp.catalog table) (database (conn w))) in
  let sch := Py.fmt (Py.str_or (exp.db table) (schema (conn w))) in
  Sql.bare_identifier cat = true →
  reserved_word cat = false →
  Sql.quote_free sch = true →
  Sql.quote_free (exp.name table) = true →
  Sql.quote_free (Py.fmt comment) = true →
  tables_ext_of (duck w) cat = Some rows →
  Store.primary_key rows →
  ∃ w' rows',
    record_table_comment t w = (Ok tt, w')
    ∧ conn w' = conn w
    ∧ tables_ext_of (duck w') cat = Some rows'
    ∧ Store.records (cat, sch, exp.name table) rows' =
        [((cat, sch, exp.name table), Some (Py.fmt comment))]
    ∧ (∀ k, k ≠ (cat, sch, exp.name table) →
         Store.records k rows' = Store.records k rows)
    ∧ columns_ext_of (duck w') cat = columns_ext_of (duck w) cat.
Proof.
  intros Hargs cat sch Hbare Hfree Hsch Hname Hcomment Hrows Hpk.
  unfold record_table_comment. rewrite Hargs.
  unfold mbind, M_bind, fmap, M_fmap, get. fold cat sch.
  unfold _duck_conn_execute_ext. rewrite duck_execute_ext_denoted.
  2: { simpl. by rewrite Hbare, Hfree, Hsch, Hname, Hcomment. }
  unfold run_ext_statement, insert_tables_ext, in_catalog, completed, set_ext.
  unfold tables_ext_of in Hrows. unfold columns_ext_of at 2.
  destruct (attached (duck w) !! cat) as [x|] eqn:Hx; [|done].
  simpl in Hrows. rewrite Hrows.
  eexists _, _. split; [reflexivity|]. split; [done|].
  unfold tables_ext_of, columns_ext_of. simpl. rewrite lookup_insert_eq. simpl.
  split; [done|]. split; [|split; [|done]].
  - rewrite records_find by by apply upsert_primary_key.
    by rewrite find_upsert_eq.
  - intros k Hk. by apply records_upsert_ne.
Qed.

(** X10. When the write of the table comment fails because the catalog has
    no [tables_ext] table, [execute] raises the engine's
    [CatalogException] as it is, not a [ProgrammingError], and the engine
    keeps what the statement itself did. *)
Theorem comment_write_failure_is_raw (c : command Expression) p w e w1 d
    (table : exp.Table) (comment : option string) (x : info_schema_ext) :
  parsed_expression c p (reset_arrow_table w).2 = (Ok e, w1) →
  session_context_error (conn w) (key_command e) e = None →
  let t := transform_chain (database (conn w)) e in
  duck_execute (duck w) (sql_duckdb t) p = (d, None) →
  String.eqb (key_command e) "USE DATABASE" = false →
  String.eqb (key_command e) "USE SCHEMA" = false →
  args_create_db_name t = None →
  args_table_comment t = Some (table, comment) →
  let cat := Py.fmt (Py.str_or (exp.catalog table) (database (conn w))) in
  let sch := Py.fmt (Py.str_or (exp.db table) (schema (conn w))) in
  Sql.bare_identifier cat = true →
  reserved_word cat = false →
  Sql.quote_free sch = true →
  Sql.quote_free (exp.name table) = true →
  Sql.quote_free (Py.fmt comment) = true →
  attached d !! cat = Some x →
  tables_ext x = None →
  ∃ msg w',
    execute c p w = (Raise (DuckError (DuckExn CatalogException msg)), w')
    ∧ duck w' = d ∧ conn w' = conn w.
Proof.
  intros Hparse Hcheck t Hd Hdb Hsc Hcreate Hargs cat sch Hbare Hfree Hsch Hname
    Hcomment Hx Hnone.
  destruct (execute_after_engine _ _ _ _ _ _ Hparse Hcheck Hd)
    as (w2 & -> & Hconn & Hduck).
  unfold after_engine. unfold mbind at 1. unfold M_bind.
  rewrite (use_database_or_schema_other _ _ _ Hdb Hsc).
  unfold create_info_schema_ext_of. fold t. rewrite Hcreate.
  unfold mbind at 1. unfold M_bind, mret at 1, M_ret.
  unfold record_table_comment. rewrite Hargs.
  unfold mbind, M_bind, fmap, M_fmap, get. rewrite Hconn. fold cat sch.
  unfold _duck_conn_execute_ext. rewrite duck_execute_ext_denoted.
  2: { simpl. by rewrite Hbare, Hfree, Hsch, Hname, Hcomment. }
  unfold run_ext_statement, insert_tables_ext, in_catalog, raised.
  rewrite Hduck, Hx, Hnone. by eexists _, _.
Qed.

(** On a catalog that has none of the extension objects the three
    statements run, and the catalog has the three objects. *)
Lemma create_info_schema_ext_fresh (catalog : string) w :
  Sql.bare_identifier catalog = true →
  reserved_word catalog = false →
  attached (duck w) !! catalog = Some (mkInfoSchemaExt None None false) →
  ∃ w', _create_info_schema_ext catalog w = (Ok tt, w')
        ∧ conn w' = conn w ∧ cur w' = cur w
        ∧ tables_ext_of (duck w') catalog = Some []
        ∧ columns_ext_of (duck w') catalog = Some []
        ∧ has_view (duck w') catalog = true.
Proof.
  intros Hbare Hfree Hfresh.
  assert (Hden : ∀ s, s ∈ [Sql.CreateTablesExt catalog; Sql.CreateColumnsExt catalog;
                          Sql.CreateColumnsView catalog] →
                      text_denotes reserved_word s = true).
  { intros s Hs. repeat (apply elem_of_cons in Hs as [->|Hs]); simpl;
      try by rewrite Hbare, Hfree. inversion Hs. }
  unfold _create_info_schema_ext, _duck_conn_execute_ext, mbind, M_bind,
    tables_ext_of, columns_ext_of, has_view.
  rewrite duck_execute_ext_denoted by (apply Hden; set_solver). simpl.
  unfold create_tables_ext, in_catalog, completed, set_ext.
  rewrite Hfresh. simpl.
  rewrite duck_execute_ext_denoted by (apply Hden; set_solver). simpl.
  unfold create_columns_ext, in_catalog, completed, set_ext. simpl.
  rewrite lookup_insert_eq. simpl.
  rewrite duck_execute_ext_denoted by (apply Hden; set_solver). simpl.
  unfold create_columns_view, in_catalog, completed, set_ext. simpl.
  rewrite lookup_insert_eq. simpl.
  eexists. split; [reflexivity|]. simpl. by rewrite lookup_insert_eq.
Qed.

(** X11. A statement that carries the name of a new database, once the
    engine has run it and holds the catalog without extension objects,
    makes [execute] create the [tables_ext] table, the [columns_ext] table
    and the [columns_snowflake] view of that catalog, and return; the
    session context is not changed. *)
Theorem create_database_creates_extension (c : command Expression) p w e w1 d
    (create_db_name : string) :
  parsed_expression c p (reset_arrow_table w).2 = (Ok e, w1) →
  session_context_error (conn w) (key_command e) e = None →
  let t := transform_chain (database (conn w)) e in
  duck_execute (duck w) (sql_duckdb t) p = (d, None) →
  String.eqb (key_command e) "USE DATABASE" = false →
  String.eqb (key_command e) "USE SCHEMA" = false →
  args_create_db_name t = Some create_db_name →
  args_table_comment t = None →
  args_text_lengths t = None →
  Sql.bare_identifier create_db_name = true →
  reserved_word create_db_name = false →
  attached d !! create_db_name = Some (mkInfoSchemaExt None None false) →
  ∃ cursor w',
    execute c p w = (Ok cursor, w')
    ∧ conn w' = conn w
    ∧ tables_ext_of (duck w') create_db_name = Some []
    ∧ columns_ext_of (duck w') create_db_name = Some []
    ∧ has_view (duck w') create_db_name = true.
Proof.
  intros Hparse Hcheck t Hd Hdb Hsc Hcreate Hcomment Hlengths Hbare Hfree Hfresh.
  destruct (execute_after_engine _ _ _ _ _ _ Hparse Hcheck Hd)
    as (w2 & -> & Hconn & Hduck).
  rewrite <- Hduck in Hfresh.
  destruct (create_info_schema_ext_fresh _ _ Hbare Hfree Hfresh)
    as (w3 & Hrun & Hconn3 & _ & Ht & Hc & Hv).
  unfold after_engine. unfold mbind at 1. unfold M_bind.
  rewrite (use_database_or_schema_other _ _ _ Hdb Hsc).
  unfold create_info_schema_ext_of. fold t. rewrite Hcreate.
  destruct (String.eqb create_db_name "") eqn:Hempty.
  { apply String.eqb_eq in Hempty. by subst. }
  unfold mbind at 1. unfold M_bind. rewrite Hrun.
  unfold record_table_comment, record_text_lengths.
  rewrite Hcomment, Hlengths.
  eexists _, _. split; [reflexivity|]. by rewrite Hconn3.
Qed.

(** X12. [_create_info_schema_ext] on a catalog that has the [columns_ext]
    table and no [tables_ext] table raises the engine's [CatalogException]
    at the second statement, and the [tables_ext] table made by the first
    statement stays. *)
Theorem create_info_schema_ext_partial (catalog : string) w
    (x : info_schema_ext) (rows : list columns_ext_row) :
  Sql.bare_identifier catalog = true →
  reserved_word catalog = false →
  attached (duck w) !! catalog = Some x →
  tables_ext x = None →
  columns_ext x = Some rows →
  ∃ msg w',
    _create_info_schema_ext catalog w =
      (Raise (DuckError (DuckExn CatalogException msg)), w')
    ∧ tables_ext_of (duck w') catalog = Some []
    ∧ columns_ext_of (duck w') catalog = Some rows
    ∧ has_view (duck w') catalog = columns_snowflake x.
Proof.
  intros Hbare Hfree Hx Ht Hc.
  assert (Hden : ∀ s, s ∈ [Sql.CreateTablesExt catalog; Sql.CreateColumnsExt catalog] →
                      text_denotes reserved_word s = true).
  { intros s Hs. repeat (apply elem_of_cons in Hs as [->|Hs]); simpl;
      try by rewrite Hbare, Hfree. inversion Hs. }
  unfold _create_info_schema_ext, _duck_conn_execute_ext, mbind, M_bind,
    tables_ext_of, columns_ext_of, has_view.
  rewrite duck_execute_ext_denoted by (apply Hden; set_solver). simpl.
  unfold create_tables_ext, in_catalog, completed, set_ext.
  rewrite Hx, Ht. simpl.
  rewrite duck_execute_ext_denoted by (apply Hden; set_solver). simpl.
  unfold create_columns_ext, in_catalog, raised. simpl.
  rewrite lookup_insert_eq. simpl. rewrite Hc. simpl.
  eexists _, _. split; [reflexivity|]. simpl. by rewrite lookup_insert_eq.
Qed.

End writes_facts.

(** ** More on [executemany] *)

Section executemany_facts.
Context {E : Env}.
Implicit Types (w : world) (p : params Any).

Lemma execute_each_app (text : string) (sets1 sets2 : list (params Any)) : ∀ w,
  execute_each text (sets1 ++ sets2)%list w =
    match execute_each text sets1 w with
    | (Ok _, wa) => execute_each text sets2 wa
    | (Raise x, wa) => (Raise x, wa)
    end.
Proof.
  induction sets1 as [|p rest IH]; intros w; [reflexivity|].
  cbn [app execute_each]. unfold mbind, M_bind.
  destruct (execute (CmdStr text) p w) as [[c|x] w0]; [apply IH|done].
Qed.

(** X13. [executemany] over two sequences of parameter sets in a row is
    [executemany] over the first and then, in the world it returns in,
    over the second. *)
Theorem executemany_app (text : string) (sets1 sets2 : list (params Any))
    w (cursor : FakeSnowflakeCursor) wa :
  executemany text (SeqParams sets1) w = (Ok cursor, wa) →
  executemany text (SeqParams (sets1 ++ sets2)%list) w =
    executemany text (SeqParams sets2) wa.
Proof.
  unfold executemany, mbind, M_bind. rewrite execute_each_app.
  destruct (execute_each text sets1 w) as [[[]|x] w0]; [|done].
  unfold fmap, M_fmap, get. by intros [= _ <-].
Qed.

Lemma executemany_raises_after (text : string)
    (sets1 sets2 : list (params Any)) p w (cursor : FakeSnowflakeCursor) wa x wb :
  executemany text (SeqParams sets1) w = (Ok cursor, wa) →
  execute (CmdStr text) p wa = (Raise x, wb) →
  executemany text (SeqParams (sets1 ++ p :: sets2)%list) w = (Raise x, wb).
Proof.
  unfold executemany, mbind, M_bind. rewrite execute_each_app.
  destruct (execute_each text sets1 w) as [[[]|y] w0]; [|done].
  unfold fmap, M_fmap, get. intros [= _ <-] Hp.
  cbn [execute_each]. unfold mbind, M_bind. by rewrite Hp.
Qed.

(** X14. [executemany] stops at the first parameter set on which [execute]
    raises: it raises the same, in the world that call left, and the sets
    after it are not executed. *)
Theorem executemany_stops_at_first_failure (text : string)
    (sets1 sets2 : list (params Any)) p w (cursor : FakeSnowflakeCursor) wa x wb :
  executemany text (SeqParams sets1) w = (Ok cursor, wa) →
  execute (CmdStr text) p wa = (Raise x, wb) →
  executemany text (SeqParams (sets1 ++ p :: sets2)%list) w = (Raise x, wb)
  ∧ ∀ others,
      executemany text (SeqParams (sets1 ++ p :: others)%list) w = (Raise x, wb).
Proof.
  intros Hfirst Hp. split; [|intros others];
    by apply (executemany_raises_after _ _ _ _ _ _ _ _ _ Hfirst Hp).
Qed.

(** X15. A dictionary as one of the parameter sets of [executemany] raises
    [NotImplementedError] when its turn comes, before the command is parsed
    for it: the engine and the trace are as the sets before it left
    them. *)
Theorem executemany_dict_parameter_set (text : string)
    (sets1 sets2 : list (params Any)) (items : list (Any * Any)) w
    (cursor : FakeSnowflakeCursor) wa :
  executemany text (SeqParams sets1) w = (Ok cursor, wa) →
  ∃ wb,
    executemany text (SeqParams (sets1 ++ PDict items :: sets2)%list) w =
      (Raise (NotImplementedError "dict params not supported yet"), wb)
    ∧ duck wb = duck wa ∧ trace wb = trace wa ∧ conn wb = conn wa.
Proof.
  intros Hfirst. eexists. split.
  - apply (executemany_raises_after _ _ _ (PDict items) _ _ _ _ _ Hfirst).
    reflexivity.
  - done.
Qed.

End executemany_facts.

(** ** More on the result metadata *)

Lemma take_digits_run_end (digits : string) :
  forallb Py.is_digit (list_ascii_of_string digits) = true →
  Py.take_digits digits = (digits, EmptyString).
Proof.
  induction digits as [|ch digits IH]; [reflexivity|].
  cbn [list_ascii_of_string forallb]. intros [Hch Hd]%andb_true_iff.
  cbn [Py.take_digits]. by rewrite Hch, IH.
Qed.

Lemma search_decimal_suffix (p s suffix : string) :
  all_digits p = true → all_digits s = true →
  Py.search_decimal (spec_decimal p s +:+ suffix) = Some (p, s).
Proof.
  intros [Hp Hpd]%all_digits_run [Hs Hsd]%all_digits_run.
  unfold spec_decimal.
  change ("DECIMAL(" +:+ p +:+ "," +:+ s +:+ ")")
    with ("DECIMAL(" +:+ (p +:+ String ","%char (s +:+ String ")"%char ""))).
  assert (Happ : ∀ a b c : string, (a +:+ b) +:+ c = a +:+ (b +:+ c)).
  { intros a b c. induction a as [|ch a IH]; [reflexivity|].
    simpl. by rewrite IH. }
  rewrite Happ. simpl. rewrite Happ. simpl. rewrite Happ. simpl.
  rewrite (take_digits_run p ","%char) by done.
  destruct p as [|cp p']; [done|].
  rewrite (take_digits_run s ")"%char) by done.
  destruct s as [|cs s']; [done|]. done.
Qed.

Lemma int_of_digits_from_nonnegative (digits : string) : ∀ acc : Z,
  forallb Py.is_digit (list_ascii_of_string digits) = true →
  (0 ≤ acc)%Z → (0 ≤ Py.int_of_digits_from acc digits)%Z.
Proof.
  induction digits as [|ch digits IH]; intros acc; [done|].
  cbn [list_ascii_of_string forallb Py.int_of_digits_from].
  intros [Hch Hd]%andb_true_iff Hacc. apply IH; [done|].
  unfold Py.is_digit in Hch. apply andb_true_iff in Hch as [Hlo _].
  apply Nat.leb_le in Hlo. unfold Py.digit_value. lia.
Qed.

(** X16. A type string that starts with [DECIMAL(p,s)] is described with
    type code 0, precision [p] and scale [s] whatever follows the closing
    parenthesis, and the two numbers are not negative. *)
Theorem decimal_with_suffix (column_name p s suffix : string) :
  all_digits p = true → all_digits s = true →
  as_result_metadata column_name (spec_decimal p s +:+ suffix) =
    Ok (mkResultMetadata column_name 0 None None
          (Some (Py.int p)) (Some (Py.int s)) true)
  ∧ (0 ≤ Py.int p)%Z ∧ (0 ≤ Py.int s)%Z.
Proof.
  intros Hp Hs. split.
  - unfold as_result_metadata. rewrite search_decimal_suffix by done.
    by unfold spec_decimal.
  - destruct (all_digits_run _ Hp) as [_ Hpd], (all_digits_run _ Hs) as [_ Hsd].
    split; by apply int_of_digits_from_nonnegative.
Qed.

(** X17. When [_describe_as_result_metadata] returns, it gives one
    descriptor for each row, in order and under the row's column name, each
    nullable and without display size; and it returns exactly when every
    row has a type that [as_result_metadata] describes. *)
Theorem describe_rows_in_order (rows : list describe_row) :
  (∀ metas, _describe_as_result_metadata rows = Ok metas →
     name <$> metas = d_column_name <$> rows
     ∧ Forall (λ m, is_nullable m = true ∧ display_size m = None) metas)
  ∧ ((∃ metas, _describe_as_result_metadata rows = Ok metas)
     ↔ Forall (λ r, ∃ m, as_result_metadata (d_column_name r) (d_column_type r)
                           = Ok m) rows).
Proof.
  assert (Hone : ∀ n ty m, as_result_metadata n ty = Ok m →
            name m = n ∧ is_nullable m = true ∧ display_size m = None).
  { intros n ty m. unfold as_result_metadata.
    repeat (match goal with |- context [if ?b then _ else _] => destruct b end;
            [try destruct (Py.search_decimal ty) as [[? ?]|];
             by intros [= <-]|]).
    discriminate. }
  split.
  - induction rows as [|r rows IH]; intros metas;
      cbn [_describe_as_result_metadata].
    + by intros [= <-].
    + destruct (as_result_metadata (d_column_name r) (d_column_type r))
        as [m|x] eqn:Hr; [|discriminate].
      destruct (_describe_as_result_metadata rows) as [ms|x]; [|discriminate].
      intros [= <-]. destruct (IH ms eq_refl) as [Hnames Hall].
      destruct (Hone _ _ _ Hr) as (Hn & Hnull & Hsize).
      split; [cbn [fmap list_fmap]; by rewrite Hn, <- Hnames|].
      by constructor.
  - induction rows as [|r rows [IH1 IH2]]; cbn [_describe_as_result_metadata].
    + split; [constructor|by eexists].
    + destruct (as_result_metadata (d_column_name r) (d_column_type r))
        as [m|x] eqn:Hr.
      * destruct (_describe_as_result_metadata rows) as [ms|x].
        -- split; [|by eexists]. intros _. constructor; [by eexists|].
           apply IH1. by eexists.
        -- split; [by intros [? ?]|].
           intros [_ Hall]%Forall_cons. destruct (IH2 Hall) as [? ?]. done.
      * split; [by intros [? ?]|].
        intros [[m Hm] _]%Forall_cons. rewrite Hr in Hm. done.
Qed.

(** ** The [columns_snowflake] view *)

Lemma join_row_find (ext : list columns_ext_row) (r : InfoSchema.columns_row) :
  Store.primary_key ext →
  InfoSchema.join_row ext r =
    [InfoSchema.mkColumnsSnowflakeRow (InfoSchema.with_snowflake_precision r)
       (default (None, None) (Store.find (InfoSchema.key r) ext)).1
       (default (None, None) (Store.find (InfoSchema.key r) ext)).2].
Proof.
  intros Hpk. unfold InfoSchema.join_row. rewrite records_find by done.
  by destruct (Store.find (InfoSchema.key r) ext) as [[a b]|].
Qed.

Section view_facts.
Context {E : Env}.

(** X18. Over a [columns_ext] table that satisfies its primary key,
    whatever a query of the view returns has exactly one row for each
    column of the engine's [information_schema.columns], in an order of the
    engine's choosing: the row carries the two lengths of the column's
    [columns_ext] record, or two nulls when the column has no record. *)
Theorem view_one_row_per_column (d : DuckDB Native) (catalog : string)
    (ext : list columns_ext_row) (rows : list InfoSchema.columns_snowflake_row) :
  columns_ext_of d catalog = Some ext →
  Store.primary_key ext →
  select_columns_snowflake d catalog rows →
  rows ≡ₚ
    (λ r, InfoSchema.mkColumnsSnowflakeRow (InfoSchema.with_snowflake_precision r)
            (default (None, None) (Store.find (InfoSchema.key r) ext)).1
            (default (None, None) (Store.find (InfoSchema.key r) ext)).2)
    <$> information_schema_columns d catalog
  ∧ length rows = length (information_schema_columns d catalog).
Proof.
  intros Hext Hpk (ext' & Hext' & _ & Hperm)%select_columns_snowflake_rows.
  rewrite Hext in Hext'. injection Hext' as <-.
  assert (Hview : ∀ native_columns, InfoSchema.view native_columns ext =
    (λ r, InfoSchema.mkColumnsSnowflakeRow (InfoSchema.with_snowflake_precision r)
            (default (None, None) (Store.find (InfoSchema.key r) ext)).1
            (default (None, None) (Store.find (InfoSchema.key r) ext)).2)
    <$> native_columns).
  { unfold InfoSchema.view.
    induction native_columns as [|r rest IH]; [reflexivity|].
    cbn [flat_map fmap list_fmap]. rewrite join_row_find by done.
    cbn [app]. f_equal. apply IH. }
  rewrite Hview in Hperm. split; [done|].
  rewrite Hperm. apply length_fmap.
Qed.

End view_facts.

(** X19. Every row of the view comes from a column of the engine's
    [information_schema.columns] and has its catalog, schema, table, column
    name and data type; a [BIGINT] column is reported with numeric precision
    38 and radix 10, and a column of another type with the precision and
    radix the engine reports. *)
Theorem view_bigint_precision (native_columns : list InfoSchema.columns_row)
    (ext : list columns_ext_row) (v : InfoSchema.columns_snowflake_row) :
  v ∈ InfoSchema.view native_columns ext →
  ∃ r, r ∈ native_columns
       ∧ InfoSchema.key (InfoSchema.columns v) = InfoSchema.key r
       ∧ InfoSchema.data_type (InfoSchema.columns v) = InfoSchema.data_type r
       ∧ InfoSchema.numeric_scale (InfoSchema.columns v) = InfoSchema.numeric_scale r
       ∧ (InfoSchema.data_type r = "BIGINT" →
          InfoSchema.numeric_precision (InfoSchema.columns v) = Some 38
          ∧ InfoSchema.numeric_precision_radix (InfoSchema.columns v) = Some 10)
       ∧ (InfoSchema.data_type r ≠ "BIGINT" → InfoSchema.columns v = r).
Proof.
  unfold InfoSchema.view. intros Hv.
  apply list_elem_of_In, in_flat_map in Hv as (r & Hr & Hv).
  apply list_elem_of_In in Hr, Hv. exists r. split; [done|].
  assert (Hcols : InfoSchema.columns v = InfoSchema.with_snowflake_precision r).
  { unfold InfoSchema.join_row in Hv.
    destruct (Store.records (InfoSchema.key r) ext) as [|m ms].
    - apply list_elem_of_singleton in Hv. by subst.
    - apply list_elem_of_fmap in Hv as (m' & -> & _). done. }
  rewrite Hcols. unfold InfoSchema.with_snowflake_precision, InfoSchema.key.
  simpl. split; [done|]. split; [done|]. split; [done|]. split.
  - intros Hbig. by rewrite Hbig.
  - intros Hother. apply String.eqb_neq in Hother. rewrite Hother.
    by destruct r.
Qed.

(** ** The text-length write and the other records *)

Lemma records_run_absent {K V : Type} `{EqDecision K} (k : K)
    (ops rows : list (K * V)) :
  k ∉ ops.*1 → Store.records k (Store.run ops rows) = Store.records k rows.
Proof.
  unfold Store.run. revert rows.
  induction ops as [|[k' v'] ops IH]; intros rows Hk; [reflexivity|].
  cbn [fmap list_fmap] in Hk. apply not_elem_of_cons in Hk as [Hne Hk].
  cbn [foldl]. rewrite IH by done. apply records_upsert_ne.
  simpl in *. congruence.
Qed.

Section lengths_facts.
Context {E : Env}.

(** X20. The text-length write of [execute], when it is written as meant,
    touches the records of the statement's columns only: every other
    record of [columns_ext], the [tables_ext] table and the session context
    are as before.  The catalog is named by a bare identifier and has the
    [columns_ext] table, the names written between quotes hold no quote,
    the columns are distinct and each length fits an [integer] column. *)
Theorem text_lengths_keep_other_records (t : Expression) (w : world)
    (text_lengths : list (string * Z)) (table : exp.Table)
    (rows : list columns_ext_row) :
  args_text_lengths t = Some text_lengths →
  text_lengths ≠ [] →
  find_Table t = Some table →
  let cat := Py.fmt (Py.str_or (exp.catalog table) (database (conn w))) in
  let sch := Py.fmt (Py.str_or (exp.db table) (schema (conn w))) in
  Sql.bare_identifier cat = true →
  reserved_word cat = false →
  Sql.quote_free sch = true →
  Sql.quote_free (exp.name table) = true →
  Forall (λ cs : string * Z,
            Sql.quote_free cs.1 = true ∧ (0 ≤ cs.2 ≤ 2147483647)%Z) text_lengths →
  NoDup (text_lengths.*1) →
  columns_ext_of (duck w) cat = Some rows →
  ∃ w' rows',
    record_text_lengths t w = (Ok tt, w')
    ∧ conn w' = conn w
    ∧ columns_ext_of (duck w') cat = Some rows'
    ∧ tables_ext_of (duck w') cat = tables_ext_of (duck w) cat
    ∧ ∀ k, (∀ column, column ∈ text_lengths.*1 →
              k ≠ (cat, sch, exp.name table, column)) →
           Store.records k rows' = Store.records k rows.
Proof.
  intros Hargs Hne Htable cat sch Hbare Hfree Hsch Hname Hfit Hnd Hrows.
  destruct (record_text_lengths_run t w text_lengths table rows Hargs Hne Htable
              Hbare Hfree Hsch Hname Hfit Hnd Hrows)
    as (w' & Hrun & Hconn & _ & Hrows' & Ht & _).
  pose proof (length_rows_keys cat sch (exp.name table) text_lengths) as Hwritten.
  eexists w', _. split; [done|]. split; [done|]. split; [exact Hrows'|].
  split; [done|].
  intros k Hk. apply records_run_absent. intros Hin.
  assert (Hin' : k ∈ (λ column : string, (cat, sch, exp.name table, column))
                       <$> text_lengths.*1)
    by (rewrite <- Hwritten; exact Hin).
  apply list_elem_of_fmap in Hin' as (column & -> & Hcolumn).
  by apply (Hk column).
Qed.

End lengths_facts.

(** ** The connection, [execute_string] and [describe] *)

Section session_facts.
Context {E : Env} {R : Results}.
Implicit Types (w : world) (p : params Any) (e : Expression).

Lemma keeps_execute_fetchone (text : string) :
  keeps (λ w, conn w) (execute_fetchone text).
Proof.
  unfold execute_fetchone.
  apply keeps_mbind; [by apply keeps_duck_conn_execute|intros _].
  intros w r w'. unfold _duck_conn_fetchone.
  destruct (duck_fetchone (duck w)) as [row d]. by intros [= <- <-].
Qed.

Lemma keeps_init_create_database (create_database : bool) :
  keeps (λ w, conn w) (init_create_database create_database).
Proof.
  unfold init_create_database.
  apply keeps_mbind; [apply keeps_read|intros s].
  destruct (_ && _); [|apply keeps_mret].
  apply keeps_mbind; [apply keeps_execute_fetchone|intros [|]];
    [apply keeps_mret|].
  apply keeps_mbind; [by apply keeps_duck_conn_execute|intros _].
  by apply keeps_create_info_schema_ext.
Qed.

Lemma keeps_init_create_schema (create_schema : bool) :
  keeps (λ w, conn w) (init_create_schema create_schema).
Proof.
  unfold init_create_schema.
  apply keeps_mbind; [apply keeps_read|intros s].
  destruct (_ && _); [|apply keeps_mret].
  apply keeps_mbind; [apply keeps_execute_fetchone|intros [|]];
    [apply keeps_mret|].
  by apply keeps_duck_conn_execute.
Qed.

(** What [init_set_schema] makes of the session context. *)
Lemma init_set_schema_session w r w' :
  init_set_schema w = (r, w') →
  conn w' = conn w
  ∨ (truthy (database (conn w)) = true ∧ truthy (schema (conn w)) = true
     ∧ conn w' = mkConnection (database (conn w)) (schema (conn w)) true true
                   (_paramstyle (conn w)))
  ∨ (truthy (database (conn w)) = true
     ∧ conn w' = mkConnection (database (conn w)) (schema (conn w)) true
                   (schema_set (conn w)) (_paramstyle (conn w))).
Proof.
  unfold init_set_schema. intros Hrun.
  apply mbind_inv in Hrun as [(s & w0 & Hs & Hrun)|(x & Hs & _)].
  2: { unfold fmap, M_fmap, get in Hs. discriminate. }
  unfold fmap, M_fmap, get in Hs. injection Hs as <- <-.
  assert (Hput : ∀ (text : string) s' u r0 u',
            (_duck_conn_execute text PNone ;; put_conn s') u = (r0, u') →
            conn u' = conn u ∨ conn u' = s').
  { intros text s' u r0 u' Hp.
    apply mbind_inv in Hp as [([] & u0 & Hex & Hp)|(x & Hex & _)].
    - right. unfold put_conn in Hp. by injection Hp as <- <-.
    - left. by apply (keeps_duck_conn_execute (λ w, conn w)) in Hex. }
  apply mbind_inv in Hrun as [(both & w1 & Hboth & Hrun)|(x & Hboth & _)].
  2: { left. destruct (_ && _).
       - by apply keeps_execute_fetchone in Hboth.
       - discriminate. }
  assert (Hconn1 : conn w1 = conn w).
  { destruct (_ && _).
    - by apply keeps_execute_fetchone in Hboth.
    - unfold mret, M_ret in Hboth. by injection Hboth as _ <-. }
  destruct both.
  - destruct (truthy (database (conn w)) && truthy (schema (conn w))) eqn:Ht.
    2: { unfold mret, M_ret in Hboth. discriminate. }
    apply andb_true_iff in Ht as [Hd Hs].
    apply Hput in Hrun as [Hrun| ->]; [left; congruence|]. right. left. done.
  - apply mbind_inv in Hrun as [(only & w2 & Honly & Hrun)|(x & Honly & _)].
    2: { left. rewrite <- Hconn1. destruct (truthy (database (conn w))).
         - by apply keeps_execute_fetchone in Honly.
         - discriminate. }
    assert (Hconn2 : conn w2 = conn w).
    { rewrite <- Hconn1. destruct (truthy (database (conn w))).
      - by apply keeps_execute_fetchone in Honly.
      - unfold mret, M_ret in Honly. by injection Honly as _ <-. }
    destruct only.
    + destruct (truthy (database (conn w))) eqn:Hd.
      2: { unfold mret, M_ret in Honly. discriminate. }
      apply Hput in Hrun as [Hrun| ->]; [left; congruence|]. right. right. done.
    + left. unfold mret, M_ret in Hrun. injection Hrun as _ <-. done.
Qed.

(** X21. However [FakeSnowflakeConnection.__init__] ends, the connection
    holds the database and the schema it was given in upper case and the
    paramstyle [pyformat]; the schema is marked set only together with the
    database, with a schema name that is not empty, and the database is
    marked set only with a database name that is not empty. *)
Theorem connection_init_session (database_name schema_name : option string)
    (create_database create_schema : bool) w r w' :
  connection_init database_name schema_name create_database create_schema w
    = (r, w') →
  database (conn w') = Py.upper <$> database_name
  ∧ schema (conn w') = Py.upper <$> schema_name
  ∧ _paramstyle (conn w') = "pyformat"
  ∧ (schema_set (conn w') = true →
     database_set (conn w') = true ∧ truthy (schema (conn w')) = true)
  ∧ (database_set (conn w') = true → truthy (database (conn w')) = true).
Proof.
  unfold connection_init. intros Hrun.
  apply mbind_inv in Hrun as [([] & w0 & Hput & Hrun)|(x & Hput & _)];
    [|discriminate].
  unfold put_conn in Hput. injection Hput as <-.
  set (s0 := mkConnection (Py.upper <$> database_name) (Py.upper <$> schema_name)
               false false "pyformat") in *.
  assert (Hgoal : ∀ u,
            conn u = s0
            ∨ (truthy (database s0) = true ∧ truthy (schema s0) = true
               ∧ conn u = mkConnection (database s0) (schema s0) true true
                            (_paramstyle s0))
            ∨ (truthy (database s0) = true
               ∧ conn u = mkConnection (database s0) (schema s0) true
                            (schema_set s0) (_paramstyle s0)) →
            database (conn u) = Py.upper <$> database_name
            ∧ schema (conn u) = Py.upper <$> schema_name
            ∧ _paramstyle (conn u) = "pyformat"
            ∧ (schema_set (conn u) = true →
               database_set (conn u) = true ∧ truthy (schema (conn u)) = true)
            ∧ (database_set (conn u) = true → truthy (database (conn u)) = true)).
  { intros u [-> |[(Hd & Hs & ->)|(Hd & ->)]]; simpl; repeat split; done. }
  apply Hgoal.
  apply mbind_inv in Hrun as [([] & w1 & Ha & Hrun)|(x & Ha & _)].
  2: { left. by apply keeps_init_create_database in Ha. }
  apply keeps_init_create_database in Ha. simpl in Ha.
  apply mbind_inv in Hrun as [([] & w2 & Hb & Hrun)|(x & Hb & _)].
  2: { left. apply keeps_init_create_schema in Hb. congruence. }
  apply keeps_init_create_schema in Hb.
  assert (Hconn2 : conn w2 = s0) by congruence.
  apply mbind_inv in Hrun as [([] & w3 & Hs & Hrun)|(x & Hs & _)].
  - apply (keeps_duck_conn_execute (λ w, conn w)) in Hrun; [|done].
    rewrite Hrun. apply init_set_schema_session in Hs. by rewrite Hconn2 in Hs.
  - apply init_set_schema_session in Hs. by rewrite Hconn2 in Hs.
Qed.

(** X22. Given no database, or an empty name, [__init__] sends the engine
    one statement, the setting of the time zone to UTC, and neither the
    database nor the schema is marked set, whatever schema and flags it was
    given. *)
Theorem connection_init_without_database (database_name schema_name : option string)
    (create_database create_schema : bool) w :
  database_name = None ∨ database_name = Some "" →
  connection_init database_name schema_name create_database create_schema w =
    _duck_conn_execute "SET TimeZone = 'UTC'" PNone
      (mkWorld (mkConnection database_name (Py.upper <$> schema_name) false false
                  "pyformat") (cur w) (duck w) (trace w))
  ∧ trace (connection_init database_name schema_name create_database
             create_schema w).2
    = (trace w ++ [Executed "SET TimeZone = 'UTC'" PNone])%list
  ∧ database_set (conn (connection_init database_name schema_name create_database
                          create_schema w).2) = false
  ∧ schema_set (conn (connection_init database_name schema_name create_database
                        create_schema w).2) = false.
Proof.
  intros Hnone.
  assert (Hrun : connection_init database_name schema_name create_database
                   create_schema w =
            _duck_conn_execute "SET TimeZone = 'UTC'" PNone
              (mkWorld (mkConnection database_name (Py.upper <$> schema_name)
                          false false "pyformat") (cur w) (duck w) (trace w))).
  { unfold connection_init, init_create_database, init_create_schema,
      init_set_schema, mbind, M_bind, fmap, M_fmap, get, put_conn, mret, M_ret.
    destruct Hnone as [-> | ->]; simpl;
      by rewrite ?andb_false_r. }
  rewrite Hrun. split; [done|]. unfold _duck_conn_execute. simpl.
  by destruct (duck_execute (duck w) "SET TimeZone = 'UTC'" PNone) as [d o].
Qed.

(** X23. When [__init__] returns, the last statement it sent the engine is
    the setting of the time zone to UTC. *)
Theorem connection_init_sets_utc_last (database_name schema_name : option string)
    (create_database create_schema : bool) w w' :
  connection_init database_name schema_name create_database create_schema w
    = (Ok tt, w') →
  last (trace w') = Some (Executed "SET TimeZone = 'UTC'" PNone).
Proof.
  unfold connection_init. intros Hrun.
  repeat (apply mbind_inv in Hrun as [([] & ? & _ & Hrun)|(? & _ & ?)];
          [|discriminate]).
  unfold _duck_conn_execute in Hrun.
  destruct (duck_execute _ _ _) as [d o]. injection Hrun as _ <-.
  simpl. apply last_snoc.
Qed.

Lemma execute_statements_cursors (dict_cursor : bool)
    (statements : list (option Expression)) : ∀ w cursors w',
  execute_statements dict_cursor statements w = (Ok cursors, w') →
  length cursors = length (omap id statements)
  ∧ Forall (λ c0, _use_dict_result c0 = dict_cursor ∧ _arrow_table c0 = None)
      cursors.
Proof.
  induction statements as [|[e|] rest IH]; intros w cursors w';
    cbn [execute_statements omap].
  - unfold mret, M_ret. by intros [= <- <-].
  - intros Hrun.
    apply mbind_inv in Hrun as [([] & w0 & Hnew & Hrun)|(? & _ & ?)];
      [|discriminate].
    apply mbind_inv in Hrun as [(c0 & w1 & Hex & Hrun)|(? & _ & ?)];
      [|discriminate].
    apply mbind_inv in Hrun as [(cs & w2 & Hrest & Hrun)|(? & _ & ?)];
      [|discriminate].
    unfold mret, M_ret in Hrun. injection Hrun as <- <-.
    destruct (IH _ _ _ Hrest) as [Hlen Hall].
    pose proof (execute_cursor_kept _ _ _ _ _ Hex) as Hkept.
    rewrite <- (execute_returns_cursor _ _ _ _ _ Hex) in Hkept.
    unfold cursor, put_cur in Hnew. injection Hnew as <-.
    simpl in Hkept. injection Hkept as Hdict Harrow.
    split; [simpl; by rewrite Hlen|]. by constructor.
  - apply IH.
Qed.

(** X24. [execute_string] does the same to the session context, the engine
    and the trace whether it returns the cursors or not: with
    [return_cursors] false it returns the empty list where it would return
    the cursors, and raises where it would raise. *)
Theorem execute_string_return_cursors (sql_text : string) (dict_cursor : bool) w :
  execute_string sql_text false dict_cursor w =
    match execute_string sql_text true dict_cursor w with
    | (Ok _, w') => (Ok [], w')
    | (Raise x, w') => (Raise x, w')
    end.
Proof.
  unfold execute_string, mbind, M_bind, call, mret, M_ret.
  destruct (sqlglot_parse sql_text) as [statements|x]; [|done].
  by destruct (execute_statements dict_cursor statements w) as [[cs|x] w'].
Qed.

(** X25. When [execute_string] returns its cursors, there is one for each
    statement of the text that is not empty, each of the result style asked
    for and with no cached arrow table. *)
Theorem execute_string_cursors (sql_text : string) (dict_cursor : bool) w
    (statements : list (option Expression))
    (cursors : list FakeSnowflakeCursor) w' :
  sqlglot_parse sql_text = Ok statements →
  execute_string sql_text true dict_cursor w = (Ok cursors, w') →
  length cursors = length (omap id statements)
  ∧ Forall (λ c0, _use_dict_result c0 = dict_cursor ∧ _arrow_table c0 = None)
      cursors.
Proof.
  intros Hparse. unfold execute_string, mbind, M_bind, call, mret, M_ret.
  rewrite Hparse.
  destruct (execute_statements dict_cursor statements w) as [[cs|x] w0] eqn:Hrun;
    [|discriminate].
  intros [= <- <-]. by apply (execute_statements_cursors _ _ _ _ _ Hrun).
Qed.

Lemma execute_statements_app (dict_cursor : bool)
    (pre post : list (option Expression)) : ∀ w,
  execute_statements dict_cursor (pre ++ post)%list w =
    match execute_statements dict_cursor pre w with
    | (Ok cs1, wa) =>
        match execute_statements dict_cursor post wa with
        | (Ok cs2, wb) => (Ok (cs1 ++ cs2)%list, wb)
        | (Raise x, wb) => (Raise x, wb)
        end
    | (Raise x, wa) => (Raise x, wa)
    end.
Proof.
  induction pre as [|[e|] rest IH]; intros w; cbn [app execute_statements].
  - unfold mret, M_ret.
    by destruct (execute_statements dict_cursor post w) as [[cs|x] wb].
  - unfold mbind, M_bind, cursor, put_cur, mret, M_ret.
    destruct (execute _ _ _) as [[c0|x] w1]; [|done].
    rewrite IH.
    destruct (execute_statements dict_cursor rest w1) as [[cs1|x] wa]; [|done].
    by destruct (execute_statements dict_cursor post wa) as [[cs2|x] wb].
  - apply IH.
Qed.

(** X26. [execute_string] stops at the first statement on which [execute]
    raises: it raises the same in the world that call left, in which the
    statements before it stay executed, and the statements after it are not
    executed. *)
Theorem execute_string_stops_at_first_failure (sql_text : string)
    (return_cursors dict_cursor : bool) w
    (pre post : list (option Expression)) e
    (cursors : list FakeSnowflakeCursor) wa x wb :
  sqlglot_parse sql_text = Ok (pre ++ Some e :: post)%list →
  execute_statements dict_cursor pre w = (Ok cursors, wa) →
  execute (CmdStr (sql_snowflake e)) PNone
    (mkWorld (conn wa) (mkCursor dict_cursor None PNone None) (duck wa) (trace wa))
    = (Raise x, wb) →
  execute_string sql_text return_cursors dict_cursor w = (Raise x, wb).
Proof.
  intros Hparse Hpre Hfail.
  unfold execute_string. unfold mbind at 1. unfold M_bind, call.
  rewrite Hparse. unfold mbind at 1. unfold M_bind.
  rewrite execute_statements_app, Hpre. cbn [execute_statements].
  unfold mbind at 1. unfold M_bind, cursor, put_cur.
  unfold mbind at 1. unfold M_bind. by rewrite Hfail.
Qed.

(** [execute] of a statement with no annotation that is no [USE]. *)
Lemma execute_plain (c : command Expression) p w e w1 d :
  parsed_expression c p (reset_arrow_table w).2 = (Ok e, w1) →
  session_context_error (conn w) (key_command e) e = None →
  let t := transform_chain (database (conn w)) e in
  duck_execute (duck w) (sql_duckdb t) p = (d, None) →
  String.eqb (key_command e) "USE DATABASE" = false →
  String.eqb (key_command e) "USE SCHEMA" = false →
  args_create_db_name t = None →
  args_table_comment t = None →
  args_text_lengths t = None →
  ∃ w2, execute c p w = (Ok (cur w2), w2) ∧ duck w2 = d ∧ conn w2 = conn w.
Proof.
  intros Hparse Hcheck t Hd Hdb Hsc Hcreate Hcomment Hlengths.
  destruct (execute_after_engine _ _ _ _ _ _ Hparse Hcheck Hd)
    as (w2 & -> & Hconn & Hduck).
  unfold after_engine. unfold mbind at 1. unfold M_bind.
  rewrite (use_database_or_schema_other _ _ _ Hdb Hsc).
  unfold create_info_schema_ext_of, record_table_comment, record_text_lengths.
  fold t. rewrite Hcreate, Hcomment, Hlengths. by exists w2.
Qed.

(** X27. [describe] parses the command text as it is given, whatever the
    parameters: a text that does not parse raises the parser's error, and
    [%s] markers are not rewritten nor a dictionary refused.  The
    parameters go to the engine as they are, and what the engine raises on
    the described statement reaches the caller as from [execute]. *)
Theorem describe_parses_text_as_given (text : string) p w :
  (∀ x, parse_one text = Raise x →
     describe text p w =
       (Raise x, mkWorld (conn w) (cur w) (duck w) (trace w ++ [Parsed text])))
  ∧ (∀ e d x,
       parse_one text = Ok e →
       session_context_error (conn w) (key_command (as_describe e))
         (as_describe e) = None →
       duck_execute (duck w)
         (sql_duckdb (transform_chain (database (conn w)) (as_describe e))) p
         = (d, Some x) →
       (describe text p w).1 = Raise (engine_error_handlers (DuckError x))).
Proof.
  split.
  - intros x Hparse.
    unfold describe, mbind, M_bind, record_event, call. by rewrite Hparse.
  - intros e d x Hparse Hcheck Hd.
    unfold describe. unfold mbind at 1. unfold M_bind, record_event.
    unfold mbind at 1. unfold M_bind, call. rewrite Hparse.
    unfold mbind at 1. unfold M_bind.
    edestruct (execute_engine_raises_world (CmdExpr (as_describe e)) p
                 (mkWorld (conn w) (cur w) (duck w) (trace w ++ [Parsed text])))
      as (w' & -> & _); [reflexivity|exact Hcheck|exact Hd|]. done.
Qed.

(** X28. When the engine has run the described statement, [describe] gives
    what [_describe_as_result_metadata] makes of the rows fetched: the
    descriptors, or [NotImplementedError] for a column type it does not
    know, raised after the statement has run and its result was fetched. *)
Theorem describe_maps_fetched_rows (text : string) p w e d
    (rows : list describe_row) (d' : DuckDB Native) :
  parse_one text = Ok e →
  session_context_error (conn w) (key_command (as_describe e)) (as_describe e)
    = None →
  let t := transform_chain (database (conn w)) (as_describe e) in
  duck_execute (duck w) (sql_duckdb t) p = (d, None) →
  String.eqb (key_command (as_describe e)) "USE DATABASE" = false →
  String.eqb (key_command (as_describe e)) "USE SCHEMA" = false →
  args_create_db_name t = None →
  args_table_comment t = None →
  args_text_lengths t = None →
  duck_fetchall d = (rows, d') →
  (describe text p w).1 = _describe_as_result_metadata rows
  ∧ duck (describe text p w).2 = d'
  ∧ conn (describe text p w).2 = conn w.
Proof.
  intros Hparse Hcheck t Hd Hdb Hsc Hcreate Hcomment Hlengths Hfetch.
  pose (w1 := mkWorld (conn w) (cur w) (duck w) (trace w ++ [Parsed text])).
  destruct (execute_plain (CmdExpr (as_describe e)) p w1 (as_describe e)
              (reset_arrow_table w1).2 d eq_refl Hcheck Hd Hdb Hsc Hcreate
              Hcomment Hlengths) as (w3 & Hrun & Hduck3 & Hconn3).
  assert (Hdescribe : describe text p w =
            (_describe_as_result_metadata rows,
             mkWorld (conn w3) (cur w3) d' (trace w3))).
  { unfold describe. unfold mbind at 1. unfold M_bind, record_event.
    unfold mbind at 1. unfold M_bind, call. rewrite Hparse.
    unfold mbind at 1. unfold M_bind. fold w1. rewrite Hrun.
    unfold mbind, M_bind, _duck_conn_fetchall. rewrite Hduck3, Hfetch.
    by destruct (_describe_as_result_metadata rows). }
  rewrite Hdescribe. done.
Qed.

End session_facts.

(** ** The further properties on the example instance *)

Section more_examples.
Import Example ExampleResults.

Lemma rewrite_params_leaves_no_marker_example :
  _rewrite_params "select %s, %s" (PSeq [1; 2]) (ready db_extended) =
    (Ok "select ?, ?", ready db_extended)
  ∧ has_percent_s "select ?, ?" = false.
Proof.
  refine (rewrite_params_leaves_no_marker (E := env) "select %s, %s" [1; 2]
            (ready db_extended) _ (or_introl eq_refl)).
  discriminate.
Defined.

Lemma rewrite_params_unchanged_example :
  _rewrite_params "select '%s'" (PSeq []) (ready db_extended) =
    (Ok "select '%s'", ready db_extended).
Proof.
  refine (rewrite_params_unchanged (E := env) "select '%s'" (PSeq [])
            (ready db_extended) _ (or_introl eq_refl)).
  discriminate.
Defined.

Lemma execute_parse_error_before_engine_example :
  let w := ready db_extended in
  let w1 := (parsed_expression (CmdStr "selec") PNone (reset_arrow_table w).2).2 in
  execute (CmdStr "selec") PNone w = (Raise (ParseError "Invalid expression"), w1)
  ∧ duck w1 = duck w ∧ conn w1 = conn w
  ∧ _last_sql (cur w1) = _last_sql (cur w)
  ∧ _last_params (cur w1) = _last_params (cur w)
  ∧ ∃ evs, trace w1 = (trace w ++ evs)%list ∧ forallb is_parse_event evs = true.
Proof.
  exact (execute_parse_error_before_engine (E := env) (CmdStr "selec") PNone
           (ready db_extended) _ _ eq_refl).
Defined.

Lemma execute_last_sql_example :
  let w := ready db_extended in
  let ran := execute (CmdStr "select * from t") (PSeq [1]) w in
  _last_sql (cur ran.2) = Some "SELECT * FROM T"
  ∧ _last_params (cur ran.2) = PSeq [1]
  ∧ ∀ returned w', ran = (Ok returned, w') →
      _last_sql returned = Some "SELECT * FROM T"
      ∧ _last_params returned = PSeq [1].
Proof.
  exact (proj1 (execute_last_sql (E := env) (CmdStr "select * from t") (PSeq [1])
                  (ready db_extended) select_t _ eq_refl) eq_refl).
Defined.

Lemma execute_other_engine_errors_example :
  (execute (E := env_no_parse) (CmdStr "select x from t") PNone
     ready_no_parse).1 =
    Raise (DuckError
             (DuckExn ParserException "Parser Error: syntax error at or near X")).
Proof.
  refine (execute_other_engine_errors (E := env_no_parse)
            (CmdStr "select x from t") PNone ready_no_parse
            select_x _ db_extended _ eq_refl eq_refl eq_refl _ _);
    discriminate.
Defined.

Lemma catalog_error_message_one_line_example :
  ∃ msg,
    (execute (CmdStr "select * from missing") PNone (ready db_extended)).1 =
      Raise (ProgrammingError msg 2003 "42S02")
    ∧ has_newline msg = false
    ∧ String.prefix msg catalog_message = true.
Proof.
  exact (catalog_error_message_one_line (E := env)
           (CmdStr "select * from missing") PNone (ready db_extended)
           select_missing _ db_extended catalog_message eq_refl eq_refl eq_refl).
Defined.

Lemma use_without_identifier_keeps_session_example :
  conn (execute (CmdExpr use_nothing) PNone (ready db_extended)).2 =
    session true true.
Proof.
  exact (use_without_identifier_keeps_session (E := env) (CmdExpr use_nothing)
           PNone (ready db_extended) use_nothing _ db_extended
           eq_refl eq_refl eq_refl (or_introl eq_refl)).
Defined.

Lemma table_comment_recorded_example :
  let w := ready db_extended in
  ∃ w' rows',
    record_table_comment comment_t w = (Ok tt, w')
    ∧ conn w' = conn w
    ∧ tables_ext_of (duck w') "DB1" = Some rows'
    ∧ Store.records ("DB1", "MAIN", "T") rows' =
        [(("DB1", "MAIN", "T"), Some "a table")]
    ∧ (∀ k, k ≠ ("DB1", "MAIN", "T") →
         Store.records k rows' = Store.records k [])
    ∧ columns_ext_of (duck w') "DB1" = columns_ext_of (duck w) "DB1".
Proof.
  refine (table_comment_recorded (E := env) comment_t (ready db_extended) T
            (Some "a table") [] eq_refl eq_refl eq_refl eq_refl eq_refl eq_refl
            _ _).
  - vm_compute. reflexivity.
  - apply NoDup_nil_2.
Defined.

Lemma comment_write_failure_is_raw_example :
  let w := ready db_fresh in
  ∃ msg w',
    execute (CmdExpr comment_t) PNone w =
      (Raise (DuckError (DuckExn CatalogException msg)), w')
    ∧ duck w' = db_fresh ∧ conn w' = conn w.
Proof.
  refine (comment_write_failure_is_raw (E := env) (CmdExpr comment_t) PNone
            (ready db_fresh) comment_t _ db_fresh T (Some "a table") fresh
            eq_refl eq_refl eq_refl eq_refl eq_refl eq_refl eq_refl
            eq_refl eq_refl eq_refl eq_refl eq_refl _ eq_refl).
  vm_compute. reflexivity.
Defined.

Lemma create_database_creates_extension_example :
  let w := ready db3_fresh in
  ∃ cursor1 w',
    execute (CmdExpr create_db3) PNone w = (Ok cursor1, w')
    ∧ conn w' = conn w
    ∧ tables_ext_of (duck w') "DB3" = Some []
    ∧ columns_ext_of (duck w') "DB3" = Some []
    ∧ has_view (duck w') "DB3" = true.
Proof.
  refine (create_database_creates_extension (E := env) (CmdExpr create_db3) PNone
            (ready db3_fresh) create_db3 _ db3_fresh "DB3"
            eq_refl eq_refl eq_refl eq_refl eq_refl eq_refl eq_refl eq_refl
            eq_refl eq_refl _).
  vm_compute. reflexivity.
Defined.

Lemma create_info_schema_ext_partial_example :
  ∃ msg w',
    _create_info_schema_ext "DB1" (ready db_partial) =
      (Raise (DuckError (DuckExn CatalogException msg)), w')
    ∧ tables_ext_of (duck w') "DB1" = Some []
    ∧ columns_ext_of (duck w') "DB1" = Some []
    ∧ has_view (duck w') "DB1" = false.
Proof.
  refine (create_info_schema_ext_partial (E := env) "DB1" (ready db_partial)
            (mkInfoSchemaExt None (Some []) false) [] eq_refl eq_refl _
            eq_refl eq_refl).
  vm_compute. reflexivity.
Defined.

Lemma executemany_app_example :
  let w := ready db_extended in
  executemany "select * from t" (SeqParams [PNone; PSeq [1]]) w =
    executemany "select * from t" (SeqParams [PSeq [1]])
      (executemany "select * from t" (SeqParams [PNone]) w).2.
Proof.
  exact (executemany_app (E := env) "select * from t" [PNone] [PSeq [1]]
           (ready db_extended) _ _ eq_refl).
Defined.

Lemma executemany_stops_at_first_failure_example :
  let w := ready db_extended in
  let wb := (execute (CmdStr "select x from t") PNone w).2 in
  executemany "select x from t" (SeqParams [PNone; PSeq [1]]) w =
    (Raise (ProgrammingError binder_message 2043 "02000"), wb)
  ∧ ∀ others,
      executemany "select x from t" (SeqParams (PNone :: others)) w =
        (Raise (ProgrammingError binder_message 2043 "02000"), wb).
Proof.
  exact (executemany_stops_at_first_failure (E := env) "select x from t" []
           [PSeq [1]] PNone (ready db_extended) _ _ _ _ eq_refl eq_refl).
Defined.

Lemma executemany_dict_parameter_set_example :
  let w := ready db_extended in
  let wa := (executemany "select * from t" (SeqParams [PNone]) w).2 in
  ∃ wb,
    executemany "select * from t" (SeqParams [PNone; PDict [(1, 2)]; PNone]) w =
      (Raise (NotImplementedError "dict params not supported yet"), wb)
    ∧ duck wb = duck wa ∧ trace wb = trace wa ∧ conn wb = conn wa.
Proof.
  exact (executemany_dict_parameter_set (E := env) "select * from t" [PNone]
           [PNone] [(1, 2)] (ready db_extended) _ _ eq_refl).
Defined.

Lemma decimal_with_suffix_example :
  as_result_metadata "AMOUNTS" "DECIMAL(18,3)[]" =
    Ok (mkResultMetadata "AMOUNTS" 0 None None (Some 18) (Some 3) true)
  ∧ (0 ≤ 18)%Z ∧ (0 ≤ 3)%Z.
Proof.
  exact (decimal_with_suffix "AMOUNTS" "18" "3" "[]" eq_refl eq_refl).
Defined.

Lemma describe_rows_in_order_example :
  name <$> [mkResultMetadata "NAME" 2 None (Some 16777216) None None true;
            mkResultMetadata "AMOUNT" 0 None None (Some 18) (Some 3) true]
    = d_column_name <$> described
  ∧ Forall (λ m, is_nullable m = true ∧ display_size m = None)
      [mkResultMetadata "NAME" 2 None (Some 16777216) None None true;
       mkResultMetadata "AMOUNT" 0 None None (Some 18) (Some 3) true].
Proof.
  exact (proj1 (describe_rows_in_order described) _ eq_refl).
Defined.

Lemma view_bigint_precision_example :
  let v := InfoSchema.mkColumnsSnowflakeRow
             (InfoSchema.with_snowflake_precision bigint_column) None None in
  ∃ r, r ∈ [name_column; bigint_column]
       ∧ InfoSchema.key (InfoSchema.columns v) = InfoSchema.key r
       ∧ InfoSchema.data_type (InfoSchema.columns v) = InfoSchema.data_type r
       ∧ InfoSchema.numeric_scale (InfoSchema.columns v) = InfoSchema.numeric_scale r
       ∧ (InfoSchema.data_type r = "BIGINT" →
          InfoSchema.numeric_precision (InfoSchema.columns v) = Some 38
          ∧ InfoSchema.numeric_precision_radix (InfoSchema.columns v) = Some 10)
       ∧ (InfoSchema.data_type r ≠ "BIGINT" → InfoSchema.columns v = r).
Proof.
  refine (view_bigint_precision [name_column; bigint_column] [] _ _).
  vm_compute. apply list_elem_of_further, list_elem_of_here.
Defined.

Lemma text_lengths_keep_other_records_example :
  let w := ready db_extended in
  ∃ w' rows',
    record_text_lengths create_t w = (Ok tt, w')
    ∧ conn w' = conn w
    ∧ columns_ext_of (duck w') "DB1" = Some rows'
    ∧ tables_ext_of (duck w') "DB1" = tables_ext_of (duck w) "DB1"
    ∧ ∀ k, (∀ column, column ∈ [("NAME", 50)].*1 →
              k ≠ ("DB1", "MAIN", "T", column)) →
           Store.records k rows' = Store.records k [].
Proof.
  refine (text_lengths_keep_other_records (E := env) create_t (ready db_extended)
            [("NAME", 50)] T [] eq_refl _ eq_refl eq_refl eq_refl eq_refl eq_refl
            _ _ _).
  - discriminate.
  - repeat constructor; simpl; lia.
  - repeat constructor. simpl. intros H. inversion H.
  - vm_compute. reflexivity.
Defined.

Lemma connection_init_session_example :
  let w' := (connection_init (Some "db1") (Some "main") true true
               (ready db_extended)).2 in
  database (conn w') = Some "DB1"
  ∧ schema (conn w') = Some "MAIN"
  ∧ _paramstyle (conn w') = "pyformat"
  ∧ (schema_set (conn w') = true →
     database_set (conn w') = true ∧ truthy (schema (conn w')) = true)
  ∧ (database_set (conn w') = true → truthy (database (conn w')) = true).
Proof.
  refine (connection_init_session (E := env) (Some "db1") (Some "main") true true
            (ready db_extended)
            (connection_init (Some "db1") (Some "main") true true
               (ready db_extended)).1 _ _).
  vm_compute. reflexivity.
Defined.

Lemma connection_init_without_database_example :
  let w := ready db_extended in
  connection_init None (Some "main") true true w =
    _duck_conn_execute "SET TimeZone = 'UTC'" PNone
      (mkWorld (mkConnection None (Some "MAIN") false false "pyformat")
         (cur w) (duck w) (trace w))
  ∧ trace (connection_init None (Some "main") true true w).2
    = (trace w ++ [Executed "SET TimeZone = 'UTC'" PNone])%list
  ∧ database_set (conn (connection_init None (Some "main") true true w).2) = false
  ∧ schema_set (conn (connection_init None (Some "main") true true w).2) = false.
Proof.
  exact (connection_init_without_database (E := env) None (Some "main") true true
           (ready db_extended) (or_introl eq_refl)).
Defined.

Lemma connection_init_sets_utc_last_example :
  last (trace (connection_init (Some "db1") (Some "main") true true
                 (ready db_extended)).2)
    = Some (Executed "SET TimeZone = 'UTC'" PNone).
Proof.
  refine (connection_init_sets_utc_last (E := env) (Some "db1") (Some "main") true
            true (ready db_extended) _ _).
  vm_compute. reflexivity.
Defined.

Lemma execute_string_cursors_example :
  let cursors := [mkCursor false (Some "SELECT * FROM T") PNone None;
                  mkCursor false (Some "CREATE TABLE T (NAME TEXT)") PNone None] in
  length cursors = length (omap id [Some select_t; Some create_t; None])
  ∧ Forall (λ c0, _use_dict_result c0 = false ∧ _arrow_table c0 = None) cursors.
Proof.
  refine (execute_string_cursors (E := env)
            "select * from t; create table t (name varchar(50));" false
            (ready db_extended) [Some select_t; Some create_t; None]
            [mkCursor false (Some "SELECT * FROM T") PNone None;
             mkCursor false (Some "CREATE TABLE T (NAME TEXT)") PNone None]
            (execute_string "select * from t; create table t (name varchar(50));"
               true false (ready db_extended)).2 eq_refl _).
  vm_compute. reflexivity.
Defined.

Lemma execute_string_stops_at_first_failure_example :
  let w := ready db_extended in
  let wb := (execute (CmdStr "select x from t") PNone
               (mkWorld (conn w) (mkCursor true None PNone None) (duck w)
                  (trace w))).2 in
  execute_string "select x from t; select * from t" true true w =
    (Raise (ProgrammingError binder_message 2043 "02000"), wb).
Proof.
  exact (execute_string_stops_at_first_failure (E := env)
           "select x from t; select * from t" true true (ready db_extended)
           [] [Some select_t] select_x [] _ _ _ eq_refl eq_refl eq_refl).
Defined.

Lemma describe_parses_text_as_given_example :
  describe (E := env) "selec %s" (PDict [(1, 2)]) (ready db_extended) =
    (Raise (ParseError "Invalid expression"),
     mkWorld (conn (ready db_extended)) (cur (ready db_extended))
       (duck (ready db_extended)) (trace (ready db_extended) ++ [Parsed "selec %s"]))
  ∧ (describe (E := env_no_parse) (R := results_no_parse) "select x from t"
       (PDict [(1, 2)]) ready_no_parse).1 =
      Raise (DuckError
               (DuckExn ParserException "Parser Error: syntax error at or near X")).
Proof.
  split.
  - exact (proj1 (describe_parses_text_as_given (E := env) "selec %s"
                    (PDict [(1, 2)]) (ready db_extended)) _ eq_refl).
  - exact (proj2 (describe_parses_text_as_given (E := env_no_parse)
                    (R := results_no_parse) "select x from t" (PDict [(1, 2)])
                    ready_no_parse) select_x db_extended _ eq_refl eq_refl eq_refl).
Defined.

Lemma describe_maps_fetched_rows_example :
  let w := ready db_extended in
  (describe "select * from t" PNone w).1 =
    Ok [mkResultMetadata "NAME" 2 None (Some 16777216) None None true;
        mkResultMetadata "AMOUNT" 0 None None (Some 18) (Some 3) true]
  ∧ duck (describe "select * from t" PNone w).2 = db_extended
  ∧ conn (describe "select * from t" PNone w).2 = conn w.
Proof.
  exact (describe_maps_fetched_rows (E := env) "select * from t" PNone
           (ready db_extended) select_t db_extended described db_extended
           eq_refl eq_refl eq_refl eq_refl eq_refl eq_refl eq_refl eq_refl
           eq_refl).
Defined.

End more_examples.

Section more_catalog_examples.
Import Example ExampleCatalog.
#[local] Existing Instance env_catalog.

(** The view over the two columns of [U], returned with the row of the
    column that has a record first. *)
Lemma view_one_row_per_column_example :
  let rows :=
    [InfoSchema.mkColumnsSnowflakeRow name_of_u (Some 50) (Some 200);
     InfoSchema.mkColumnsSnowflakeRow (InfoSchema.with_snowflake_precision id_of_u)
       None None] in
  rows ≡ₚ
    (λ r, InfoSchema.mkColumnsSnowflakeRow (InfoSchema.with_snowflake_precision r)
            (default (None, None)
               (Store.find (InfoSchema.key r)
                  [(("DB1", "SCHEMA1", "U", "NAME"), (Some 50, Some 200))])).1
            (default (None, None)
               (Store.find (InfoSchema.key r)
                  [(("DB1", "SCHEMA1", "U", "NAME"), (Some 50, Some 200))])).2)
    <$> [id_of_u; name_of_u]
  ∧ length rows = 2%nat.
Proof.
  refine (view_one_row_per_column (E := env_catalog) db_two_columns "DB1"
            [(("DB1", "SCHEMA1", "U", "NAME"), (Some 50, Some 200))] _ _ _ _).
  - vm_compute. reflexivity.
  - apply NoDup_singleton.
  - eexists. split; [vm_compute; reflexivity|apply perm_swap].
Defined.

End more_catalog_examples.
